(** * AgentEval core: schema validation, output parser and evaluator

    A shallow embedding of [core/schema.py], [core/parser.py],
    [core/evaluator.py] and [core/loader.py].

    - Python [str] values are [string]s whose characters are the code points
      0..255; [lower], [strip], [splitlines] and the regex classes follow
      Python's behaviour on that range.
    - Python [float] values are the kernel's binary64 floats ([PrimFloat]),
      so [-], [abs], [<] and [<=] are the IEEE operations Python performs.
    - Exceptions are explicit: a fallible function returns [result A]. *)

From Stdlib Require Import ZArith NArith List String Ascii Bool Lia.
From Stdlib Require Import PrimFloat SpecFloat FloatOps FloatAxioms.
From Stdlib Require Import Permutation Sorted.
From Stdlib Require OrderedTypeEx.
Import ListNotations.

Set Warnings "-inexact-float,-register-all".

(** ** Exceptions and the error monad *)

Inductive exn : Type :=
| SchemaError (msg : string)
| ValueError
| OverflowError
| AttributeError
| TypeError
| IndexError
| KeyError.

Inductive result (A : Type) : Type :=
| Ok (a : A)
| Raise (e : exn).

Arguments Ok {A} a.
Arguments Raise {A} e.

Definition bind {A B : Type} (m : result A) (f : A -> result B) : result B :=
  match m with
  | Ok a => f a
  | Raise e => Raise e
  end.

Declare Scope result_scope.
Delimit Scope result_scope with result.
Notation "x <- m ;; k" := (bind m (fun x => k))
  (at level 61, m at next level, right associativity) : result_scope.
Notation "m ;;; k" := (bind m (fun _ => k))
  (at level 61, right associativity) : result_scope.

Fixpoint mapM {A B : Type} (f : A -> result B) (l : list A) : result (list B) :=
  match l with
  | [] => Ok []
  | x :: l' =>
      bind (f x) (fun y => bind (mapM f l') (fun ys => Ok (y :: ys)))
  end.

(** ** Python strings *)

Module PyStr.
Open Scope string_scope.

Definition ord (c : ascii) : N := N_of_ascii c.
Definition chr (n : N) : ascii := ascii_of_N n.

Definition in_range (lo hi : N) (c : ascii) : bool :=
  (lo <=? ord c)%N && (ord c <=? hi)%N.

(** [str.isspace] on one character; also the regex class [\s]. *)
Definition isspace (c : ascii) : bool :=
  in_range 9 13 c || in_range 28 32 c || (ord c =? 133)%N || (ord c =? 160)%N.

(** The regex class [[0-9]]. *)
Definition isdigit (c : ascii) : bool := in_range 48 57 c.

Definition lower_char (c : ascii) : ascii :=
  if in_range 65 90 c || (in_range 192 222 c && negb (ord c =? 215)%N)
  then chr (ord c + 32)
  else c.

Fixpoint lower (s : string) : string :=
  match s with
  | "" => ""
  | String c s' => String (lower_char c) (lower s')
  end.

Definition is_empty (s : string) : bool :=
  match s with
  | "" => true
  | _ => false
  end.

(** Truthiness of a [str]. *)
Definition truthy (s : string) : bool := negb (is_empty s).

Fixpoint lstrip_by (p : ascii -> bool) (s : string) : string :=
  match s with
  | "" => ""
  | String c s' => if p c then lstrip_by p s' else s
  end.

Fixpoint rstrip_by (p : ascii -> bool) (s : string) : string :=
  match s with
  | "" => ""
  | String c s' =>
      let r := rstrip_by p s' in
      if p c && is_empty r then "" else String c r
  end.

Definition strip (s : string) : string := rstrip_by isspace (lstrip_by isspace s).

(** [s.rstrip(":")] *)
Definition rstrip_colon (s : string) : string :=
  rstrip_by (Ascii.eqb ":") s.

Fixpoint startswith (s p : string) : bool :=
  match p, s with
  | "", _ => true
  | String a p', String b s' => Ascii.eqb a b && startswith s' p'
  | String _ _, "" => false
  end.

(** [sub in s] *)
Fixpoint str_in (sub s : string) : bool :=
  startswith s sub ||
  match s with
  | "" => false
  | String _ s' => str_in sub s'
  end.

(** [sep.join(parts)] *)
Fixpoint join (sep : string) (parts : list string) : string :=
  match parts with
  | [] => ""
  | [p] => p
  | p :: rest => p ++ sep ++ join sep rest
  end.

(** Line boundaries recognised by [str.splitlines]. *)
Definition is_linebreak (c : ascii) : bool :=
  in_range 10 13 c || in_range 28 30 c || (ord c =? 133)%N.

Fixpoint splitlines_go (after_cr : bool) (cur : string) (s : string) : list string :=
  match s with
  | "" => if is_empty cur then [] else [cur]
  | String c s' =>
      if after_cr && (ord c =? 10)%N then splitlines_go false cur s'
      else if is_linebreak c then cur :: splitlines_go (ord c =? 13)%N "" s'
      else splitlines_go false (cur ++ String c "") s'
  end.

Definition splitlines (s : string) : list string := splitlines_go false "" s.

(** [s.split(sep, 1)] for a one-character separator. *)
Fixpoint split1 (sep : ascii) (s : string) : list string :=
  match s with
  | "" => [""]
  | String c s' =>
      if Ascii.eqb c sep then [""; s']
      else match split1 sep s' with
           | h :: t => String c h :: t
           | [] => [String c ""]
           end
  end.

Fixpoint all_chars (p : ascii -> bool) (s : string) : bool :=
  match s with
  | "" => true
  | String c s' => p c && all_chars p s'
  end.

(** Membership of a string in a literal set or list of strings. *)
Definition mem (s : string) (l : list string) : bool :=
  existsb (String.eqb s) l.

Definition nl : string := String (chr 10) "".

End PyStr.

(** ** Python floats *)

Module PyFloat.
Open Scope Z_scope.

(** The binary64 value nearest to the rational [p/q] (ties to even). *)
Definition float_of_ratio (p q : positive) : float :=
  SF2Prim (SFdiv prec emax (S754_finite false p 0) (S754_finite false q 0)).

(** [float(n)] for a Python [int]: correctly rounded, [OverflowError] when
    the result does not fit. *)
Definition float_of_int (z : Z) : result float :=
  let f := SF2Prim (binary_normalize prec emax z 0 false) in
  if PrimFloat.is_infinity f then Raise OverflowError else Ok f.

(** [float(b)] for a [bool]. *)
Definition float_of_bool (b : bool) : float :=
  if b then 1%float else 0%float.

(** Truthiness of a float: false exactly for [0.0] and [-0.0]. *)
Definition float_truthy (x : float) : bool := negb (PrimFloat.is_zero x).

Fixpoint digits_value (acc : N) (s : string) : N :=
  match s with
  | EmptyString => acc
  | String c s' => digits_value (10 * acc + (PyStr.ord c - 48))%N s'
  end.

Fixpoint span_digits (s : string) : string * string :=
  match s with
  | EmptyString => (EmptyString, EmptyString)
  | String c s' =>
      if PyStr.isdigit c
      then let (d, r) := span_digits s' in (String c d, r)
      else (EmptyString, s)
  end.

(** The value of the decimal literal [ip.fp] (both digit strings). *)
Definition float_of_decimal (ip fp : string) : float :=
  match digits_value 0 (ip ++ fp) with
  | N0 => 0%float
  | Npos p => float_of_ratio p (Z.to_pos (10 ^ Z.of_nat (String.length fp)))
  end.

(** [float(s)] on the unsigned decimal literals [digits] and [digits.digits].
    Every other string is reported as [ValueError]: Python accepts more
    (signs, exponents, surrounding blanks), so the model can only fail
    more often than the program does. *)
Definition py_float (s : string) : result float :=
  let (ip, r) := span_digits s in
  if PyStr.is_empty ip then Raise ValueError
  else match r with
       | EmptyString => Ok (float_of_decimal ip EmptyString)
       | String c fp =>
           if Ascii.eqb c "." && PyStr.truthy fp && PyStr.all_chars PyStr.isdigit fp
           then Ok (float_of_decimal ip fp)
           else Raise ValueError
       end.

(** [num/den] rounded to the nearest integer, ties to even ([den > 0]). *)
Definition round_half_even (num den : Z) : Z :=
  let q := num / den in
  let r := num mod den in
  match 2 * r ?= den with
  | Lt => q
  | Gt => q + 1
  | Eq => if Z.even q then q else q + 1
  end.

(** [round(x, 2)]: the exact value of [x] is rounded to a multiple of
    1/100 (ties to even) and that decimal is converted back to the nearest
    float; zeros, infinities and NaN round to themselves. *)
Definition round2 (x : float) : float :=
  match Prim2SF x with
  | S754_finite s m e =>
      let n := if 0 <=? e then 100 * Zpos m * 2 ^ e
               else round_half_even (100 * Zpos m) (2 ^ (- e)) in
      let r := match n with
               | Zpos p => float_of_ratio p 100
               | _ => 0%float
               end in
      if s then (- r)%float else r
  | _ => x
  end.

End PyFloat.


(** ** Regular expressions

    The patterns of [parser.py] are built from literals, character classes,
    sequence, alternation, greedy repetition of a character class and one
    capturing group.  [run] is a backtracking matcher in continuation
    style: alternatives are tried left to right and a repetition first
    takes as many characters as it can, as Python's [re] does. *)

Module Regex.
Import PyStr.
Open Scope string_scope.

Inductive regex : Type :=
| Eps
| Chr (p : ascii -> bool)
| Seq (r1 r2 : regex)
| Alt (r1 r2 : regex)
| Star (p : ascii -> bool)
| Group (r : regex).

(** A match: the text of group 0 and of group 1 (when it took part). *)
Record re_match : Type := mk_match {
  group0 : string;
  group1 : option string
}.

Fixpoint star {A : Type} (p : ascii -> bool) (s : string)
    (k : string -> string -> option A) : option A :=
  match s with
  | "" => k "" ""
  | String c s' =>
      if p c then
        match star p s' (fun w rest => k (String c w) rest) with
        | Some x => Some x
        | None => k "" s
        end
      else k "" s
  end.

Fixpoint run {A : Type} (r : regex) (s : string) (g : option string)
    (k : string -> string -> option string -> option A) : option A :=
  match r with
  | Eps => k "" s g
  | Chr p =>
      match s with
      | String c s' => if p c then k (String c "") s' g else None
      | "" => None
      end
  | Seq r1 r2 =>
      run r1 s g (fun w1 s1 g1 =>
        run r2 s1 g1 (fun w2 s2 g2 => k (w1 ++ w2) s2 g2))
  | Alt r1 r2 =>
      match run r1 s g k with
      | Some x => Some x
      | None => run r2 s g k
      end
  | Star p => star p s (fun w rest => k w rest g)
  | Group r1 => run r1 s g (fun w rest _ => k w rest (Some w))
  end.

(** [pattern.search(s)]: the match at the leftmost position that has one. *)
Fixpoint search (r : regex) (s : string) : option re_match :=
  match run r s None (fun w _ g => Some (mk_match w g)) with
  | Some m => Some m
  | None =>
      match s with
      | "" => None
      | String _ s' => search r s'
      end
  end.

(** Pattern combinators. *)
Definition Plus (p : ascii -> bool) : regex := Seq (Chr p) (Star p).
Definition Opt (r : regex) : regex := Alt r Eps.
Definition Lit (c : ascii) : regex := Chr (Ascii.eqb c).
(** A literal under [re.IGNORECASE] (the pattern character is a lower-case
    ASCII letter or has no case): among the code points 0..255 it matches
    itself and its upper case. *)
Definition LitI (c : ascii) : regex := Chr (fun x => Ascii.eqb (lower_char x) c).

Fixpoint Str (s : string) : regex :=
  match s with
  | "" => Eps
  | String c s' => Seq (Lit c) (Str s')
  end.

Fixpoint StrI (s : string) : regex :=
  match s with
  | "" => Eps
  | String c s' => Seq (LitI c) (StrI s')
  end.

Fixpoint seq (rs : list regex) : regex :=
  match rs with
  | [] => Eps
  | r :: rs' => Seq r (seq rs')
  end.

(** Character classes. *)
Definition ws : ascii -> bool := isspace.
Definition digit : ascii -> bool := isdigit.
Definition dot : ascii -> bool := fun c => negb (ord c =? 10)%N.
Definition digit_or_dot : ascii -> bool := fun c => isdigit c || Ascii.eqb c ".".
Definition url_char : ascii -> bool := fun c => negb (isspace c || Ascii.eqb c ")").

End Regex.

(** ** The output parser ([core/parser.py]) *)

Module Parser.
Import PyStr PyFloat Regex.
Open Scope string_scope.
Open Scope result_scope.

(** [\$\s*([0-9]+(?:\.[0-9]{2})?)] *)
Definition _RE_PRICE : regex :=
  seq [Lit "$"; Star ws;
       Group (Seq (Plus digit) (Opt (seq [Lit "."; Chr digit; Chr digit])))].

(** [https?://[^\s)]+] *)
Definition _RE_URL : regex :=
  seq [Str "http"; Opt (Lit "s"); Str "://"; Plus url_char].

(** [chosen retailer\s*\+\s*price\s*\+\s*url\s*:\s*(.+)], IGNORECASE *)
Definition _RE_CHOSEN : regex :=
  seq [StrI "chosen retailer"; Star ws; Lit "+"; Star ws; StrI "price";
       Star ws; Lit "+"; Star ws; StrI "url"; Star ws; Lit ":"; Star ws;
       Group (Plus dot)].

(** [within budget\s*\(?\$?[0-9.]+\s*hard cap\)?\?\s*(yes|no)], IGNORECASE *)
Definition _RE_WITHIN_BUDGET : regex :=
  seq [StrI "within budget"; Star ws; Opt (Lit "("); Opt (Lit "$");
       Plus digit_or_dot; Star ws; StrI "hard cap"; Opt (Lit ")"); Lit "?";
       Star ws; Group (Alt (StrI "yes") (StrI "no"))].

Record ParsedOffer : Type := mkParsedOffer {
  retailer : string;
  price_usd : option float;
  url : option string;
  availability : option string;
  seller : option string;
  variant_match : option bool;
  listing_id : option string;
  listing_id_type : option string
}.

Record ParsedAgentOutput : Type := mkParsedAgentOutput {
  raw_text : string;
  offers : list ParsedOffer;
  chosen : option ParsedOffer;
  within_budget : option bool
}.

(** A [dict] with [str] keys, kept in insertion order. *)
Definition dict (V : Type) : Type := list (string * V).

(** The fields captured for one retailer: a [dict[str, Optional[str]]]. *)
Definition fields_dict : Type := dict (option string).

Fixpoint get {V : Type} (d : dict V) (k : string) : option V :=
  match d with
  | [] => None
  | (k', v) :: d' => if String.eqb k' k then Some v else get d' k
  end.

(** [d[k] = v] *)
Fixpoint set {V : Type} (d : dict V) (k : string) (v : V) : dict V :=
  match d with
  | [] => [(k, v)]
  | (k', v') :: d' =>
      if String.eqb k' k then (k, v) :: d' else (k', v') :: set d' k v
  end.

(** [d[k]] *)
Definition getitem {V : Type} (d : dict V) (k : string) : result V :=
  match get d k with
  | Some v => Ok v
  | None => Raise KeyError
  end.

(** [d.setdefault(k, v)], for its effect on [d]. *)
Definition setdefault {V : Type} (d : dict V) (k : string) (v : V) : dict V :=
  match get d k with
  | Some _ => d
  | None => set d k v
  end.

(** [fields.get(k)]: [None] for a missing key and for a stored [None]. *)
Definition fields_get (fields : fields_dict) (k : string) : option string :=
  match get fields k with
  | Some v => v
  | None => None
  end.

(** [not fields.get(k)] *)
Definition unset (fields : fields_dict) (k : string) : bool :=
  match fields_get fields k with
  | Some v => negb (truthy v)
  | None => true
  end.

(** [m.group(1)] handed to an operation that needs a [str]: it raises
    [e] on [None]. *)
Definition group1_str (m : re_match) (e : exn) : result string :=
  match group1 m with
  | Some s => Ok s
  | None => Raise e
  end.

Definition _after_colon (line : string) : result string :=
  if str_in ":" line then
    match nth_error (split1 ":" line) 1 with
    | Some rest => Ok (strip rest)
    | None => Raise IndexError
    end
  else Ok (strip line).

Definition _infer_retailer (text : string) : option string :=
  let lower := lower text in
  if str_in "amazon" lower then Some "Amazon"
  else if str_in "best buy" lower || str_in "bestbuy" lower then Some "Best Buy"
  else if str_in "apple" lower then Some "Apple"
  else None.

Definition _capture_line_fields (fields : fields_dict) (line : string)
  : result fields_dict :=
  let fields :=
    match search _RE_PRICE line with
    | Some price_match =>
        if unset fields "price"
        then set fields "price" (group1 price_match)
        else fields
    | None => fields
    end in
  let fields :=
    match search _RE_URL line with
    | Some url_match =>
        if unset fields "url" then set fields "url" (Some (group0 url_match))
        else fields
    | None => fields
    end in
  fields <-
    (if str_in "availability" (lower line) && unset fields "availability"
     then (v <- _after_colon line ;; Ok (set fields "availability" (Some v)))
     else Ok fields) ;;
  fields <-
    (if str_in "seller" (lower line) && unset fields "seller"
     then (v <- _after_colon line ;; Ok (set fields "seller" (Some v)))
     else Ok fields) ;;
  if str_in "variant match" (lower line) && unset fields "variant_match"
  then
    v <- _after_colon line ;;
    let value := lower v in
    if mem value ["yes"; "true"] then Ok (set fields "variant_match" (Some "true"))
    else if mem value ["no"; "false"]
         then Ok (set fields "variant_match" (Some "false"))
         else Ok fields
  else Ok fields.

(** [float(v)] for an optional string: [TypeError] on [None]. *)
Definition float_of (v : option string) : result float :=
  match v with
  | Some s => py_float s
  | None => Raise TypeError
  end.

Definition _build_offer (retailer : string) (fields : fields_dict)
  : result ParsedOffer :=
  price_value <-
    (if negb (unset fields "price")
     then
       v <- getitem fields "price" ;;
       match float_of v with
       | Ok x => Ok (Some x)
       | Raise ValueError => Ok None
       | Raise e => Raise e
       end
     else Ok None) ;;
  let variant_match :=
    match fields_get fields "variant_match" with
    | Some v =>
        if String.eqb v "true" then Some true
        else if String.eqb v "false" then Some false
        else None
    | None => None
    end in
  Ok (mkParsedOffer retailer price_value (fields_get fields "url")
        (fields_get fields "availability") (fields_get fields "seller")
        variant_match None None).

(** [float(price_match.group(1)) if price_match else None] *)
Definition price_of_match (price_match : option re_match) : result (option float) :=
  match price_match with
  | Some m => x <- float_of (group1 m) ;; Ok (Some x)
  | None => Ok None
  end.

Definition url_of_match (url_match : option re_match) : option string :=
  option_map group0 url_match.

(** [a or b] on two optional matches (a match object is always truthy). *)
Definition or_match (a b : option re_match) : option re_match :=
  match a with
  | Some m => Some m
  | None => b
  end.

Definition or_unknown (retailer : option string) : string :=
  match retailer with
  | Some r => if truthy r then r else "Unknown"
  | None => "Unknown"
  end.

Definition chosen_label : list string :=
  ["chosen retailer + price + url"; "chosen retailer + price + url"].

(** [lines[i] if i < len(lines) else ""] *)
Definition line_at (lines : list string) (i : nat) : result string :=
  if Nat.ltb i (List.length lines) then
    match nth_error lines i with
    | Some l => Ok l
    | None => Raise IndexError
    end
  else Ok "".

Fixpoint chosen_by_lines_from (lines : list string) (idx : nat) (rest : list string)
  : result (option ParsedOffer) :=
  match rest with
  | [] => Ok None
  | line :: rest' =>
      let normalized := rstrip_colon (lower (strip line)) in
      if mem normalized chosen_label then
        next_line <- line_at lines (idx + 1) ;;
        next_next_line <- line_at lines (idx + 2) ;;
        if str_in "no valid choice" (lower next_line) then Ok None
        else
          let url_match := or_match (search _RE_URL next_line)
                                    (search _RE_URL next_next_line) in
          let price_match := or_match (search _RE_PRICE next_line)
                                      (search _RE_PRICE next_next_line) in
          let retailer := _infer_retailer next_line in
          price_value <- price_of_match price_match ;;
          let url := url_of_match url_match in
          Ok (Some (mkParsedOffer (or_unknown retailer) price_value url
                      None None None None None))
      else chosen_by_lines_from lines (S idx) rest'
  end.

Definition _parse_chosen_offer_by_lines (lines : list string)
  : result (option ParsedOffer) :=
  chosen_by_lines_from lines 0 lines.

Definition _parse_chosen_offer (raw_text : string) (lines : list string)
  : result (option ParsedOffer) :=
  match search _RE_CHOSEN raw_text with
  | None => _parse_chosen_offer_by_lines lines
  | Some m =>
      text <- group1_str m TypeError ;;
      let url_match := search _RE_URL text in
      let price_match := search _RE_PRICE text in
      let retailer := _infer_retailer text in
      price_value <- price_of_match price_match ;;
      let url := url_of_match url_match in
      Ok (Some (mkParsedOffer (or_unknown retailer) price_value url
                  None None None None None))
  end.

Fixpoint budget_by_lines_from (lines : list string) (idx : nat) (rest : list string)
  : result (option bool) :=
  match rest with
  | [] => Ok None
  | line :: rest' =>
      let normalized := lower (strip line) in
      if startswith normalized "within budget" then
        next_line <- line_at lines (idx + 1) ;;
        if startswith (lower next_line) "yes" then Ok (Some true)
        else if startswith (lower next_line) "no" then Ok (Some false)
        else budget_by_lines_from lines (S idx) rest'
      else budget_by_lines_from lines (S idx) rest'
  end.

Definition _parse_within_budget_by_lines (lines : list string)
  : result (option bool) :=
  budget_by_lines_from lines 0 lines.

Definition _parse_within_budget (raw_text : string) (lines : list string)
  : result (option bool) :=
  match search _RE_WITHIN_BUDGET raw_text with
  | None => _parse_within_budget_by_lines lines
  | Some m =>
      g <- group1_str m AttributeError ;;
      Ok (Some (String.eqb (lower g) "yes"))
  end.

(** [[line.strip() for line in text.splitlines() if line.strip()]] *)
Definition nonempty_lines (text : string) : list string :=
  map strip (filter (fun line => truthy (strip line)) (splitlines text)).

(** The state of the scan over the lines: the per-retailer field
    dictionaries (in insertion order) and the current retailer. *)
Record scan : Type := mkScan {
  offers_by_retailer : dict fields_dict;
  current_retailer : option string
}.

Definition scan_init : scan := mkScan [] None.

(** One iteration of [for line in lines]. *)
Definition scan_line (st : scan) (line : string) : result scan :=
  let lower := lower line in
  let current_retailer :=
    if str_in "amazon" lower then Some "Amazon"
    else if str_in "best buy" lower || str_in "bestbuy" lower then Some "Best Buy"
    else if str_in "apple" lower then Some "Apple"
    else current_retailer st in
  match current_retailer with
  | Some r =>
      if truthy r then
        let by_retailer := setdefault (offers_by_retailer st) r [] in
        fields <- getitem by_retailer r ;;
        fields' <- _capture_line_fields fields line ;;
        Ok (mkScan (set by_retailer r fields') current_retailer)
      else Ok (mkScan (offers_by_retailer st) current_retailer)
  | None => Ok (mkScan (offers_by_retailer st) current_retailer)
  end.

Fixpoint scan_lines (st : scan) (lines : list string) : result scan :=
  match lines with
  | [] => Ok st
  | line :: rest => st' <- scan_line st line ;; scan_lines st' rest
  end.

Definition parse_agent_output (raw_text : option string) : result ParsedAgentOutput :=
  let normalized_text :=
    match raw_text with
    | Some t => if truthy t then t else ""
    | None => ""
    end in
  let lines := nonempty_lines normalized_text in
  st <- scan_lines scan_init lines ;;
  offers <- mapM (fun '(retailer, fields) => _build_offer retailer fields)
                 (offers_by_retailer st) ;;
  chosen <- _parse_chosen_offer normalized_text lines ;;
  within_budget <- _parse_within_budget normalized_text lines ;;
  Ok (mkParsedAgentOutput normalized_text offers chosen within_budget).

End Parser.

(** ** Schema and validation ([core/schema.py]) *)

(** The library boundary: [datetime.fromisoformat] either parses its
    argument ([true]) or raises [ValueError] ([false]). *)
Class Datetime : Type := fromisoformat : string -> bool.

Module Schema.
Import PyStr PyFloat.
Open Scope string_scope.
Open Scope result_scope.

(** An untyped document, as [json.loads] delivers it. *)
Inductive json : Type :=
| JNull
| JBool (b : bool)
| JInt (n : Z)
| JFloat (x : float)
| JStr (s : string)
| JList (items : list json)
| JDict (entries : list (string * json)).

Fixpoint lookup (entries : list (string * json)) (key : string) : json :=
  match entries with
  | [] => JNull
  | (k, v) :: rest => if String.eqb k key then v else lookup rest key
  end.

(** [data.get(key)]: [None] for a missing key, [AttributeError] when
    [data] is not a [dict]. *)
Definition get (data : json) (key : string) : result json :=
  match data with
  | JDict entries => Ok (lookup entries key)
  | _ => Raise AttributeError
  end.

Definition endswith_Z (value : string) : bool :=
  match rev (list_ascii_of_string value) with
  | c :: _ => Ascii.eqb c "Z"
  | [] => false
  end.

Definition drop_last (value : string) : string :=
  string_of_list_ascii (removelast (list_ascii_of_string value)).

Definition _parse_iso8601 `{Datetime} (value : string) : result unit :=
  let value := if endswith_Z value then drop_last value ++ "+00:00" else value in
  if fromisoformat value then Ok tt else Raise ValueError.

Definition _require_dict (data : json) (key : string) : result json :=
  value <- get data key ;;
  match value with
  | JDict _ => Ok value
  | _ => Raise (SchemaError ("Expected object for '" ++ key ++ "'."))
  end.

Definition _require_list (data : json) (key : string) : result (list json) :=
  value <- get data key ;;
  match value with
  | JList items => Ok items
  | _ => Raise (SchemaError ("Expected list for '" ++ key ++ "'."))
  end.

Definition _opt_list (data : json) (key : string) : result (list json) :=
  value <- get data key ;;
  match value with
  | JNull => Ok []
  | JList items => Ok items
  | _ => Raise (SchemaError ("Expected list for '" ++ key ++ "'."))
  end.

Definition _require_str (data : json) (key : string) : result string :=
  value <- get data key ;;
  match value with
  | JStr s =>
      if truthy (strip s) then Ok (strip s)
      else Raise (SchemaError ("Expected non-empty string for '" ++ key ++ "'."))
  | _ => Raise (SchemaError ("Expected non-empty string for '" ++ key ++ "'."))
  end.

Definition _opt_str (data : json) (key : string) : result (option string) :=
  value <- get data key ;;
  match value with
  | JNull => Ok None
  | JStr s => Ok (Some (strip s))
  | _ => Raise (SchemaError ("Expected string for '" ++ key ++ "'."))
  end.

Definition _require_bool (data : json) (key : string) : result bool :=
  value <- get data key ;;
  match value with
  | JBool b => Ok b
  | _ => Raise (SchemaError ("Expected boolean for '" ++ key ++ "'."))
  end.

Definition _opt_bool (data : json) (key : string) : result (option bool) :=
  value <- get data key ;;
  match value with
  | JNull => Ok None
  | JBool b => Ok (Some b)
  | _ => Raise (SchemaError ("Expected boolean for '" ++ key ++ "'."))
  end.

(** [isinstance(value, (int, float))] holds for [bool] too, a subclass of
    [int]. *)
Definition _opt_float (data : json) (key : string) : result (option float) :=
  value <- get data key ;;
  match value with
  | JNull => Ok None
  | JBool b => Ok (Some (float_of_bool b))
  | JInt n => x <- float_of_int n ;; Ok (Some x)
  | JFloat x => Ok (Some x)
  | _ => Raise (SchemaError ("Expected number for '" ++ key ++ "'."))
  end.

Definition _require_str_list (data : json) (key : string) : result (list string) :=
  value <- get data key ;;
  match value with
  | JList ((_ :: _) as items) =>
      mapM (fun item =>
              match item with
              | JStr s =>
                  if truthy (strip s) then Ok (strip s)
                  else Raise (SchemaError ("Expected string items for '" ++ key ++ "'."))
              | _ => Raise (SchemaError ("Expected string items for '" ++ key ++ "'."))
              end) items
  | _ => Raise (SchemaError ("Expected non-empty list for '" ++ key ++ "'."))
  end.

Module AgentSpec.
Record t : Type := mk {
  name : string;
  version : option string;
  run_mode : option string
}.

Definition from_dict (data : json) : result t :=
  name <- _require_str data "name" ;;
  version <- _opt_str data "version" ;;
  run_mode <- _opt_str data "run_mode" ;;
  Ok (mk name version run_mode).
End AgentSpec.

Module ListingRef.
Record t : Type := mk {
  retailer : string;
  url : string;
  listing_id : option string;
  listing_id_type : option string
}.

Definition from_dict (data : json) : result t :=
  retailer <- _require_str data "retailer" ;;
  url <- _require_str data "url" ;;
  listing_id <- _opt_str data "listing_id" ;;
  listing_id_type <- _opt_str data "listing_id_type" ;;
  Ok (mk retailer url listing_id listing_id_type).
End ListingRef.

Module TaskRules.
Record t : Type := mk {
  allow_third_party : bool;
  allow_refurbished : bool;
  require_full_set : bool
}.

Definition from_dict (data : json) : result t :=
  allow_third_party <- _require_bool data "allow_third_party" ;;
  allow_refurbished <- _require_bool data "allow_refurbished" ;;
  require_full_set <- _require_bool data "require_full_set" ;;
  Ok (mk allow_third_party allow_refurbished require_full_set).
End TaskRules.

Module TaskSpec.
Record t : Type := mk {
  product_name : string;
  product_variant : option string;
  budget_usd : option float;
  currency : string;
  allowed_retailers : list string;
  rules : TaskRules.t;
  canonical_listings : list ListingRef.t
}.

Definition from_dict (data : json) : result t :=
  product_name <- _require_str data "product_name" ;;
  product_variant <- _opt_str data "product_variant" ;;
  budget_usd <- _opt_float data "budget_usd" ;;
  currency <- _require_str data "currency" ;;
  allowed_retailers <- _require_str_list data "allowed_retailers" ;;
  rules <- (d <- _require_dict data "rules" ;; TaskRules.from_dict d) ;;
  canonical_listings <-
    (items <- _opt_list data "canonical_listings" ;;
     mapM ListingRef.from_dict items) ;;
  Ok (mk product_name product_variant budget_usd currency allowed_retailers
         rules canonical_listings).
End TaskSpec.

Module AgentOutput.
Record t : Type := mk {
  raw_text : string;
  captured_at : string;
  source : option string
}.

Definition from_dict `{Datetime} (data : json) : result t :=
  raw_text <- _require_str data "raw_text" ;;
  captured_at <- _require_str data "captured_at" ;;
  _parse_iso8601 captured_at ;;;
  source <- _opt_str data "source" ;;
  Ok (mk raw_text captured_at source).
End AgentOutput.

Module EvidenceItem.
Record t : Type := mk {
  retailer : string;
  url : string;
  price_usd : option float;
  availability : option string;
  seller : option string;
  timestamp : string;
  variant_match : option bool;
  listing_id : option string;
  listing_id_type : option string;
  notes : option string
}.

Definition from_dict `{Datetime} (data : json) : result t :=
  timestamp <- _require_str data "timestamp" ;;
  _parse_iso8601 timestamp ;;;
  retailer <- _require_str data "retailer" ;;
  url <- _require_str data "url" ;;
  price_usd <- _opt_float data "price_usd" ;;
  availability <- _opt_str data "availability" ;;
  seller <- _opt_str data "seller" ;;
  variant_match <- _opt_bool data "variant_match" ;;
  listing_id <- _opt_str data "listing_id" ;;
  listing_id_type <- _opt_str data "listing_id_type" ;;
  notes <- _opt_str data "notes" ;;
  Ok (mk retailer url price_usd availability seller timestamp variant_match
         listing_id listing_id_type notes).
End EvidenceItem.

Module CaseStudy.
Record t : Type := mk {
  version : string;
  id : string;
  title : string;
  created_at : string;
  agent : AgentSpec.t;
  task : TaskSpec.t;
  agent_output : AgentOutput.t;
  evidence : list EvidenceItem.t;
  notes : option string
}.

Definition from_dict `{Datetime} (data : json) : result t :=
  version <- _require_str data "version" ;;
  id_value <- _require_str data "id" ;;
  title <- _require_str data "title" ;;
  created_at <- _require_str data "created_at" ;;
  _parse_iso8601 created_at ;;;
  agent <- (d <- _require_dict data "agent" ;; AgentSpec.from_dict d) ;;
  task <- (d <- _require_dict data "task" ;; TaskSpec.from_dict d) ;;
  agent_output <- (d <- _require_dict data "agent_output" ;; AgentOutput.from_dict d) ;;
  evidence <-
    (items <- _require_list data "evidence" ;;
     mapM EvidenceItem.from_dict items) ;;
  notes <- _opt_str data "notes" ;;
  Ok (mk version id_value title created_at agent task agent_output evidence notes).
End CaseStudy.

End Schema.

(** ** The evaluator ([core/evaluator.py]) *)

Module Evaluator.
Import PyStr PyFloat.
Import Schema.
Open Scope string_scope.
Open Scope result_scope.

Record EvaluationResult : Type := mkEvaluationResult {
  best_first_party_price_usd : option float;
  best_first_party_retailer : option string;
  agent_chosen_price_usd : option float;
  agent_chosen_retailer : option string;
  agent_choice_qualified : option bool;
  found_best_first_party_price : option bool;
  within_budget : option bool;
  money_left_on_table_usd : option float
}.

(** The table of expected first-party seller substrings. *)
Definition expected : Parser.dict string :=
  [("amazon", "amazon.com"); ("best buy", "best buy"); ("apple", "apple")].

Definition _is_first_party (item : EvidenceItem.t) : bool :=
  match EvidenceItem.seller item with
  | None => false
  | Some s =>
      let seller := lower (strip s) in
      let retailer := lower (strip (EvidenceItem.retailer item)) in
      match Parser.get expected retailer with
      | Some expected_seller =>
          if truthy expected_seller then str_in expected_seller seller else false
      | None => false
      end
  end.

(** [[part.lower() for part in parts if part]] *)
Fixpoint lowered_parts (parts : list (option string)) : list string :=
  match parts with
  | [] => []
  | Some part :: rest =>
      if truthy part then lower part :: lowered_parts rest else lowered_parts rest
  | None :: rest => lowered_parts rest
  end.

Definition refurbished_tokens : list string :=
  ["refurb"; "renewed"; "open-box"; "used"].

Definition _looks_refurbished (item : EvidenceItem.t) : bool :=
  let haystack :=
    join " " (lowered_parts [EvidenceItem.availability item;
                             EvidenceItem.notes item;
                             EvidenceItem.seller item]) in
  existsb (fun token => str_in token haystack) refurbished_tokens.

Definition is_true (b : option bool) : bool :=
  match b with
  | Some true => true
  | _ => false
  end.

Definition is_false (b : option bool) : bool :=
  match b with
  | Some false => true
  | _ => false
  end.

Definition _qualifies (item : EvidenceItem.t) (rules : TaskRules.t) : bool :=
  match EvidenceItem.price_usd item with
  | None => false
  | Some _ =>
      if TaskRules.require_full_set rules && negb (is_true (EvidenceItem.variant_match item))
      then false
      else if negb (TaskRules.allow_refurbished rules) && _looks_refurbished item
      then false
      else if negb (TaskRules.allow_third_party rules) && negb (_is_first_party item)
      then false
      else true
  end.

Definition _prices_equal (left right : option float) : bool :=
  match left, right with
  | Some l, Some r => (abs (l - r) <? 0.01)%float
  | _, _ => false
  end.

Definition opt_truthy (s : option string) : bool :=
  match s with
  | Some v => truthy v
  | None => false
  end.

Definition _match_offer_to_evidence (offer : option Parser.ParsedOffer)
    (evidence : list EvidenceItem.t) : option EvidenceItem.t :=
  match offer with
  | None => None
  | Some offer =>
      let by_url :=
        match Parser.url offer with
        | Some u =>
            if truthy u
            then find (fun item => String.eqb (EvidenceItem.url item) u) evidence
            else None
        | None => None
        end in
      match by_url with
      | Some item => Some item
      | None =>
          if truthy (Parser.retailer offer) then
            let matches :=
              filter (fun item => String.eqb (EvidenceItem.retailer item)
                                             (Parser.retailer offer)) evidence in
            match matches with
            | [item] => Some item
            | _ => None
            end
          else None
      end
  end.

(** [min(items, key=key)] after its first element: an item replaces the
    current one when its key is strictly smaller. *)
Fixpoint min_from {A : Type} (key : A -> float) (best : A) (items : list A) : A :=
  match items with
  | [] => best
  | item :: rest =>
      if (key item <? key best)%float then min_from key item rest
      else min_from key best rest
  end.

(** [item.price_usd or float("inf")] *)
Definition price_key (item : EvidenceItem.t) : float :=
  match EvidenceItem.price_usd item with
  | Some p => if float_truthy p then p else infinity
  | None => infinity
  end.

Definition has_price (item : EvidenceItem.t) : bool :=
  match EvidenceItem.price_usd item with
  | Some _ => true
  | None => false
  end.

Definition best_of (evidence : list EvidenceItem.t) (rules : TaskRules.t)
  : option EvidenceItem.t :=
  let qualifying := filter (fun item => _qualifies item rules) evidence in
  let qualifying_with_price := filter has_price qualifying in
  match qualifying_with_price with
  | [] => None
  | first :: rest => Some (min_from price_key first rest)
  end.

Definition evaluate_case_study (case_study : CaseStudy.t) : result EvaluationResult :=
  parsed <- Parser.parse_agent_output
              (Some (AgentOutput.raw_text (CaseStudy.agent_output case_study))) ;;
  let rules := TaskSpec.rules (CaseStudy.task case_study) in
  let best_item := best_of (CaseStudy.evidence case_study) rules in
  let chosen_offer := Parser.chosen parsed in
  let chosen_evidence :=
    _match_offer_to_evidence chosen_offer (CaseStudy.evidence case_study) in
  let agent_chosen_price := None in
  let agent_chosen_retailer := None in
  let '(agent_chosen_price, agent_chosen_retailer) :=
    match chosen_offer with
    | Some o => (Parser.price_usd o, Some (Parser.retailer o))
    | None => (agent_chosen_price, agent_chosen_retailer)
    end in
  let '(agent_chosen_price, agent_chosen_retailer) :=
    match chosen_evidence with
    | Some e =>
        match EvidenceItem.price_usd e with
        | Some p => (Some p, Some (EvidenceItem.retailer e))
        | None => (agent_chosen_price, agent_chosen_retailer)
        end
    | None => (agent_chosen_price, agent_chosen_retailer)
    end in
  let agent_choice_qualified :=
    match chosen_evidence with
    | Some e => Some (_qualifies e rules)
    | None => None
    end in
  let found_best :=
    match best_item, agent_chosen_price with
    | Some b, Some p =>
        if is_false agent_choice_qualified then Some false
        else
          let found_best := _prices_equal (Some p) (EvidenceItem.price_usd b) in
          if opt_truthy agent_chosen_retailer && truthy (EvidenceItem.retailer b)
          then Some (found_best &&
                     match agent_chosen_retailer with
                     | Some r => String.eqb r (EvidenceItem.retailer b)
                     | None => false
                     end)
          else Some found_best
    | _, _ => None
    end in
  let within_budget :=
    match TaskSpec.budget_usd (CaseStudy.task case_study), agent_chosen_price with
    | Some budget, Some p => Some (p <=? budget)%float
    | _, _ => None
    end in
  let money_left :=
    match best_item, agent_chosen_price with
    | Some b, Some p =>
        match EvidenceItem.price_usd b with
        | Some bp =>
            if negb (is_false agent_choice_qualified) then
              let delta := (p - bp)%float in
              Some (if (0 <? delta)%float then round2 delta else 0%float)
            else None
        | None => None
        end
    | _, _ => None
    end in
  Ok (mkEvaluationResult
        (match best_item with Some b => EvidenceItem.price_usd b | None => None end)
        (match best_item with Some b => Some (EvidenceItem.retailer b) | None => None end)
        agent_chosen_price agent_chosen_retailer agent_choice_qualified
        found_best within_budget money_left).

End Evaluator.

(** ** The language of a pattern

    What a successful run of the matcher has consumed, without the order
    in which alternatives are tried: [lang r w g g'] says that [r] matches
    exactly the text [w], taking group 1 from [g] to [g']. *)

Module RegexSem.
Import PyStr Regex.
Open Scope string_scope.

Fixpoint lang (r : regex) (w : string) (g g' : option string) : Prop :=
  match r with
  | Eps => w = "" /\ g' = g
  | Chr p => exists c, w = String c "" /\ p c = true /\ g' = g
  | Seq r1 r2 =>
      exists w1 w2 g1, w = w1 ++ w2 /\ lang r1 w1 g g1 /\ lang r2 w2 g1 g'
  | Alt r1 r2 => lang r1 w g g' \/ lang r2 w g g'
  | Star p => all_chars p w = true /\ g' = g
  | Group r1 => exists g1, lang r1 w g g1 /\ g' = Some w
  end.

(** The text ends with a character that is not white space. *)
Fixpoint ends_nonspace (e : string) : bool :=
  match e with
  | "" => false
  | String c "" => negb (isspace c)
  | String _ e' => ends_nonspace e'
  end.

Definition starts_nonspace (e : string) : bool :=
  match e with
  | "" => false
  | String c _ => negb (isspace c)
  end.

Fixpoint has_char (c : ascii) (s : string) : bool :=
  match s with
  | "" => false
  | String x s' => Ascii.eqb x c || has_char c s'
  end.

End RegexSem.

(** ** Vocabulary of the specification

    The notions the specification uses for the qualification rules, stated
    on the raw texts of an evidence item. *)

Module Spec.
Import PyStr Schema.
Open Scope string_scope.

(** [text] contains the lower-case [sub], ignoring the case of [text]. *)
Definition contains_ci (text sub : string) : bool := str_in sub (lower text).

(** The seller substring configured for a retailer name (the name is
    looked up trimmed and in lower case). *)
Definition expected_seller (retailer : string) : option string :=
  Parser.get Evaluator.expected (lower (strip retailer)).

(** The item has seller text that contains the substring expected for its
    retailer. *)
Definition first_party (item : EvidenceItem.t) : Prop :=
  exists s e,
    EvidenceItem.seller item = Some s /\
    expected_seller (EvidenceItem.retailer item) = Some e /\
    contains_ci s e = true.

(** None of the availability, seller and notes texts contains a
    refurbished-signal keyword. *)
Definition no_refurbished_signal (item : EvidenceItem.t) : Prop :=
  forall text token,
    In (Some text) [EvidenceItem.availability item;
                    EvidenceItem.seller item;
                    EvidenceItem.notes item] ->
    In token ["refurb"; "renewed"; "open-box"; "used"] ->
    contains_ci text token = false.

End Spec.

(** ** Vocabulary for the scan over the lines *)

Module ScanSpec.
Import PyStr Parser.
Open Scope string_scope.

(** The value recorded for field [k] of retailer [r], if any. *)
Definition field_of (st : scan) (r k : string) : option string :=
  match get (offers_by_retailer st) r with
  | Some fields => fields_get fields k
  | None => None
  end.

(** The fields whose captures are never empty. *)
Definition nonempty_keys : list string := ["price"; "url"; "variant_match"].

(** Every value recorded under one of [nonempty_keys] is non-empty. *)
Definition good (fields : fields_dict) : Prop :=
  forall k v, fields_get fields k = Some v -> In k nonempty_keys -> truthy v = true.

(** [f'] keeps every non-empty value of [f]. *)
Definition keeps (f f' : fields_dict) : Prop :=
  forall k v,
    fields_get f k = Some v -> truthy v = true -> fields_get f' k = Some v.

Definition scan_good (st : scan) : Prop :=
  forall r f, get (offers_by_retailer st) r = Some f -> good f.

Definition scan_keeps (st st' : scan) : Prop :=
  forall r f, get (offers_by_retailer st) r = Some f ->
    exists f', get (offers_by_retailer st') r = Some f' /\ keeps f f'.

End ScanSpec.

(** ** Vocabulary for the parser's patterns *)

Module ParserSpec.
Import PyStr Regex Parser.
Open Scope string_scope.

(** [raw_text or ""] *)
Definition text_of (raw_text : option string) : string :=
  match raw_text with
  | Some t => if truthy t then t else ""
  | None => ""
  end.

Definition is_some {A : Type} (o : option A) : bool :=
  match o with
  | Some _ => true
  | None => false
  end.

(** The text shows one of the patterns the parser looks for: a line that
    names a known retailer, the chosen-offer pattern or its label line, the
    within-budget pattern or a line that starts with its label. *)
Definition recognizable (text : string) : bool :=
  let lines := nonempty_lines text in
  existsb (fun line => is_some (_infer_retailer line)) lines
  || is_some (search _RE_CHOSEN text)
  || existsb (fun line => mem (rstrip_colon (lower (strip line))) chosen_label) lines
  || is_some (search _RE_WITHIN_BUDGET text)
  || existsb (fun line => startswith (lower (strip line)) "within budget") lines.

(** A chosen offer carries a non-empty retailer name and, when it has a
    url, a non-empty one. *)
Definition offer_shape (o : ParsedOffer) : Prop :=
  truthy (retailer o) = true /\ forall u, url o = Some u -> truthy u = true.

End ParserSpec.

(** ** Vocabulary for the evaluator's results *)

Module EvalSpec.
Import PyStr Schema Evaluator.
Open Scope string_scope.

(** [item] is the first element of [l] with property [P]. *)
Definition first_with (P : EvidenceItem.t -> Prop) (l : list EvidenceItem.t)
    (item : EvidenceItem.t) : Prop :=
  exists l1 l2, l = (l1 ++ item :: l2)%list /\ P item /\ forall x, In x l1 -> ~ P x.

(** [item] is the one and only element of [l] with property [P]. *)
Definition only_with (P : EvidenceItem.t -> Prop) (l : list EvidenceItem.t)
    (item : EvidenceItem.t) : Prop :=
  exists l1 l2,
    l = (l1 ++ item :: l2)%list /\ P item /\ forall x, In x (l1 ++ l2)%list -> ~ P x.

Definition has_url (u : string) (item : EvidenceItem.t) : Prop :=
  EvidenceItem.url item = u.

Definition has_retailer (r : string) (item : EvidenceItem.t) : Prop :=
  EvidenceItem.retailer item = r.

(** A retailer field of the result is known: present and not empty. *)
Definition known (r : option string) : bool := opt_truthy r.

(** When both retailers are known they are equal. *)
Definition retailers_agree (res : EvaluationResult) : bool :=
  match agent_chosen_retailer res, best_first_party_retailer res with
  | Some r, Some br =>
      if known (Some r) && known (Some br) then String.eqb r br else true
  | _, _ => true
  end.

(** An ordinary price: known, not zero and not NaN. *)
Definition ordinary_price (item : EvidenceItem.t) : bool :=
  match EvidenceItem.price_usd item with
  | Some p => PyFloat.float_truthy p && negb (PrimFloat.is_nan p)
  | None => false
  end.

(** [a] is priced strictly below [b]. *)
Definition cheaper (a b : EvidenceItem.t) : bool :=
  match EvidenceItem.price_usd a, EvidenceItem.price_usd b with
  | Some pa, Some pb => (pa <? pb)%float
  | _, _ => false
  end.


Definition floor_at_zero (d : float) : float :=
  if (0 <? d)%float then d else 0%float.

(** The chosen price minus the best price, floored at zero and rounded to
    two decimal places. *)
Definition shortfall (p bp : float) : float :=
  PyFloat.round2 (floor_at_zero (p - bp)).

End EvalSpec.

(** ** Sample documents and case studies *)

Module Examples.
Import PyStr Schema.
Open Scope string_scope.

Definition strict_rules : TaskRules.t := TaskRules.mk false false true.

Definition listing (retailer url : string) (price : float) (seller : string)
  : EvidenceItem.t :=
  EvidenceItem.mk retailer url (Some price) (Some "In stock") (Some seller)
    "2024-01-01T00:00:00Z" (Some true) None None None.

Definition case_study (raw_text : string) (evidence : list EvidenceItem.t)
  : CaseStudy.t :=
  CaseStudy.mk "1" "case-1" "Headphones" "2024-01-01T00:00:00Z"
    (AgentSpec.mk "agent" None None)
    (TaskSpec.mk "Headphones" None (Some 200%float) "USD"
       ["Amazon"; "Best Buy"; "Apple"] strict_rules [])
    (AgentOutput.mk raw_text "2024-01-01T00:00:00Z" None)
    evidence None.

Definition amazon (price : float) : EvidenceItem.t :=
  listing "Amazon" "https://amazon.example/x" price "Amazon.com".

Definition best_buy (price : float) : EvidenceItem.t :=
  listing "Best Buy" "https://bestbuy.example/x" price "Best Buy".

(** A free first-party offer next to a five-dollar one. *)
Definition free_offer_case : CaseStudy.t :=
  case_study "No decision." [amazon 0; best_buy 5].

(** The agent pays 102.00 at Amazon while Best Buy has 97.50. *)
Definition overpaid_case : CaseStudy.t :=
  case_study "Chosen retailer + price + url: Amazon $102.00 https://amazon.example/x"
    [amazon 102; best_buy 97.5].


Definition sample_rules : json :=
  JDict [("allow_third_party", JBool false);
         ("allow_refurbished", JBool false);
         ("require_full_set", JBool true)].

Definition sample_task (budget : json) : json :=
  JDict [("product_name", JStr "Headphones");
         ("budget_usd", budget);
         ("currency", JStr "USD");
         ("allowed_retailers", JList [JStr "Amazon"; JStr "Best Buy"]);
         ("rules", sample_rules)].

Definition sample_item (price : json) : json :=
  JDict [("retailer", JStr "Amazon");
         ("url", JStr "https://amazon.example/x");
         ("price_usd", price);
         ("seller", JStr "Amazon.com");
         ("timestamp", JStr "2024-01-01T00:00:00Z");
         ("variant_match", JBool true)].

Definition sample_doc (budget : json) (evidence : list json) : json :=
  JDict [("version", JStr "1");
         ("id", JStr "case-1");
         ("title", JStr "Headphones");
         ("created_at", JStr "2024-01-01T00:00:00Z");
         ("agent", JDict [("name", JStr "agent")]);
         ("task", sample_task budget);
         ("agent_output",
          JDict [("raw_text", JStr "No decision.");
                 ("captured_at", JStr "2024-01-01T00:00:00+00:00")]);
         ("evidence", JList evidence)].

(** A valid document: budget 200, one item priced 149.99. *)
Definition valid_doc : json :=
  sample_doc (JInt 200) [sample_item (JFloat 149.99)].

(** A document with a negative budget and a negative price. *)
Definition negative_doc : json :=
  sample_doc (JFloat (-1.5)) [sample_item (JInt (-5))].

(** A document whose evidence list is empty. *)
Definition no_evidence_doc : json := sample_doc (JInt 200) [].

(** A document whose budget and price are booleans. *)
Definition boolean_doc : json :=
  sample_doc (JBool true) [sample_item (JBool false)].

End Examples.

(** ** Editing documents and case studies *)

Module Docs.
Import PyStr Schema.
Open Scope string_scope.

(** [data[key]], [None] when absent or when [data] is not a [dict]. *)
Definition field (data : json) (key : string) : json :=
  match data with
  | JDict entries => lookup entries key
  | _ => JNull
  end.

(** [data] with [data[key] = v]. *)
Definition set_key (data : json) (key : string) (v : json) : json :=
  match data with
  | JDict entries => JDict ((key, v) :: entries)
  | _ => data
  end.

Fixpoint list_set {A : Type} (i : nat) (x : A) (l : list A) : list A :=
  match l, i with
  | [], _ => []
  | _ :: l', O => x :: l'
  | y :: l', S i' => y :: list_set i' x l'
  end.

(** The document with [task.budget_usd] set to [v]. *)
Definition with_budget (doc : json) (v : json) : json :=
  set_key doc "task" (set_key (field doc "task") "budget_usd" v).

(** The document with [evidence[i].price_usd] set to [v]. *)
Definition with_price (doc : json) (i : nat) (v : json) : json :=
  match field doc "evidence" with
  | JList items =>
      match nth_error items i with
      | Some item =>
          set_key doc "evidence" (JList (list_set i (set_key item "price_usd" v) items))
      | None => doc
      end
  | _ => doc
  end.

Definition set_budget_usd (task : TaskSpec.t) (b : option float) : TaskSpec.t :=
  TaskSpec.mk (TaskSpec.product_name task) (TaskSpec.product_variant task) b
    (TaskSpec.currency task) (TaskSpec.allowed_retailers task)
    (TaskSpec.rules task) (TaskSpec.canonical_listings task).

Definition set_task (cs : CaseStudy.t) (task : TaskSpec.t) : CaseStudy.t :=
  CaseStudy.mk (CaseStudy.version cs) (CaseStudy.id cs) (CaseStudy.title cs)
    (CaseStudy.created_at cs) (CaseStudy.agent cs) task
    (CaseStudy.agent_output cs) (CaseStudy.evidence cs) (CaseStudy.notes cs).

Definition set_evidence (cs : CaseStudy.t) (evidence : list EvidenceItem.t)
  : CaseStudy.t :=
  CaseStudy.mk (CaseStudy.version cs) (CaseStudy.id cs) (CaseStudy.title cs)
    (CaseStudy.created_at cs) (CaseStudy.agent cs) (CaseStudy.task cs)
    (CaseStudy.agent_output cs) evidence (CaseStudy.notes cs).

Definition set_price_usd (item : EvidenceItem.t) (p : option float) : EvidenceItem.t :=
  EvidenceItem.mk (EvidenceItem.retailer item) (EvidenceItem.url item) p
    (EvidenceItem.availability item) (EvidenceItem.seller item)
    (EvidenceItem.timestamp item) (EvidenceItem.variant_match item)
    (EvidenceItem.listing_id item) (EvidenceItem.listing_id_type item)
    (EvidenceItem.notes item).

(** The case study with the budget replaced. *)
Definition with_budget_usd (cs : CaseStudy.t) (b : option float) : CaseStudy.t :=
  set_task cs (set_budget_usd (CaseStudy.task cs) b).

(** The case study with the price of evidence item [i] replaced. *)
Definition with_price_usd (cs : CaseStudy.t) (i : nat) (p : option float)
  : CaseStudy.t :=
  match nth_error (CaseStudy.evidence cs) i with
  | Some item =>
      set_evidence cs (list_set i (set_price_usd item p) (CaseStudy.evidence cs))
  | None => cs
  end.

End Docs.

(** ** A timestamp parser for the sample documents *)

Module IsoFormat.
Import PyStr.
Open Scope char_scope.

Definition two (a b : ascii) : option N :=
  if isdigit a && isdigit b then Some (10 * (ord a - 48) + (ord b - 48))%N
  else None.

Definition below (bound : N) (n : option N) : bool :=
  match n with
  | Some v => (v <? bound)%N
  | None => false
  end.

Definition leap (y : N) : bool :=
  ((y mod 4 =? 0) && negb (y mod 100 =? 0) || (y mod 400 =? 0))%N.

Definition days_in_month (y m : N) : N :=
  match m with
  | 2%N => if leap y then 29 else 28
  | 4%N | 6%N | 9%N | 11%N => 30
  | _ => 31
  end.

Definition date_ok (y1 y2 y3 y4 m1 m2 d1 d2 : ascii) : bool :=
  match two y1 y2, two y3 y4, two m1 m2, two d1 d2 with
  | Some yh, Some yl, Some m, Some d =>
      let y := (100 * yh + yl)%N in
      ((1 <=? y) && (1 <=? m) && (m <=? 12) && (1 <=? d) && (d <=? days_in_month y m))%N
  | _, _, _, _ => false
  end.

Definition offset_ok (tz : list ascii) : bool :=
  match tz with
  | [] => true
  | [sign; h1; h2; ":"; m1; m2] =>
      (Ascii.eqb sign "+" || Ascii.eqb sign "-") &&
      below 24 (two h1 h2) && below 60 (two m1 m2)
  | _ => false
  end.

Definition time_ok (rest : list ascii) : bool :=
  match rest with
  | [] => true
  | _ :: h1 :: h2 :: ":" :: m1 :: m2 :: ":" :: s1 :: s2 :: tz =>
      below 24 (two h1 h2) && below 60 (two m1 m2) && below 60 (two s1 s2) &&
      offset_ok tz
  | _ => false
  end.

(** The timestamps [YYYY-MM-DD] and [YYYY-MM-DD?HH:MM:SS], the latter with
    an optional [+HH:MM] or [-HH:MM] offset: formats that
    [datetime.fromisoformat] parses.  Any other text is reported as
    invalid, so this parser accepts no more than the library does. *)
Definition fromisoformat_core (value : string) : bool :=
  match list_ascii_of_string value with
  | y1 :: y2 :: y3 :: y4 :: "-" :: m1 :: m2 :: "-" :: d1 :: d2 :: rest =>
      date_ok y1 y2 y3 y4 m1 m2 d1 d2 && time_ok rest
  | _ => false
  end.

Definition core : Datetime := fromisoformat_core.

End IsoFormat.

(** ** Vocabulary for constructed case studies *)

Module SchemaSpec.
Import PyStr Schema Docs.
Open Scope string_scope.

(** A text without surrounding white space. *)
Definition trimmed (s : string) : Prop := strip s = s.

Definition listing_strings (l : ListingRef.t) : list string :=
  [ListingRef.retailer l; ListingRef.url l].

Definition evidence_strings (e : EvidenceItem.t) : list string :=
  [EvidenceItem.retailer e; EvidenceItem.url e; EvidenceItem.timestamp e].

(** The required strings of a case study. *)
Definition required_strings (cs : CaseStudy.t) : list string :=
  ([CaseStudy.version cs; CaseStudy.id cs; CaseStudy.title cs;
    CaseStudy.created_at cs;
    AgentSpec.name (CaseStudy.agent cs);
    TaskSpec.product_name (CaseStudy.task cs);
    TaskSpec.currency (CaseStudy.task cs);
    AgentOutput.raw_text (CaseStudy.agent_output cs);
    AgentOutput.captured_at (CaseStudy.agent_output cs)]
   ++ TaskSpec.allowed_retailers (CaseStudy.task cs)
   ++ flat_map listing_strings (TaskSpec.canonical_listings (CaseStudy.task cs))
   ++ flat_map evidence_strings (CaseStudy.evidence cs))%list.

Definition listing_optionals (l : ListingRef.t) : list (option string) :=
  [ListingRef.listing_id l; ListingRef.listing_id_type l].

Definition evidence_optionals (e : EvidenceItem.t) : list (option string) :=
  [EvidenceItem.availability e; EvidenceItem.seller e;
   EvidenceItem.listing_id e; EvidenceItem.listing_id_type e;
   EvidenceItem.notes e].

(** The optional strings of a case study. *)
Definition optional_strings (cs : CaseStudy.t) : list (option string) :=
  ([AgentSpec.version (CaseStudy.agent cs);
    AgentSpec.run_mode (CaseStudy.agent cs);
    TaskSpec.product_variant (CaseStudy.task cs);
    AgentOutput.source (CaseStudy.agent_output cs);
    CaseStudy.notes cs]
   ++ flat_map listing_optionals (TaskSpec.canonical_listings (CaseStudy.task cs))
   ++ flat_map evidence_optionals (CaseStudy.evidence cs))%list.

(** The timestamps of a case study. *)
Definition timestamps (cs : CaseStudy.t) : list string :=
  ([CaseStudy.created_at cs; AgentOutput.captured_at (CaseStudy.agent_output cs)]
   ++ map EvidenceItem.timestamp (CaseStudy.evidence cs))%list.

(** The keys each constructor reads. *)
Definition case_keys : list string :=
  ["version"; "id"; "title"; "created_at"; "agent"; "task"; "agent_output";
   "evidence"; "notes"].
Definition agent_keys : list string := ["name"; "version"; "run_mode"].
Definition task_keys : list string :=
  ["product_name"; "product_variant"; "budget_usd"; "currency";
   "allowed_retailers"; "rules"; "canonical_listings"].
Definition rules_keys : list string :=
  ["allow_third_party"; "allow_refurbished"; "require_full_set"].
Definition output_keys : list string := ["raw_text"; "captured_at"; "source"].
Definition evidence_keys : list string :=
  ["timestamp"; "retailer"; "url"; "price_usd"; "availability"; "seller";
   "variant_match"; "listing_id"; "listing_id_type"; "notes"].
Definition listing_keys : list string :=
  ["retailer"; "url"; "listing_id"; "listing_id_type"].

(** A value that is a string with something besides white space. *)
Definition is_text (v : json) : bool :=
  match v with
  | JStr s => truthy (strip s)
  | _ => false
  end.

Definition is_object (v : json) : bool :=
  match v with
  | JDict _ => true
  | _ => false
  end.

Definition is_list (v : json) : bool :=
  match v with
  | JList _ => true
  | _ => false
  end.

Definition is_boolean (v : json) : bool :=
  match v with
  | JBool _ => true
  | _ => false
  end.

(** A value the number validator refuses for its type: a string, a list or
    an object. *)
Definition not_a_number (v : json) : bool :=
  match v with
  | JStr _ | JList _ | JDict _ => true
  | _ => false
  end.

(** The document with evidence entry [i] replaced by [item]. *)
Definition with_item (doc : json) (i : nat) (item : json) : json :=
  match field doc "evidence" with
  | JList items =>
      match nth_error items i with
      | Some _ => set_key doc "evidence" (JList (list_set i item items))
      | None => doc
      end
  | _ => doc
  end.

(** The document with [evidence[i][key]] set to [v]. *)
Definition with_item_field (doc : json) (i : nat) (key : string) (v : json) : json :=
  match field doc "evidence" with
  | JList items =>
      match nth_error items i with
      | Some item => with_item doc i (set_key item key v)
      | None => doc
      end
  | _ => doc
  end.

(** The document with [task.rules[key]] set to [v]. *)
Definition with_rule (doc : json) (key : string) (v : json) : json :=
  set_key doc "task"
    (set_key (field doc "task") "rules"
       (set_key (field (field doc "task") "rules") key v)).

End SchemaSpec.

(** ** Vocabulary for the parsed offers *)

Module OfferSpec.
Import PyStr Parser ParserSpec.
Open Scope string_scope.

(** The keys of a [dict], in insertion order. *)
Definition keys {V : Type} (d : dict V) : list string := map fst d.

Definition known_retailers : list string := ["Amazon"; "Best Buy"; "Apple"].

(** Some line names the retailer [r]: it is the retailer the parser infers
    from that line. *)
Definition named (lines : list string) (r : string) : Prop :=
  exists line, In line lines /\ _infer_retailer line = Some r.

(** The lower-case keywords that stand for a retailer. *)
Definition keywords (r : string) : list string :=
  if String.eqb r "Amazon" then ["amazon"]
  else if String.eqb r "Best Buy" then ["best buy"; "bestbuy"]
  else if String.eqb r "Apple" then ["apple"]
  else [].

(** [text] contains [sub], ignoring the case of [text]. *)
Definition contains_ci (text sub : string) : bool := str_in sub (lower text).

(** The text mentions the retailer [r] by one of its keywords. *)
Definition mentions (text r : string) : bool :=
  existsb (contains_ci text) (keywords r).

(** The scan keeps one record per retailer, and the current retailer has
    one. *)
Definition scan_wf (st : scan) : Prop :=
  NoDup (keys (offers_by_retailer st)) /\
  forall r, current_retailer st = Some r -> In r (keys (offers_by_retailer st)).

(** [l] occurs in [s]. *)
Definition part_of (l s : string) : Prop := exists a b, s = a ++ l ++ b.

End OfferSpec.

(** ** A further sample case study *)

Module MoreExamples.
Import PyStr Schema Examples.
Open Scope string_scope.

(** The agent picks the cheapest first-party offer. *)
Definition best_pick_case : CaseStudy.t :=
  case_study
    "Chosen retailer + price + url: Best Buy $97.50 https://bestbuy.example/x"
    [amazon 102; best_buy 97.5].

End MoreExamples.

(** ** The loader ([core/loader.py]) *)

(** [json.loads]: the decoded value, or the text of the [JSONDecodeError]. *)
Inductive decoded : Type :=
| Decoded (data : Schema.json)
| JSONDecodeError (exc : string).

Class JsonDecoder := json_loads : string -> decoded.

Module Loader.
Import PyStr Schema.
Open Scope string_scope.

(** What the loader sees of the fixtures directory.  An entry is known by
    its name; the entries of one directory are ordered by [pathlib] as
    their names are. *)
Record Directory : Type := mkDirectory {
  (** [fixtures_dir.exists()] *)
  dir_exists : bool;
  (** the entries matched by [fixtures_dir.glob("*.json")], as listed *)
  glob_json : list string;
  (** [p.is_file()] *)
  is_file : string -> bool;
  (** [str(path)] *)
  path_str : string -> string;
  (** [path.read_text(encoding="utf-8")], [None] when it raises *)
  read_text : string -> option string
}.

(** The exceptions that leave [load_case_studies]: its own, the one of a
    failed read, and the exceptions of [CaseStudy.from_dict] it does not
    catch. *)
Inductive load_exn : Type :=
| CaseStudyLoadError (msg : string)
| ReadFailure
| Escaped (e : exn).

Inductive outcome (A : Type) : Type :=
| Loaded (a : A)
| Failed (e : load_exn).

Arguments Loaded {A} a.
Arguments Failed {A} e.

Fixpoint insert (p : string) (l : list string) : list string :=
  match l with
  | [] => [p]
  | q :: l' => if String.ltb p q then p :: l else q :: insert p l'
  end.

(** [sorted(paths)] *)
Definition sorted (paths : list string) : list string :=
  fold_right insert [] paths.

Definition iter_case_study_files (fixtures_dir : Directory) : list string :=
  if negb (dir_exists fixtures_dir) then []
  else sorted (filter (is_file fixtures_dir) (glob_json fixtures_dir)).

Section Load.
Context {D : Datetime} {J : JsonDecoder}.

(** The loop of [load_case_studies], from the list [case_studies] built
    so far. *)
Fixpoint load_loop (fixtures_dir : Directory) (case_studies : list CaseStudy.t)
    (paths : list string) : outcome (list CaseStudy.t) :=
  match paths with
  | [] => Loaded case_studies
  | path :: rest =>
      match read_text fixtures_dir path with
      | None => Failed ReadFailure
      | Some text =>
          match json_loads text with
          | JSONDecodeError exc =>
              Failed (CaseStudyLoadError
                        ("Invalid JSON in " ++ path_str fixtures_dir path ++ ": " ++ exc))
          | Decoded data =>
              match CaseStudy.from_dict data with
              | Raise (SchemaError exc) =>
                  Failed (CaseStudyLoadError
                            ("Schema error in " ++ path_str fixtures_dir path
                               ++ ": " ++ exc))
              | Raise e => Failed (Escaped e)
              | Ok case_study =>
                  load_loop fixtures_dir (case_studies ++ [case_study])%list rest
              end
          end
      end
  end.

Definition load_case_studies (fixtures_dir : Directory)
  : outcome (list CaseStudy.t) :=
  load_loop fixtures_dir [] (iter_case_study_files fixtures_dir).

End Load.
End Loader.

(** ** Vocabulary for the loader *)

Module LoaderSpec.
Import PyStr Schema Loader.
Open Scope string_scope.

(** The directory listed in another order. *)
Definition relist (d : Directory) (names : list string) : Directory :=
  mkDirectory (dir_exists d) names (is_file d) (path_str d) (read_text d).

(** [p] precedes [q] in the order of names, or is [q]. *)
Definition name_le (p q : string) : Prop := String.ltb q p = false.

Section Load.
Context {D : Datetime} {J : JsonDecoder}.

(** What reading, decoding and validating one file gives. *)
Definition load_file (d : Directory) (path : string) : outcome CaseStudy.t :=
  match read_text d path with
  | None => Failed ReadFailure
  | Some text =>
      match json_loads text with
      | JSONDecodeError exc =>
          Failed (CaseStudyLoadError
                    ("Invalid JSON in " ++ path_str d path ++ ": " ++ exc))
      | Decoded data =>
          match CaseStudy.from_dict data with
          | Raise (SchemaError exc) =>
              Failed (CaseStudyLoadError
                        ("Schema error in " ++ path_str d path ++ ": " ++ exc))
          | Raise e => Failed (Escaped e)
          | Ok cs => Loaded cs
          end
      end
  end.

Definition loads_well (d : Directory) (path : string) : Prop :=
  exists cs, load_file d path = Loaded cs.

End Load.

(** A directory of files that all hold the same text. *)
Definition uniform_dir (names : list string) (text : string) : Directory :=
  mkDirectory true names (fun _ => true) (fun name => "fixtures/" ++ name)
    (fun _ => Some text).

End LoaderSpec.

(** A decoder for the sample directories: the text "[]" is the empty
    list, every other text the valid sample document. *)
Definition sample_decoder : JsonDecoder :=
  fun text => if String.eqb text "[]" then Decoded (Schema.JList [])
              else Decoded Examples.valid_doc.

(** ** Vocabulary for the captured fields and the emitted offers *)

Module CaptureSpec.
Import PyStr PyFloat Regex Parser ScanSpec ParserSpec.
Open Scope string_scope.

(** The per-retailer fields. *)
Definition field_keys : list string :=
  ["price"; "url"; "availability"; "seller"; "variant_match"].

(** The value recorded for the price spells a number, the one recorded for
    the variant match is "true" or "false". *)
Definition typed (fields : fields_dict) : Prop :=
  (forall v, fields_get fields "price" = Some v -> exists x, py_float v = Ok x) /\
  (forall v, fields_get fields "variant_match" = Some v -> v = "true" \/ v = "false").

Definition scan_typed (st : scan) : Prop :=
  forall r f, get (offers_by_retailer st) r = Some f -> typed f.

(** The offer [o] carries the value [v] recorded for the field [k]: its
    url, availability or seller is [v], its price the number [v] spells,
    its variant match the boolean [v] spells. *)
Definition carries (o : ParsedOffer) (k v : string) : Prop :=
  (k = "price" -> exists x, py_float v = Ok x /\ price_usd o = Some x) /\
  (k = "url" -> url o = Some v) /\
  (k = "availability" -> availability o = Some v) /\
  (k = "seller" -> seller o = Some v) /\
  (k = "variant_match" ->
   (v = "true" /\ variant_match o = Some true) \/
   (v = "false" /\ variant_match o = Some false)).

(** Some part of [text] matches the literal [kw] as the parser's patterns
    match it, under [re.IGNORECASE]. *)
Definition matches_ci (text kw : string) : bool :=
  is_some (search (StrI kw) text).

End CaptureSpec.

(** * Proofs *)

#[global] Arguments Ascii.eqb : simpl never.
#[global] Arguments String.eqb : simpl never.

(** ** Facts about strings *)

Section StringFacts.
Import PyStr RegexSem.
Open Scope string_scope.

Lemma is_empty_true (s : string) : is_empty s = true <-> s = "".
Proof. destruct s; simpl; split; congruence. Qed.

Lemma truthy_true (s : string) : truthy s = true <-> s <> "".
Proof. destruct s; unfold truthy; simpl; split; congruence. Qed.

Lemma truthy_false (s : string) : truthy s = false <-> s = "".
Proof. destruct s; unfold truthy; simpl; split; congruence. Qed.

Lemma append_empty_r (s : string) : s ++ "" = s.
Proof. induction s; simpl; congruence. Qed.

Lemma append_assoc (a b c : string) : (a ++ b) ++ c = a ++ (b ++ c).
Proof. induction a; simpl; congruence. Qed.

Lemma startswith_empty (s : string) : startswith s "" = true.
Proof. destruct s; reflexivity. Qed.

Lemma startswith_refl_app (p t : string) : startswith (p ++ t) p = true.
Proof.
  induction p as [|c p IH]; simpl.
  - destruct t; reflexivity.
  - rewrite Ascii.eqb_refl. exact IH.
Qed.

Lemma startswith_spec (s p : string) :
  startswith s p = true <-> exists t, s = p ++ t.
Proof.
  split.
  - revert s. induction p as [|a p IH]; intros s H.
    + exists s. reflexivity.
    + destruct s as [|b s]; simpl in H; [discriminate|].
      apply andb_true_iff in H. destruct H as [Hab H].
      apply Ascii.eqb_eq in Hab. subst b.
      destruct (IH _ H) as [t ->]. exists t. reflexivity.
  - intros [t ->]. apply startswith_refl_app.
Qed.

Lemma str_in_unfold (sub s : string) :
  str_in sub s =
  startswith s sub || match s with "" => false | String _ s' => str_in sub s' end.
Proof. destruct s; reflexivity. Qed.

Lemma str_in_spec (sub s : string) :
  str_in sub s = true <-> exists a b, s = a ++ sub ++ b.
Proof.
  split.
  - induction s as [|c s IH]; rewrite str_in_unfold; intros H;
      apply orb_true_iff in H; destruct H as [H|H].
    + apply startswith_spec in H. destruct H as [t Ht]. exists "", t. exact Ht.
    + discriminate.
    + apply startswith_spec in H. destruct H as [t Ht]. exists "", t. exact Ht.
    + destruct (IH H) as (a & b & ->). exists (String c a), b. reflexivity.
  - intros (a & b & ->). induction a as [|c a IH].
    + rewrite str_in_unfold. simpl append.
      rewrite startswith_refl_app. reflexivity.
    + simpl append. rewrite str_in_unfold. cbv iota.
      rewrite IH. apply orb_true_r.
Qed.

Lemma str_in_empty (sub : string) : sub <> "" -> str_in sub "" = false.
Proof. destruct sub; [congruence|reflexivity]. Qed.

(** A token without the separator character cannot straddle it. *)
Lemma startswith_app_sep (c : ascii) (tok a b : string) :
  has_char c tok = false ->
  startswith (a ++ String c b) tok = startswith a tok.
Proof.
  revert a. induction tok as [|t tok IH]; intros a H.
  - destruct a; reflexivity.
  - simpl in H. apply orb_false_iff in H. destruct H as [Htc H].
    destruct a as [|x a]; simpl.
    + rewrite Htc. reflexivity.
    + rewrite (IH a H). reflexivity.
Qed.

Lemma str_in_app_sep (c : ascii) (tok a b : string) :
  has_char c tok = false -> tok <> "" ->
  str_in tok (a ++ String c b) = str_in tok a || str_in tok b.
Proof.
  intros Hc Hne. induction a as [|x a IH].
  - simpl append. rewrite (str_in_unfold tok (String c b)).
    rewrite (str_in_empty tok Hne).
    destruct tok as [|t tok]; [congruence|].
    simpl in Hc. apply orb_false_iff in Hc. destruct Hc as [Htc _].
    simpl. rewrite Htc. reflexivity.
  - simpl append. rewrite (str_in_unfold tok (String x (a ++ String c b))).
    rewrite (str_in_unfold tok (String x a)). cbv iota. rewrite IH.
    change (String x (a ++ String c b)) with (String x a ++ String c b).
    rewrite (startswith_app_sep c tok (String x a) b Hc).
    rewrite orb_assoc. reflexivity.
Qed.

Lemma str_in_join (tok : string) (parts : list string) :
  has_char " " tok = false -> tok <> "" ->
  str_in tok (join " " parts) = existsb (str_in tok) parts.
Proof.
  intros Hc Hne. induction parts as [|p rest IH].
  - simpl. apply str_in_empty. exact Hne.
  - destruct rest as [|q rest].
    + simpl. rewrite orb_false_r. reflexivity.
    + change (join " " (p :: q :: rest)) with (p ++ String " " (join " " (q :: rest))).
      rewrite (str_in_app_sep " " tok p _ Hc Hne). rewrite IH. reflexivity.
Qed.

Lemma isspace_lower_char (c : ascii) : isspace (lower_char c) = isspace c.
Proof. destruct c as [[] [] [] [] [] [] [] []]; reflexivity. Qed.

Lemma is_empty_lower (s : string) : is_empty (lower s) = is_empty s.
Proof. destruct s; reflexivity. Qed.

Lemma lower_lstrip (s : string) :
  lower (lstrip_by isspace s) = lstrip_by isspace (lower s).
Proof.
  induction s as [|c s IH]; simpl.
  - reflexivity.
  - rewrite isspace_lower_char. destruct (isspace c); [exact IH|reflexivity].
Qed.

Lemma lower_rstrip (s : string) :
  lower (rstrip_by isspace s) = rstrip_by isspace (lower s).
Proof.
  induction s as [|c s IH]; simpl.
  - reflexivity.
  - rewrite isspace_lower_char, <- IH, is_empty_lower.
    destruct (isspace c && is_empty (rstrip_by isspace s)); reflexivity.
Qed.

Lemma lower_strip (s : string) : lower (strip s) = strip (lower s).
Proof. unfold strip. rewrite lower_rstrip, lower_lstrip. reflexivity. Qed.

Lemma rstrip_empty_all (p : ascii -> bool) (t : string) :
  rstrip_by p t = "" -> all_chars p t = true.
Proof.
  induction t as [|c t IH]; simpl; intros H.
  - reflexivity.
  - destruct (p c); simpl in *; [|discriminate].
    destruct (rstrip_by p t); simpl in H; [|discriminate].
    apply IH. reflexivity.
Qed.

Lemma startswith_allspace (e t : string) :
  all_chars isspace t = true -> ends_nonspace e = true -> startswith t e = false.
Proof.
  revert t. induction e as [|c e IH]; intros t Ht He.
  - discriminate.
  - destruct t as [|d t]; [reflexivity|].
    simpl in Ht. apply andb_true_iff in Ht. destruct Ht as [Hd Ht].
    simpl startswith. destruct e as [|c' e].
    + simpl in He. destruct (Ascii.eqb_spec c d) as [->|_]; [|reflexivity].
      rewrite Hd in He. discriminate.
    + rewrite (IH t Ht He). apply andb_false_r.
Qed.

Lemma str_in_lstrip (e t : string) :
  starts_nonspace e = true ->
  str_in e (lstrip_by isspace t) = str_in e t.
Proof.
  intros He. induction t as [|c t IH]; [reflexivity|].
  simpl lstrip_by. destruct (isspace c) eqn:Hc; [|reflexivity].
  rewrite IH, (str_in_unfold e (String c t)).
  destruct e as [|x e]; [discriminate|]. simpl in He. simpl startswith.
  destruct (Ascii.eqb_spec x c) as [->|_]; [|reflexivity].
  rewrite Hc in He. discriminate.
Qed.

Lemma startswith_rstrip (e t : string) :
  (e = "" \/ ends_nonspace e = true) ->
  startswith (rstrip_by isspace t) e = startswith t e.
Proof.
  revert e. induction t as [|d t IH]; intros e He; [reflexivity|].
  destruct e as [|x e]; [rewrite !startswith_empty; reflexivity|].
  destruct He as [He|He]; [discriminate|].
  simpl rstrip_by.
  destruct (isspace d && is_empty (rstrip_by isspace t)) eqn:Hd.
  - apply andb_true_iff in Hd. destruct Hd as [Hd Hr].
    apply is_empty_true, rstrip_empty_all in Hr.
    symmetry. apply startswith_allspace; [|exact He].
    simpl. rewrite Hd, Hr. reflexivity.
  - simpl startswith. rewrite IH; [reflexivity|].
    destruct e as [|y e]; [left; reflexivity|right; exact He].
Qed.

Lemma str_in_rstrip (e t : string) :
  ends_nonspace e = true ->
  str_in e (rstrip_by isspace t) = str_in e t.
Proof.
  intros He. induction t as [|d t IH]; [reflexivity|].
  rewrite (str_in_unfold e (String d t)), <- IH.
  rewrite <- (startswith_rstrip e (String d t)) by (right; exact He).
  simpl rstrip_by.
  destruct (isspace d && is_empty (rstrip_by isspace t)) eqn:Hd.
  - apply andb_true_iff in Hd. destruct Hd as [_ Hr].
    apply is_empty_true in Hr. rewrite Hr.
    destruct e; [discriminate|reflexivity].
  - rewrite (str_in_unfold e (String d (rstrip_by isspace t))). reflexivity.
Qed.

(** Stripping does not change whether a text contains [e], when [e]
    neither starts nor ends with white space. *)
Lemma str_in_strip (e t : string) :
  starts_nonspace e = true -> ends_nonspace e = true ->
  str_in e (strip t) = str_in e t.
Proof.
  intros Hs He. unfold strip.
  rewrite (str_in_rstrip e _ He). apply str_in_lstrip. exact Hs.
Qed.

End StringFacts.

(** ** The qualification predicate *)

Section Qualification.
Import PyStr RegexSem Schema Evaluator.
Open Scope string_scope.

Lemma expected_shape (r e : string) :
  Parser.get expected r = Some e ->
  truthy e = true /\ starts_nonspace e = true /\ ends_nonspace e = true.
Proof.
  unfold expected. cbn [Parser.get].
  repeat match goal with
         | |- context [String.eqb ?a r] => destruct (String.eqb a r)
         end; intros H; inversion H; subst; repeat split; reflexivity.
Qed.

Lemma is_first_party_iff (item : EvidenceItem.t) :
  _is_first_party item = true <-> Spec.first_party item.
Proof.
  unfold _is_first_party, Spec.first_party, Spec.expected_seller, Spec.contains_ci.
  destruct (EvidenceItem.seller item) as [s|].
  - destruct (Parser.get expected (lower (strip (EvidenceItem.retailer item))))
      as [e|] eqn:He.
    + destruct (expected_shape _ _ He) as (Ht & Hs & Hn).
      rewrite Ht, lower_strip, (str_in_strip e _ Hs Hn).
      split.
      * intros H. exists s, e. repeat split; assumption.
      * intros (s' & e' & Hs' & He' & H). inversion Hs'; inversion He'; subst.
        exact H.
    + split; [discriminate|].
      intros (s' & e' & _ & He' & _). discriminate.
  - split; [discriminate|].
    intros (s' & e' & Hs' & _). discriminate.
Qed.

Lemma in_lowered_parts (tok : string) (parts : list (option string)) :
  tok <> "" ->
  existsb (str_in tok) (lowered_parts parts) = true <->
  exists text, In (Some text) parts /\ str_in tok (lower text) = true.
Proof.
  intros Hne. induction parts as [|[part|] rest IH]; simpl.
  - split; [discriminate|]. intros (t & [] & _).
  - destruct (truthy part) eqn:Hp; simpl.
    + rewrite orb_true_iff, IH. split.
      * intros [H|(t & Hin & H)]; [exists part|exists t]; auto.
      * intros (t & [Heq|Hin] & H).
        -- inversion Heq; subst. left; exact H.
        -- right. exists t. auto.
    + rewrite IH. split.
      * intros (t & Hin & H). exists t. auto.
      * intros (t & [Heq|Hin] & H).
        -- inversion Heq; subst. apply truthy_false in Hp. subst t.
           cbn [lower] in H. rewrite (str_in_empty tok Hne) in H. discriminate.
        -- exists t. auto.
  - rewrite IH. split.
    + intros (t & Hin & H). exists t. auto.
    + intros (t & [Heq|Hin] & H); [discriminate|]. exists t. auto.
Qed.

Lemma looks_refurbished_false_iff (item : EvidenceItem.t) :
  _looks_refurbished item = false <-> Spec.no_refurbished_signal item.
Proof.
  unfold _looks_refurbished, Spec.no_refurbished_signal, Spec.contains_ci,
    refurbished_tokens.
  set (parts := [EvidenceItem.availability item; EvidenceItem.notes item;
                 EvidenceItem.seller item]).
  assert (Hperm : forall text,
             In (Some text) [EvidenceItem.availability item;
                             EvidenceItem.seller item;
                             EvidenceItem.notes item] <-> In (Some text) parts).
  { intros text. subst parts. simpl. tauto. }
  assert (Htok : forall tok, In tok ["refurb"; "renewed"; "open-box"; "used"] ->
             str_in tok (join " " (lowered_parts parts)) = true <->
             exists text, In (Some text) parts /\ str_in tok (lower text) = true).
  { intros tok Hin. rewrite str_in_join.
    - apply in_lowered_parts.
      simpl in Hin. intuition (subst; discriminate).
    - simpl in Hin. intuition (subst; reflexivity).
    - simpl in Hin. intuition (subst; discriminate). }
  split.
  - intros H text token Hin Htk.
    destruct (str_in token (lower text)) eqn:E; [|reflexivity].
    assert (Hex : existsb (fun token => str_in token (join " " (lowered_parts parts)))
                    ["refurb"; "renewed"; "open-box"; "used"] = true).
    { apply existsb_exists. exists token. split; [exact Htk|].
      apply Htok; [exact Htk|]. exists text. split; [apply Hperm; exact Hin|exact E]. }
    rewrite Hex in H. discriminate.
  - intros H.
    destruct (existsb _ _) eqn:E; [|reflexivity].
    apply existsb_exists in E. destruct E as (tok & Hin & Htk).
    apply Htok in Htk; [|exact Hin]. destruct Htk as (text & Hp & Hs).
    rewrite (H text tok) in Hs; [discriminate| |exact Hin].
    apply Hperm. exact Hp.
Qed.

(** C1. An evidence item qualifies under the task rules exactly when
    (1) its price is known, (2) third-party sellers are allowed or the item
    is first-party (its seller text contains the substring expected for its
    retailer; no seller text or no configured substring means not
    first-party), (3) refurbished listings are allowed or none of the
    availability, seller and notes texts contains, ignoring case, one of
    "refurb", "renewed", "open-box", "used", and (4) the full variant set is
    not required or the variant-match flag is explicitly true. *)
Theorem qualifies_iff (item : EvidenceItem.t) (rules : TaskRules.t) :
  _qualifies item rules = true <->
  EvidenceItem.price_usd item <> None /\
  (TaskRules.allow_third_party rules = true \/ Spec.first_party item) /\
  (TaskRules.allow_refurbished rules = true \/ Spec.no_refurbished_signal item) /\
  (TaskRules.require_full_set rules = false \/
   EvidenceItem.variant_match item = Some true).
Proof.
  rewrite <- is_first_party_iff, <- looks_refurbished_false_iff.
  unfold _qualifies.
  destruct (EvidenceItem.price_usd item) as [p|];
    [|split; [discriminate|intros [H _]; congruence]].
  destruct (TaskRules.require_full_set rules),
           (TaskRules.allow_refurbished rules),
           (TaskRules.allow_third_party rules),
           (_looks_refurbished item), (_is_first_party item),
           (EvidenceItem.variant_match item) as [[|]|]; simpl;
    split; intros H; try discriminate; try reflexivity;
    try (repeat split; solve [congruence | auto]);
    try (destruct H as (_ & [?|?] & [?|?] & [?|?]); congruence).
Qed.

End Qualification.

(** ** Soundness of the matcher *)

Section RegexFacts.
Import PyStr PyFloat Regex RegexSem Parser.
Open Scope string_scope.

Lemma star_sound {A : Type} (p : ascii -> bool) (s : string)
    (k : string -> string -> option A) (x : A) :
  star p s k = Some x ->
  exists w rest, s = w ++ rest /\ all_chars p w = true /\ k w rest = Some x.
Proof.
  revert k. induction s as [|c s IH]; intros k H; simpl in H.
  - exists "", "". auto.
  - destruct (p c) eqn:Hp.
    + destruct (star p s (fun w rest => k (String c w) rest)) as [y|] eqn:E.
      * inversion H; subst y. apply IH in E.
        destruct E as (w & rest & -> & Hall & Hk).
        exists (String c w), rest. simpl. rewrite Hp, Hall. auto.
      * exists "", (String c s). auto.
    + exists "", (String c s). auto.
Qed.

Lemma run_sound {A : Type} (r : regex) :
  forall (s : string) (g : option string)
         (k : string -> string -> option string -> option A) (x : A),
    run r s g k = Some x ->
    exists w rest g', s = w ++ rest /\ lang r w g g' /\ k w rest g' = Some x.
Proof.
  induction r as [|p|r1 IH1 r2 IH2|r1 IH1 r2 IH2|p|r1 IH1]; intros s g k x H;
    simpl in H.
  - exists "", s, g. simpl. auto.
  - destruct s as [|c s]; [discriminate|].
    destruct (p c) eqn:Hp; [|discriminate].
    exists (String c ""), s, g. simpl. split; [reflexivity|]. split; [|exact H].
    exists c. auto.
  - apply IH1 in H. destruct H as (w1 & s1 & g1 & -> & L1 & H).
    apply IH2 in H. destruct H as (w2 & s2 & g2 & -> & L2 & H).
    exists (w1 ++ w2), s2, g2. split; [symmetry; apply append_assoc|].
    split; [|exact H]. simpl. exists w1, w2, g1. auto.
  - destruct (run r1 s g k) as [y|] eqn:E.
    + inversion H; subst y. apply IH1 in E.
      destruct E as (w & rest & g' & -> & L & Hk).
      exists w, rest, g'. simpl. auto.
    + apply IH2 in H. destruct H as (w & rest & g' & -> & L & Hk).
      exists w, rest, g'. simpl. auto.
  - apply star_sound in H. destruct H as (w & rest & -> & Hall & Hk).
    exists w, rest, g. simpl. auto.
  - apply IH1 in H. destruct H as (w & rest & g1 & -> & L & Hk).
    exists w, rest, (Some w). simpl. split; [reflexivity|]. split; [|exact Hk].
    exists g1. auto.
Qed.

Lemma search_sound (r : regex) (s : string) (m : re_match) :
  search r s = Some m -> lang r (group0 m) None (group1 m).
Proof.
  induction s as [|c s IH]; simpl; intros H.
  - destruct (run r "" None _) as [y|] eqn:E; [|discriminate].
    inversion H; subst y. apply run_sound in E.
    destruct E as (w & rest & g' & _ & L & Hk). inversion Hk; subst m. exact L.
  - destruct (run r (String c s) None _) as [y|] eqn:E.
    + inversion H; subst y. apply run_sound in E.
      destruct E as (w & rest & g' & _ & L & Hk). inversion Hk; subst m. exact L.
    + apply IH. exact H.
Qed.

(** A pattern that ends with its capturing group always sets group 1. *)
Lemma lang_ends_with_group (rs : list regex) (r : regex) :
  forall w g g',
    lang (seq (rs ++ [Group r])) w g g' ->
    exists t g0 g1, g' = Some t /\ lang r t g0 g1.
Proof.
  induction rs as [|r0 rs IH]; intros w g g' H; simpl in H.
  - destruct H as (w1 & w2 & g1 & _ & (g0 & L & ->) & (_ & ->)).
    exists w1, g, g0. auto.
  - destruct H as (w1 & w2 & g1 & _ & _ & L). exact (IH _ _ _ L).
Qed.

Lemma span_digits_app (ds r : string) :
  all_chars isdigit ds = true ->
  match r with "" => true | String c _ => negb (isdigit c) end = true ->
  span_digits (ds ++ r) = (ds, r).
Proof.
  intros Hd Hr. induction ds as [|d ds IH]; simpl.
  - destruct r as [|c r]; [reflexivity|].
    simpl. apply negb_true_iff in Hr. rewrite Hr. reflexivity.
  - simpl in Hd. apply andb_true_iff in Hd. destruct Hd as [Hd Hds].
    rewrite Hd, (IH Hds). reflexivity.
Qed.

(** The text of a price capture: digits, then possibly a dot and two
    digits. *)
Lemma price_capture_float (t : string) (g0 g1 : option string) :
  lang (Seq (Plus digit) (Opt (seq [Lit "."; Chr digit; Chr digit]))) t g0 g1 ->
  truthy t = true /\ exists x, py_float t = Ok x.
Proof.
  unfold Plus, Opt, Lit. cbn [lang seq].
  intros (w1 & w2 & ga & -> & (u1 & u2 & gb & -> & (d & -> & Hd & _) & (Hds & _)) & H).
  split; [reflexivity|].
  unfold py_float.
  destruct H as [(v1 & v2 & gc & -> & (c & -> & Hc & _) &
                  (v3 & v4 & gd & -> & (d1 & -> & Hd1 & _) &
                   (v5 & v6 & ge & -> & (d2 & -> & Hd2 & _) & (-> & _))))
                |(-> & _)].
  - apply Ascii.eqb_eq in Hc. subst c.
    change ((String d "" ++ u2) ++ String "." "" ++ String d1 "" ++ String d2 "" ++ "")
      with (String d u2 ++ String "." (String d1 (String d2 ""))).
    rewrite span_digits_app; [|simpl; unfold digit in Hd; rewrite Hd; exact Hds
                              |reflexivity].
    simpl. unfold digit in Hd1, Hd2. rewrite Hd1, Hd2. simpl. eauto.
  - change ((String d "" ++ u2) ++ "") with (String d u2 ++ "").
    rewrite span_digits_app; [|simpl; unfold digit in Hd; rewrite Hd; exact Hds
                              |reflexivity].
    simpl. eauto.
Qed.

Lemma price_match_float (s : string) (m : re_match) :
  search _RE_PRICE s = Some m ->
  exists g x, group1 m = Some g /\ truthy g = true /\ py_float g = Ok x.
Proof.
  intros H. apply search_sound in H.
  change _RE_PRICE with
    (seq ([Lit "$"; Star ws] ++
          [Group (Seq (Plus digit) (Opt (seq [Lit "."; Chr digit; Chr digit])))])) in H.
  apply lang_ends_with_group in H. destruct H as (t & g0 & g1 & Hg & L).
  apply price_capture_float in L. destruct L as (Ht & x & Hx).
  exists t, x. auto.
Qed.

Lemma url_match_truthy (s : string) (m : re_match) :
  search _RE_URL s = Some m -> truthy (group0 m) = true.
Proof.
  intros H. apply search_sound in H. unfold _RE_URL in H.
  cbn [lang seq Str] in H. unfold Lit in H. cbn [lang] in H.
  destruct H as (w1 & w2 & g1 & -> & L & _).
  destruct L as (a & b & _ & -> & (c & -> & _) & _). reflexivity.
Qed.

Lemma chosen_match_group (s : string) (m : re_match) :
  search _RE_CHOSEN s = Some m -> exists g, group1 m = Some g.
Proof.
  intros H. apply search_sound in H.
  change _RE_CHOSEN with
    (seq ([StrI "chosen retailer"; Star ws; Lit "+"; Star ws; StrI "price";
           Star ws; Lit "+"; Star ws; StrI "url"; Star ws; Lit ":"; Star ws] ++
          [Group (Plus dot)])) in H.
  apply lang_ends_with_group in H. destruct H as (t & _ & _ & Hg & _).
  exists t. exact Hg.
Qed.

Lemma within_budget_match_group (s : string) (m : re_match) :
  search _RE_WITHIN_BUDGET s = Some m -> exists g, group1 m = Some g.
Proof.
  intros H. apply search_sound in H.
  change _RE_WITHIN_BUDGET with
    (seq ([StrI "within budget"; Star ws; Opt (Lit "("); Opt (Lit "$");
           Plus digit_or_dot; Star ws; StrI "hard cap"; Opt (Lit ")"); Lit "?";
           Star ws] ++ [Group (Alt (StrI "yes") (StrI "no"))])) in H.
  apply lang_ends_with_group in H. destruct H as (t & _ & _ & Hg & _).
  exists t. exact Hg.
Qed.

End RegexFacts.

(** ** The parser never raises *)

Section ParserFacts.
Import PyStr PyFloat Regex RegexSem Parser ScanSpec.
Open Scope string_scope.

Lemma get_set_same {V : Type} (d : dict V) (k : string) (v : V) :
  get (set d k v) k = Some v.
Proof.
  induction d as [|[k' v'] d IH]; simpl.
  - rewrite String.eqb_refl. reflexivity.
  - destruct (String.eqb k' k) eqn:E; simpl.
    + rewrite String.eqb_refl. reflexivity.
    + rewrite E. exact IH.
Qed.

Lemma get_set_other {V : Type} (d : dict V) (k k' : string) (v : V) :
  k <> k' -> get (set d k v) k' = get d k'.
Proof.
  intros Hne. induction d as [|[k0 v0] d IH]; simpl.
  - destruct (String.eqb_spec k k'); [contradiction|reflexivity].
  - destruct (String.eqb_spec k0 k) as [->|Hk0]; simpl.
    + destruct (String.eqb_spec k k'); [contradiction|reflexivity].
    + destruct (String.eqb k0 k'); [reflexivity|exact IH].
Qed.

Lemma get_setdefault {V : Type} (d : dict V) (k : string) (v : V) :
  exists x, get (setdefault d k v) k = Some x /\
            (get d k = Some x \/ (get d k = None /\ x = v)).
Proof.
  unfold setdefault. destruct (get d k) as [x|] eqn:E.
  - exists x. auto.
  - exists v. rewrite get_set_same. auto.
Qed.

Lemma get_setdefault_other {V : Type} (d : dict V) (k k' : string) (v : V) :
  k <> k' -> get (setdefault d k v) k' = get d k'.
Proof.
  intros Hne. unfold setdefault. destruct (get d k); [reflexivity|].
  apply get_set_other. exact Hne.
Qed.

Lemma split1_second (line : string) :
  str_in ":" line = true -> exists rest, nth_error (split1 ":" line) 1 = Some rest.
Proof.
  induction line as [|c line IH]; intros H.
  - discriminate.
  - simpl split1. destruct (Ascii.eqb_spec c ":") as [->|Hc].
    + exists line. reflexivity.
    + rewrite str_in_unfold in H. apply orb_true_iff in H. destruct H as [H|H].
      * simpl in H. apply andb_true_iff in H. destruct H as [H _].
        apply Ascii.eqb_eq in H. congruence.
      * destruct (IH H) as [rest Hr].
        destruct (split1 ":" line) as [|h t]; [discriminate|].
        exists rest. exact Hr.
Qed.

Lemma after_colon_total (line : string) : exists v, _after_colon line = Ok v.
Proof.
  unfold _after_colon. destruct (str_in ":" line) eqn:E.
  - destruct (split1_second line E) as [rest ->]. eauto.
  - eauto.
Qed.

Lemma fields_get_set_same (f : fields_dict) (k : string) (v : option string) :
  fields_get (set f k v) k = v.
Proof. unfold fields_get. rewrite get_set_same. reflexivity. Qed.

Lemma fields_get_set_other (f : fields_dict) (k k' : string) (v : option string) :
  k <> k' -> fields_get (set f k v) k' = fields_get f k'.
Proof. intros Hne. unfold fields_get. rewrite get_set_other by exact Hne. reflexivity. Qed.

Lemma keeps_refl (f : fields_dict) : keeps f f.
Proof. intros k v H _. exact H. Qed.

Lemma keeps_trans (f1 f2 f3 : fields_dict) :
  keeps f1 f2 -> keeps f2 f3 -> keeps f1 f3.
Proof. intros H12 H23 k v H Hv. apply H23; [apply H12|]; assumption. Qed.

Lemma keeps_set (f : fields_dict) (k : string) (v : option string) :
  unset f k = true -> keeps f (set f k v).
Proof.
  intros Hu k' v' H Hv'. destruct (String.eqb_spec k k') as [->|Hne].
  - unfold unset in Hu. rewrite H in Hu. rewrite Hv' in Hu. discriminate.
  - rewrite fields_get_set_other by exact Hne. exact H.
Qed.

Lemma good_set (f : fields_dict) (k : string) (v : option string) :
  good f ->
  (forall s, v = Some s -> In k nonempty_keys -> truthy s = true) ->
  good (set f k v).
Proof.
  intros Hg Hv k' v' H Hin. destruct (String.eqb_spec k k') as [->|Hne].
  - rewrite fields_get_set_same in H. eauto.
  - rewrite fields_get_set_other in H by exact Hne. eauto.
Qed.

Lemma capture_spec (fields : fields_dict) (line : string) :
  exists f', _capture_line_fields fields line = Ok f' /\
             keeps fields f' /\ (good fields -> good f').
Proof.
  unfold _capture_line_fields.
  (* price *)
  set (f1 := match search _RE_PRICE line with
             | Some price_match =>
                 if unset fields "price"
                 then set fields "price" (group1 price_match)
                 else fields
             | None => fields
             end).
  assert (H1 : keeps fields f1 /\ (good fields -> good f1)).
  { subst f1. destruct (search _RE_PRICE line) as [m|] eqn:Em.
    - destruct (price_match_float _ _ Em) as (g & x & Hg & Ht & _).
      destruct (unset fields "price") eqn:Eu.
      + split; [apply keeps_set; exact Eu|].
        intros Hgood. apply good_set; [exact Hgood|].
        intros s Hs _. rewrite Hg in Hs. inversion Hs; subst. exact Ht.
      + split; [apply keeps_refl|auto].
    - split; [apply keeps_refl|auto]. }
  destruct H1 as (K1 & G1). clearbody f1.
  (* url *)
  set (f2 := match search _RE_URL line with
             | Some url_match =>
                 if unset f1 "url" then set f1 "url" (Some (group0 url_match))
                 else f1
             | None => f1
             end).
  assert (H2 : keeps f1 f2 /\ (good f1 -> good f2)).
  { subst f2. destruct (search _RE_URL line) as [m|] eqn:Em.
    - destruct (unset f1 "url") eqn:Eu.
      + split; [apply keeps_set; exact Eu|].
        intros Hgood. apply good_set; [exact Hgood|].
        intros s Hs _. inversion Hs; subst. exact (url_match_truthy _ _ Em).
      + split; [apply keeps_refl|auto].
    - split; [apply keeps_refl|auto]. }
  destruct H2 as (K2 & G2). clearbody f2.
  destruct (after_colon_total line) as [v Hv]. rewrite Hv. cbn [bind].
  (* availability *)
  set (f3 := if str_in "availability" (lower line) && unset f2 "availability"
             then set f2 "availability" (Some v) else f2).
  assert (H3 : (if str_in "availability" (lower line) && unset f2 "availability"
                then Ok (set f2 "availability" (Some v)) else Ok f2) = Ok f3 /\
               keeps f2 f3 /\ (good f2 -> good f3)).
  { subst f3. destruct (str_in "availability" (lower line)); simpl.
    - destruct (unset f2 "availability") eqn:Eu.
      + split; [reflexivity|]. split; [apply keeps_set; exact Eu|].
        intros Hgood. apply good_set; [exact Hgood|].
        unfold nonempty_keys. simpl. intuition discriminate.
      + split; [reflexivity|]. split; [apply keeps_refl|auto].
    - split; [reflexivity|]. split; [apply keeps_refl|auto]. }
  destruct H3 as (E3 & K3 & G3). clearbody f3. rewrite E3. cbn [bind].
  (* seller *)
  set (f4 := if str_in "seller" (lower line) && unset f3 "seller"
             then set f3 "seller" (Some v) else f3).
  assert (H4 : (if str_in "seller" (lower line) && unset f3 "seller"
                then Ok (set f3 "seller" (Some v)) else Ok f3) = Ok f4 /\
               keeps f3 f4 /\ (good f3 -> good f4)).
  { subst f4. destruct (str_in "seller" (lower line)); simpl.
    - destruct (unset f3 "seller") eqn:Eu.
      + split; [reflexivity|]. split; [apply keeps_set; exact Eu|].
        intros Hgood. apply good_set; [exact Hgood|].
        unfold nonempty_keys. simpl. intuition discriminate.
      + split; [reflexivity|]. split; [apply keeps_refl|auto].
    - split; [reflexivity|]. split; [apply keeps_refl|auto]. }
  destruct H4 as (E4 & K4 & G4). clearbody f4. rewrite E4. cbn [bind].
  (* variant match *)
  assert (K14 : keeps fields f4).
  { eapply keeps_trans; [exact K1|]. eapply keeps_trans; [exact K2|].
    eapply keeps_trans; [exact K3|exact K4]. }
  assert (G14 : good fields -> good f4) by auto.
  destruct (str_in "variant match" (lower line) && unset f4 "variant_match") eqn:E5.
  - apply andb_true_iff in E5. destruct E5 as [_ Eu].
    destruct (mem (lower v) ["yes"; "true"]).
    + eexists. split; [reflexivity|].
      split; [eapply keeps_trans; [exact K14|apply keeps_set; exact Eu]|].
      intros Hgood. apply good_set; [auto|].
      intros s Hs _. inversion Hs; reflexivity.
    + destruct (mem (lower v) ["no"; "false"]).
      * eexists. split; [reflexivity|].
        split; [eapply keeps_trans; [exact K14|apply keeps_set; exact Eu]|].
        intros Hgood. apply good_set; [auto|].
        intros s Hs _. inversion Hs; reflexivity.
      * eexists. split; [reflexivity|]. auto.
  - eexists. split; [reflexivity|]. auto.
Qed.

Lemma scan_line_spec (st : scan) (line : string) :
  exists st', scan_line st line = Ok st' /\
              scan_keeps st st' /\ (scan_good st -> scan_good st').
Proof.
  unfold scan_line.
  set (cur := if str_in "amazon" (lower line) then Some "Amazon"
              else if str_in "best buy" (lower line) || str_in "bestbuy" (lower line)
                   then Some "Best Buy"
                   else if str_in "apple" (lower line) then Some "Apple"
                        else current_retailer st).
  clearbody cur.
  assert (Hsame : forall c, scan_keeps st (mkScan (offers_by_retailer st) c) /\
                            (scan_good st -> scan_good (mkScan (offers_by_retailer st) c))).
  { intros c. split.
    - intros r f H. exists f. split; [exact H|apply keeps_refl].
    - intros Hg r f H. exact (Hg r f H). }
  destruct cur as [r0|]; [|eexists; split; [reflexivity|apply Hsame]].
  destruct (truthy r0); [|eexists; split; [reflexivity|apply Hsame]].
  destruct (get_setdefault (offers_by_retailer st) r0 []) as (fields & Hget & Hold).
  unfold getitem. rewrite Hget. cbn [bind].
  destruct (capture_spec fields line) as (f' & -> & K & G). cbn [bind].
  eexists. split; [reflexivity|]. split.
  - intros r f H. cbn [offers_by_retailer].
    destruct (String.eqb_spec r0 r) as [->|Hne].
    + rewrite get_set_same. exists f'. split; [reflexivity|].
      destruct Hold as [Hold|[Hold _]]; rewrite Hold in H; [|discriminate].
      inversion H; subst. exact K.
    + rewrite get_set_other by exact Hne.
      rewrite get_setdefault_other by exact Hne.
      exists f. split; [exact H|apply keeps_refl].
  - intros Hg r f H. cbn [offers_by_retailer] in H.
    destruct (String.eqb_spec r0 r) as [->|Hne].
    + rewrite get_set_same in H. inversion H; subst. apply G.
      destruct Hold as [Hold|[_ ->]]; [exact (Hg _ _ Hold)|].
      intros k v Hk. discriminate.
    + rewrite get_set_other in H by exact Hne.
      rewrite get_setdefault_other in H by exact Hne.
      exact (Hg _ _ H).
Qed.

Lemma scan_keeps_trans (st1 st2 st3 : scan) :
  scan_keeps st1 st2 -> scan_keeps st2 st3 -> scan_keeps st1 st3.
Proof.
  intros H12 H23 r f H. destruct (H12 r f H) as (f2 & H2 & K2).
  destruct (H23 r f2 H2) as (f3 & H3 & K3).
  exists f3. split; [exact H3|]. eapply keeps_trans; eassumption.
Qed.

Lemma scan_lines_spec (lines : list string) :
  forall st, exists st', scan_lines st lines = Ok st' /\
                         scan_keeps st st' /\ (scan_good st -> scan_good st').
Proof.
  induction lines as [|line rest IH]; intros st; simpl.
  - exists st. split; [reflexivity|]. split; [|auto].
    intros r f H. exists f. split; [exact H|apply keeps_refl].
  - destruct (scan_line_spec st line) as (st1 & -> & K1 & G1). cbn [bind].
    destruct (IH st1) as (st2 & -> & K2 & G2).
    exists st2. split; [reflexivity|].
    split; [eapply scan_keeps_trans; eassumption|auto].
Qed.

Lemma scan_lines_app (pre post : list string) (st : scan) :
  scan_lines st (pre ++ post) =
  bind (scan_lines st pre) (fun st1 => scan_lines st1 post).
Proof.
  revert st. induction pre as [|line pre IH]; intros st; simpl.
  - reflexivity.
  - destruct (scan_line st line) as [st1|e]; simpl; [apply IH|reflexivity].
Qed.

Lemma scan_init_good : scan_good scan_init.
Proof. intros r f H. discriminate. Qed.

Lemma py_float_raises (s : string) (e : exn) :
  py_float s = Raise e -> e = ValueError.
Proof.
  unfold py_float. destruct (span_digits s) as [ip r].
  destruct (is_empty ip); [intros H; inversion H; reflexivity|].
  destruct r as [|c fp]; [discriminate|].
  destruct (Ascii.eqb c "." && truthy fp && all_chars isdigit fp);
    [discriminate|intros H; inversion H; reflexivity].
Qed.

Lemma build_offer_total (r : string) (fields : fields_dict) :
  exists o, _build_offer r fields = Ok o /\ retailer o = r.
Proof.
  unfold _build_offer, unset, getitem, fields_get.
  destruct (get fields "price") as [[s|]|]; simpl; [|eauto|eauto].
  destruct (truthy s); simpl; [|eauto].
  destruct (py_float s) as [x|e] eqn:E; simpl; [eauto|].
  rewrite (py_float_raises _ _ E). simpl. eauto.
Qed.

Lemma mapM_total {A B : Type} (f : A -> result B) (l : list A) :
  (forall x, In x l -> exists y, f x = Ok y) -> exists ys, mapM f l = Ok ys.
Proof.
  induction l as [|x l IH]; intros H; simpl.
  - eauto.
  - destruct (H x (or_introl eq_refl)) as [y ->]. simpl.
    destruct IH as [ys ->]; [intros z Hz; apply H; right; exact Hz|].
    simpl. eauto.
Qed.

Lemma mapM_In {A B : Type} (f : A -> result B) (l : list A) (ys : list B) (x : A) :
  mapM f l = Ok ys -> In x l -> exists y, In y ys /\ f x = Ok y.
Proof.
  revert ys. induction l as [|a l IH]; intros ys H Hin; [contradiction|].
  simpl in H. destruct (f a) as [b|] eqn:Ea; simpl in H; [|discriminate].
  destruct (mapM f l) as [bs|] eqn:El; simpl in H; [|discriminate].
  inversion H; subst ys. destruct Hin as [->|Hin].
  - exists b. split; [left; reflexivity|exact Ea].
  - destruct (IH bs eq_refl Hin) as (y & Hy & Hf).
    exists y. split; [right; exact Hy|exact Hf].
Qed.

Lemma get_In {V : Type} (d : dict V) (k : string) (v : V) :
  get d k = Some v -> In (k, v) d.
Proof.
  induction d as [|[k' v'] d IH]; simpl; [discriminate|].
  destruct (String.eqb_spec k' k) as [->|_].
  - intros H; inversion H; subst. left; reflexivity.
  - intros H. right. apply IH. exact H.
Qed.

End ParserFacts.

(** ** First capture wins *)

Section FirstCapture.
Import PyStr PyFloat Regex Parser ScanSpec.
Open Scope string_scope.

Lemma field_of_kept (st st' : scan) (r k v : string) :
  scan_keeps st st' -> scan_good st ->
  field_of st r k = Some v ->
  truthy v = true \/ In k nonempty_keys ->
  field_of st' r k = Some v.
Proof.
  unfold field_of. intros K G H Hv.
  destruct (get (offers_by_retailer st) r) as [f|] eqn:Ef; [|discriminate].
  destruct (K r f Ef) as (f' & -> & Kf).
  apply Kf; [exact H|].
  destruct Hv as [Hv|Hin]; [exact Hv|].
  exact (G r f Ef k v H Hin).
Qed.

(** C7, as stated, fails: an empty seller capture is replaced by a later
    seller line read for the same retailer, and likewise an empty
    availability capture. *)
Lemma empty_capture_overwritten :
  scan_lines scan_init ["Amazon"; "Seller:"] =
    Ok (mkScan [("Amazon", [("seller", Some "")])] (Some "Amazon")) /\
  scan_lines scan_init (["Amazon"; "Seller:"] ++ ["Seller: Foo"]) =
    Ok (mkScan [("Amazon", [("seller", Some "Foo")])] (Some "Amazon")) /\
  option_map (fun out => map seller (offers out))
    (match parse_agent_output
             (Some ("Amazon" ++ nl ++ "Seller:" ++ nl ++ "Seller: Foo")) with
     | Ok out => Some out
     | Raise _ => None
     end) = Some [Some "Foo"] /\
  scan_lines scan_init ["Amazon"; "Availability:"] =
    Ok (mkScan [("Amazon", [("availability", Some "")])] (Some "Amazon")) /\
  option_map (fun out => map availability (offers out))
    (match parse_agent_output
             (Some ("Amazon" ++ nl ++ "Availability:" ++ nl
                      ++ "Availability: In stock")) with
     | Ok out => Some out
     | Raise _ => None
     end) = Some [Some "In stock"].
Proof. vm_compute. repeat split; reflexivity. Qed.

End FirstCapture.

(** ** Totality of the parser *)

Section ParserTotal.
Import PyStr PyFloat Regex Parser ScanSpec ParserSpec.
Open Scope string_scope.

Lemma line_at_total (lines : list string) (i : nat) :
  exists l, line_at lines i = Ok l.
Proof.
  unfold line_at. destruct (Nat.ltb i (List.length lines)) eqn:E; [|eauto].
  apply Nat.ltb_lt in E. apply nth_error_Some in E.
  destruct (nth_error lines i); [eauto|congruence].
Qed.

Lemma price_of_match_total (a b : string) :
  exists p, price_of_match (or_match (search _RE_PRICE a) (search _RE_PRICE b)) = Ok p.
Proof.
  unfold price_of_match, or_match, float_of.
  destruct (search _RE_PRICE a) as [m|] eqn:Ea.
  - destruct (price_match_float _ _ Ea) as (g & x & -> & _ & Hx).
    rewrite Hx. simpl. eauto.
  - destruct (search _RE_PRICE b) as [m|] eqn:Eb; [|eauto].
    destruct (price_match_float _ _ Eb) as (g & x & -> & _ & Hx).
    rewrite Hx. simpl. eauto.
Qed.

Lemma price_of_search_total (a : string) :
  exists p, price_of_match (search _RE_PRICE a) = Ok p.
Proof.
  unfold price_of_match, float_of.
  destruct (search _RE_PRICE a) as [m|] eqn:Ea; [|eauto].
  destruct (price_match_float _ _ Ea) as (g & x & -> & _ & Hx).
  rewrite Hx. simpl. eauto.
Qed.

Lemma chosen_by_lines_total (lines rest : list string) :
  forall idx, exists c, chosen_by_lines_from lines idx rest = Ok c.
Proof.
  induction rest as [|line rest IH]; intros idx; cbn [chosen_by_lines_from]; [eauto|].
  destruct (mem (rstrip_colon (lower (strip line))) chosen_label); [|apply IH].
  destruct (line_at_total lines (idx + 1)) as [l1 ->].
  destruct (line_at_total lines (idx + 2)) as [l2 ->]. cbn [bind].
  destruct (str_in "no valid choice" (lower l1)); [eauto|].
  destruct (price_of_match_total l1 l2) as [p ->]. cbn [bind]. eauto.
Qed.

Lemma parse_chosen_offer_total (raw_text : string) (lines : list string) :
  exists c, _parse_chosen_offer raw_text lines = Ok c.
Proof.
  unfold _parse_chosen_offer.
  destruct (search _RE_CHOSEN raw_text) as [m|] eqn:E.
  - destruct (chosen_match_group _ _ E) as [g Hg].
    unfold group1_str. rewrite Hg. cbn [bind].
    destruct (price_of_search_total g) as [p ->]. cbn [bind]. eauto.
  - apply chosen_by_lines_total.
Qed.

Lemma budget_by_lines_total (lines rest : list string) :
  forall idx, exists b, budget_by_lines_from lines idx rest = Ok b.
Proof.
  induction rest as [|line rest IH]; intros idx; cbn [budget_by_lines_from]; [eauto|].
  destruct (startswith (lower (strip line)) "within budget"); [|apply IH].
  destruct (line_at_total lines (idx + 1)) as [l1 ->]. cbn [bind].
  destruct (startswith (lower l1) "yes"); [eauto|].
  destruct (startswith (lower l1) "no"); [eauto|apply IH].
Qed.

Lemma parse_within_budget_total (raw_text : string) (lines : list string) :
  exists b, _parse_within_budget raw_text lines = Ok b.
Proof.
  unfold _parse_within_budget.
  destruct (search _RE_WITHIN_BUDGET raw_text) as [m|] eqn:E.
  - destruct (within_budget_match_group _ _ E) as [g Hg].
    unfold group1_str. rewrite Hg. cbn [bind]. eauto.
  - apply budget_by_lines_total.
Qed.

Lemma scan_no_retailer (lines : list string) :
  existsb (fun line => is_some (_infer_retailer line)) lines = false ->
  scan_lines scan_init lines = Ok scan_init.
Proof.
  induction lines as [|line rest IH]; cbn [existsb scan_lines]; intros H;
    [reflexivity|].
  apply orb_false_iff in H. destruct H as [Hl Hr].
  unfold scan_line. unfold _infer_retailer in Hl.
  destruct (str_in "amazon" (lower line)); [discriminate|].
  destruct (str_in "best buy" (lower line) || str_in "bestbuy" (lower line));
    [discriminate|].
  destruct (str_in "apple" (lower line)); [discriminate|].
  simpl. apply IH. exact Hr.
Qed.

Lemma chosen_by_lines_no_label (lines rest : list string) :
  existsb (fun line => mem (rstrip_colon (lower (strip line))) chosen_label) rest = false ->
  forall idx, chosen_by_lines_from lines idx rest = Ok None.
Proof.
  induction rest as [|line rest IH]; cbn [existsb chosen_by_lines_from];
    intros H idx; [reflexivity|].
  apply orb_false_iff in H. destruct H as [Hl Hr].
  rewrite Hl. apply IH. exact Hr.
Qed.

Lemma budget_by_lines_no_label (lines rest : list string) :
  existsb (fun line => startswith (lower (strip line)) "within budget") rest = false ->
  forall idx, budget_by_lines_from lines idx rest = Ok None.
Proof.
  induction rest as [|line rest IH]; cbn [existsb budget_by_lines_from];
    intros H idx; [reflexivity|].
  apply orb_false_iff in H. destruct H as [Hl Hr].
  rewrite Hl. apply IH. exact Hr.
Qed.

(** The four stages of [parse_agent_output] all return. *)
Lemma parse_agent_output_stages (raw_text : option string) :
  let text := text_of raw_text in
  let lines := nonempty_lines text in
  exists st os c b,
    scan_lines scan_init lines = Ok st /\
    mapM (fun '(retailer, fields) => _build_offer retailer fields)
         (offers_by_retailer st) = Ok os /\
    _parse_chosen_offer text lines = Ok c /\
    _parse_within_budget text lines = Ok b /\
    parse_agent_output raw_text = Ok (mkParsedAgentOutput text os c b).
Proof.
  intros text lines.
  destruct (scan_lines_spec lines scan_init) as (st & Hst & _ & _).
  destruct (mapM_total (fun '(retailer, fields) => _build_offer retailer fields)
              (offers_by_retailer st)) as [os Hos].
  { intros [r f] _. destruct (build_offer_total r f) as (o & Hb & _). eauto. }
  destruct (parse_chosen_offer_total text lines) as [c Hc].
  destruct (parse_within_budget_total text lines) as [b Hb].
  exists st, os, c, b. repeat split; try assumption.
  unfold parse_agent_output. fold (text_of raw_text). fold text. fold lines.
  rewrite Hst. cbn [bind]. rewrite Hos. cbn [bind].
  rewrite Hc. cbn [bind]. rewrite Hb. reflexivity.
Qed.

Lemma parse_agent_output_ok (raw_text : option string) :
  exists out, parse_agent_output raw_text = Ok out.
Proof.
  destruct (parse_agent_output_stages raw_text) as (st & os & c & b & _ & _ & _ & _ & H).
  eauto.
Qed.

(** C6. On every input, the absent one and the empty string included,
    [parse_agent_output] returns a [ParsedAgentOutput] and raises nothing;
    when the text shows none of the patterns the parser looks for, the
    list of offers is empty and the chosen offer and the within-budget
    flag are unset. *)
Theorem parse_agent_output_total (raw_text : option string) :
  exists out,
    parse_agent_output raw_text = Ok out /\
    Parser.raw_text out = text_of raw_text /\
    (recognizable (text_of raw_text) = false ->
     offers out = [] /\ chosen out = None /\ Parser.within_budget out = None).
Proof.
  destruct (parse_agent_output_stages raw_text)
    as (st & os & c & b & Hst & Hos & Hc & Hb & H).
  cbv zeta in *. set (text := text_of raw_text) in *.
  eexists. split; [exact H|]. split; [reflexivity|].
  cbn [offers chosen Parser.within_budget].
  unfold recognizable. intros Hn.
  repeat (apply orb_false_iff in Hn; destruct Hn as [Hn ?]).
  rewrite (scan_no_retailer _ Hn) in Hst. inversion Hst; subst st.
  simpl in Hos. inversion Hos; subst os.
  unfold _parse_chosen_offer in Hc.
  destruct (search _RE_CHOSEN text); [discriminate|].
  unfold _parse_chosen_offer_by_lines in Hc.
  rewrite chosen_by_lines_no_label in Hc by assumption. inversion Hc; subst c.
  unfold _parse_within_budget in Hb.
  destruct (search _RE_WITHIN_BUDGET text); [discriminate|].
  unfold _parse_within_budget_by_lines in Hb.
  rewrite budget_by_lines_no_label in Hb by assumption. inversion Hb; subst b.
  auto.
Qed.

Lemma or_unknown_truthy (r : option string) : truthy (or_unknown r) = true.
Proof.
  unfold or_unknown. destruct r as [r|]; [|reflexivity].
  destruct (truthy r) eqn:E; [exact E|reflexivity].
Qed.

Lemma infer_retailer_truthy (text r : string) :
  _infer_retailer text = Some r -> truthy r = true.
Proof.
  unfold _infer_retailer.
  destruct (str_in "amazon" (lower text)); [intros H; inversion H; reflexivity|].
  destruct (str_in "best buy" (lower text) || str_in "bestbuy" (lower text));
    [intros H; inversion H; reflexivity|].
  destruct (str_in "apple" (lower text)); [intros H; inversion H; reflexivity|].
  discriminate.
Qed.

Lemma url_of_or_match_truthy (a b u : string) :
  url_of_match (or_match (search _RE_URL a) (search _RE_URL b)) = Some u ->
  truthy u = true.
Proof.
  unfold url_of_match, or_match.
  destruct (search _RE_URL a) as [m|] eqn:Ea; simpl.
  - intros H; inversion H; subst. exact (url_match_truthy _ _ Ea).
  - destruct (search _RE_URL b) as [m|] eqn:Eb; simpl; [|discriminate].
    intros H; inversion H; subst. exact (url_match_truthy _ _ Eb).
Qed.

Lemma chosen_by_lines_shape (lines rest : list string) :
  forall idx o, chosen_by_lines_from lines idx rest = Ok (Some o) -> offer_shape o.
Proof.
  induction rest as [|line rest IH]; intros idx o; cbn [chosen_by_lines_from];
    [discriminate|].
  destruct (mem (rstrip_colon (lower (strip line))) chosen_label); [|apply IH].
  destruct (line_at_total lines (idx + 1)) as [l1 ->].
  destruct (line_at_total lines (idx + 2)) as [l2 ->]. cbn [bind].
  destruct (str_in "no valid choice" (lower l1)); [discriminate|].
  destruct (price_of_match_total l1 l2) as [p ->]. cbn [bind].
  intros H; inversion H; subst o. split; cbn [retailer url].
  - apply or_unknown_truthy.
  - intros u. apply url_of_or_match_truthy.
Qed.

Lemma parse_chosen_offer_shape (raw_text : string) (lines : list string)
    (o : ParsedOffer) :
  _parse_chosen_offer raw_text lines = Ok (Some o) -> offer_shape o.
Proof.
  unfold _parse_chosen_offer.
  destruct (search _RE_CHOSEN raw_text) as [m|] eqn:E.
  - destruct (chosen_match_group _ _ E) as [g Hg].
    unfold group1_str. rewrite Hg. cbn [bind].
    destruct (price_of_search_total g) as [p ->]. cbn [bind].
    intros H; inversion H; subst o. split; cbn [retailer url].
    + apply or_unknown_truthy.
    + intros u. unfold url_of_match.
      destruct (search _RE_URL g) as [mu|] eqn:Eu; simpl; [|discriminate].
      intros Hu; inversion Hu; subst. exact (url_match_truthy _ _ Eu).
  - apply chosen_by_lines_shape.
Qed.

Lemma parse_agent_output_chosen_shape (raw_text : option string)
    (out : ParsedAgentOutput) (o : ParsedOffer) :
  parse_agent_output raw_text = Ok out -> chosen out = Some o -> offer_shape o.
Proof.
  unfold parse_agent_output. fold (text_of raw_text).
  destruct (scan_lines scan_init (nonempty_lines (text_of raw_text))) as [st|];
    cbn [bind]; [|discriminate].
  destruct (mapM _ (offers_by_retailer st)) as [os|]; cbn [bind]; [|discriminate].
  destruct (_parse_chosen_offer _ _) as [c|] eqn:Ec; cbn [bind]; [|discriminate].
  destruct (_parse_within_budget _ _) as [b|]; cbn [bind]; [|discriminate].
  intros H; inversion H; subst out. cbn [chosen]. intros ->.
  exact (parse_chosen_offer_shape _ _ _ Ec).
Qed.

(** The parser on the sample reports of the specification. *)
Example parse_offer_example :
  exists out,
    parse_agent_output
      (Some ("Amazon" ++ nl ++ "Price: $149.99" ++ nl ++ "Seller: Amazon.com LLC")) =
      Ok out /\
    map (fun o => (retailer o, price_usd o, seller o)) (offers out) =
      [("Amazon", Some 149.99%float, Some "Amazon.com LLC")].
Proof. eexists. split; [vm_compute; reflexivity|]. reflexivity. Qed.

Example parse_chosen_example :
  exists out,
    parse_agent_output
      (Some "Chosen retailer + price + url: Best Buy $147.00 https://bestbuy.example/x") =
      Ok out /\
    option_map (fun o => (retailer o, price_usd o, url o)) (chosen out) =
      Some ("Best Buy", Some 147.00%float, Some "https://bestbuy.example/x").
Proof. eexists. split; [vm_compute; reflexivity|]. reflexivity. Qed.

Example parse_within_budget_example :
  exists out,
    parse_agent_output (Some "Within budget ($200 hard cap)? No") = Ok out /\
    Parser.within_budget out = Some false.
Proof. eexists. split; [vm_compute; reflexivity|]. reflexivity. Qed.

Example parse_nothing_example :
  recognizable "The weather is fine." = false /\
  parse_agent_output (Some "The weather is fine.") =
    Ok (mkParsedAgentOutput "The weather is fine." [] None None) /\
  parse_agent_output None = Ok (mkParsedAgentOutput "" [] None None) /\
  parse_agent_output (Some "") = Ok (mkParsedAgentOutput "" [] None None).
Proof. vm_compute. repeat split; reflexivity. Qed.

End ParserTotal.

(** ** The evaluator *)

Section EvaluatorFacts.
Import PyStr PyFloat Schema Evaluator EvalSpec ParserSpec.
Open Scope string_scope.

Lemma min_from_In {A : Type} (key : A -> float) (items : list A) :
  forall best, min_from key best items = best \/ In (min_from key best items) items.
Proof.
  induction items as [|item rest IH]; intros best; simpl.
  - left; reflexivity.
  - destruct (key item <? key best)%float.
    + destruct (IH item) as [->|H]; auto.
    + destruct (IH best) as [->|H]; auto.
Qed.

Lemma best_of_In (evidence : list EvidenceItem.t) (rules : TaskRules.t)
    (b : EvidenceItem.t) :
  best_of evidence rules = Some b ->
  In b evidence /\ _qualifies b rules = true /\
  exists p, EvidenceItem.price_usd b = Some p.
Proof.
  unfold best_of.
  destruct (filter has_price (filter (fun item => _qualifies item rules) evidence))
    as [|first rest] eqn:E; [discriminate|].
  intros H; inversion H; subst b.
  assert (Hin : In (min_from price_key first rest) (first :: rest)).
  { destruct (min_from_In price_key rest first) as [->|Hr];
      [left; reflexivity|right; exact Hr]. }
  rewrite <- E in Hin. apply filter_In in Hin. destruct Hin as [Hin Hp].
  apply filter_In in Hin. destruct Hin as [Hin Hq].
  repeat split; try assumption.
  unfold has_price in Hp.
  destruct (EvidenceItem.price_usd (min_from price_key first rest)) as [p|];
    [eauto|discriminate].
Qed.

Lemma qualifies_has_price (item : EvidenceItem.t) (rules : TaskRules.t) :
  _qualifies item rules = true -> has_price item = true.
Proof.
  unfold _qualifies, has_price.
  destruct (EvidenceItem.price_usd item); [reflexivity|discriminate].
Qed.

(** No best item exactly when no evidence item qualifies. *)
Lemma best_of_None (evidence : list EvidenceItem.t) (rules : TaskRules.t) :
  best_of evidence rules = None <->
  forall x, In x evidence -> _qualifies x rules = false.
Proof.
  unfold best_of. split.
  - destruct (filter has_price (filter (fun item => _qualifies item rules) evidence))
      as [|first rest] eqn:E; [|discriminate].
    intros _ x Hin. destruct (_qualifies x rules) eqn:Hq; [|reflexivity].
    assert (Hx : In x (filter has_price
                         (filter (fun item => _qualifies item rules) evidence))).
    { apply filter_In. split; [|exact (qualifies_has_price _ _ Hq)].
      apply filter_In. auto. }
    rewrite E in Hx. contradiction.
  - intros H.
    destruct (filter has_price (filter (fun item => _qualifies item rules) evidence))
      as [|first rest] eqn:E; [reflexivity|].
    assert (Hx : In first (filter has_price
                             (filter (fun item => _qualifies item rules) evidence))).
    { rewrite E. left; reflexivity. }
    apply filter_In in Hx. destruct Hx as [Hx _].
    apply filter_In in Hx. destruct Hx as [Hx Hq].
    rewrite (H _ Hx) in Hq. discriminate.
Qed.

(** The result of an evaluation, field by field. *)
Lemma evaluate_fields (cs : CaseStudy.t) :
  exists parsed res,
    Parser.parse_agent_output
      (Some (AgentOutput.raw_text (CaseStudy.agent_output cs))) = Ok parsed /\
    evaluate_case_study cs = Ok res /\
    let rules := TaskSpec.rules (CaseStudy.task cs) in
    let best := best_of (CaseStudy.evidence cs) rules in
    let m := _match_offer_to_evidence (Parser.chosen parsed) (CaseStudy.evidence cs) in
    let overrides :=
      match m with
      | Some e => ParserSpec.is_some (EvidenceItem.price_usd e)
      | None => false
      end in
    best_first_party_price_usd res =
      match best with Some b => EvidenceItem.price_usd b | None => None end /\
    best_first_party_retailer res = option_map EvidenceItem.retailer best /\
    agent_chosen_price_usd res =
      (if overrides
       then match m with Some e => EvidenceItem.price_usd e | None => None end
       else match Parser.chosen parsed with
            | Some o => Parser.price_usd o
            | None => None
            end) /\
    agent_chosen_retailer res =
      (if overrides
       then option_map EvidenceItem.retailer m
       else option_map Parser.retailer (Parser.chosen parsed)) /\
    agent_choice_qualified res = option_map (fun e => _qualifies e rules) m /\
    found_best_first_party_price res =
      match best, agent_chosen_price_usd res with
      | Some b, Some p =>
          if is_false (agent_choice_qualified res) then Some false
          else Some (_prices_equal (Some p) (EvidenceItem.price_usd b) &&
                     retailers_agree res)
      | _, _ => None
      end /\
    Evaluator.within_budget res =
      match TaskSpec.budget_usd (CaseStudy.task cs), agent_chosen_price_usd res with
      | Some budget, Some p => Some (p <=? budget)%float
      | _, _ => None
      end /\
    money_left_on_table_usd res =
      match best, agent_chosen_price_usd res with
      | Some b, Some p =>
          match EvidenceItem.price_usd b with
          | Some bp =>
              if is_false (agent_choice_qualified res) then None
              else Some (shortfall p bp)
          | None => None
          end
      | _, _ => None
      end.
Proof.
  destruct (parse_agent_output_ok
              (Some (AgentOutput.raw_text (CaseStudy.agent_output cs))))
    as (parsed & Hp).
  exists parsed. unfold evaluate_case_study. rewrite Hp. cbn [bind].
  cbv zeta.
  destruct (best_of (CaseStudy.evidence cs) (TaskSpec.rules (CaseStudy.task cs)))
    as [b|];
  destruct (_match_offer_to_evidence (Parser.chosen parsed) (CaseStudy.evidence cs))
    as [e|];
  destruct (Parser.chosen parsed) as [o|];
  try destruct (EvidenceItem.price_usd e) as [pe|];
  try destruct (Parser.price_usd o) as [po|];
  try destruct (EvidenceItem.price_usd b) as [pb|];
  cbv iota beta;
  (eexists; split; [reflexivity|]; split; [reflexivity|]);
  cbn -[_prices_equal shortfall String.eqb truthy _qualifies];
  repeat split;
  try destruct (_qualifies e (TaskSpec.rules (CaseStudy.task cs)));
  cbn -[_prices_equal shortfall String.eqb truthy];
  unfold retailers_agree, known, opt_truthy, shortfall, floor_at_zero;
  cbn -[_prices_equal String.eqb truthy round2 PrimFloat.ltb PrimFloat.sub];
  repeat match goal with
         | |- context [truthy ?x] => destruct (truthy x)
         end;
  cbn -[_prices_equal String.eqb round2 PrimFloat.ltb PrimFloat.sub];
  try rewrite andb_true_r;
  try match goal with
      | |- context [PrimFloat.ltb 0 ?d] => destruct (PrimFloat.ltb 0 d)
      end;
  reflexivity.
Qed.

Lemma find_first_with (u : string) (l : list EvidenceItem.t) (item : EvidenceItem.t) :
  first_with (has_url u) l item ->
  find (fun it => String.eqb (EvidenceItem.url it) u) l = Some item.
Proof.
  intros (l1 & l2 & -> & Hu & Hn). induction l1 as [|x l1 IH]; simpl.
  - unfold has_url in Hu. rewrite Hu, String.eqb_refl. reflexivity.
  - destruct (String.eqb_spec (EvidenceItem.url x) u) as [E|_].
    + exfalso. apply (Hn x); [left; reflexivity|exact E].
    + apply IH. intros y Hy. apply Hn. right; exact Hy.
Qed.

Lemma find_no_url (u : string) (l : list EvidenceItem.t) :
  (forall x, In x l -> EvidenceItem.url x <> u) ->
  find (fun it => String.eqb (EvidenceItem.url it) u) l = None.
Proof.
  induction l as [|x l IH]; intros H; simpl; [reflexivity|].
  destruct (String.eqb_spec (EvidenceItem.url x) u) as [E|_].
  - exfalso. apply (H x); [left; reflexivity|exact E].
  - apply IH. intros y Hy. apply H. right; exact Hy.
Qed.

Lemma filter_nil_retailer (r : string) (l : list EvidenceItem.t) :
  filter (fun it => String.eqb (EvidenceItem.retailer it) r) l = [] <->
  forall x, In x l -> ~ has_retailer r x.
Proof.
  unfold has_retailer. induction l as [|x l IH]; simpl.
  - split; [intros _ y []|reflexivity].
  - destruct (String.eqb_spec (EvidenceItem.retailer x) r) as [E|E].
    + split; [discriminate|]. intros H. exfalso. apply (H x); auto.
    + rewrite IH. split.
      * intros H y [<-|Hy]; [exact E|apply H; exact Hy].
      * intros H y Hy. apply H. right; exact Hy.
Qed.

Lemma filter_only_with (r : string) (l : list EvidenceItem.t) (item : EvidenceItem.t) :
  filter (fun it => String.eqb (EvidenceItem.retailer it) r) l = [item] <->
  only_with (has_retailer r) l item.
Proof.
  split.
  - revert item. induction l as [|x l IH]; intros item; simpl; [discriminate|].
    destruct (String.eqb_spec (EvidenceItem.retailer x) r) as [E|E].
    + intros H. inversion H as [[Hx Hnil]]. subst x.
      exists [], l. split; [reflexivity|]. split; [exact E|].
      apply filter_nil_retailer. exact Hnil.
    + intros H. destruct (IH item H) as (l1 & l2 & -> & Hr & Hn).
      exists (x :: l1), l2. split; [reflexivity|]. split; [exact Hr|].
      intros y [<-|Hy]; [exact E|apply Hn; exact Hy].
  - intros (l1 & l2 & -> & Hr & Hn). rewrite filter_app. simpl.
    unfold has_retailer in Hr. rewrite Hr, String.eqb_refl.
    assert (H1 : filter (fun it => String.eqb (EvidenceItem.retailer it) r) l1 = []).
    { apply filter_nil_retailer. intros y Hy. apply Hn. apply in_or_app. auto. }
    assert (H2 : filter (fun it => String.eqb (EvidenceItem.retailer it) r) l2 = []).
    { apply filter_nil_retailer. intros y Hy. apply Hn. apply in_or_app. auto. }
    rewrite H1, H2. reflexivity.
Qed.

(** C5. The chosen offer is matched to the evidence by url first (the first
    item whose url equals the offer's); without a url, or when no item has
    it, by retailer name, and then only when exactly one item carries that
    retailer (no such item, or several, leave the offer unmatched).  When
    the matched item has a known price, its price and retailer are the
    chosen price and retailer of the result; otherwise the parser's own
    values are. *)
Theorem chosen_offer_matching (cs : CaseStudy.t) :
  exists parsed res,
    Parser.parse_agent_output
      (Some (AgentOutput.raw_text (CaseStudy.agent_output cs))) = Ok parsed /\
    evaluate_case_study cs = Ok res /\
    forall o, Parser.chosen parsed = Some o ->
      let evidence := CaseStudy.evidence cs in
      let m := _match_offer_to_evidence (Some o) evidence in
      (forall u item,
          Parser.url o = Some u -> first_with (has_url u) evidence item ->
          m = Some item) /\
      (Parser.url o = None \/
       (exists u, Parser.url o = Some u /\
                  forall x, In x evidence -> EvidenceItem.url x <> u) ->
       (forall item,
           only_with (has_retailer (Parser.retailer o)) evidence item ->
           m = Some item) /\
       ((forall item, ~ only_with (has_retailer (Parser.retailer o)) evidence item) ->
        m = None)) /\
      (forall item p,
          m = Some item -> EvidenceItem.price_usd item = Some p ->
          agent_chosen_price_usd res = Some p /\
          agent_chosen_retailer res = Some (EvidenceItem.retailer item)) /\
      (m = None \/ (exists item, m = Some item /\ EvidenceItem.price_usd item = None) ->
       agent_chosen_price_usd res = Parser.price_usd o /\
       agent_chosen_retailer res = Some (Parser.retailer o)).
Proof.
  destruct (evaluate_fields cs) as (parsed & res & Hp & He & F).
  exists parsed, res. split; [exact Hp|]. split; [exact He|].
  intros o Ho. cbv zeta.
  destruct (parse_agent_output_chosen_shape _ _ _ Hp Ho) as [Hr Hu].
  cbv zeta in F. rewrite Ho in F.
  destruct F as (_ & _ & Fp & Fr & _).
  set (evidence := CaseStudy.evidence cs) in *.
  assert (Em : _match_offer_to_evidence (Some o) evidence =
               match
                 match Parser.url o with
                 | Some u => find (fun it => String.eqb (EvidenceItem.url it) u) evidence
                 | None => None
                 end
               with
               | Some item => Some item
               | None =>
                   match filter (fun it => String.eqb (EvidenceItem.retailer it)
                                                      (Parser.retailer o)) evidence with
                   | [item] => Some item
                   | _ => None
                   end
               end).
  { unfold _match_offer_to_evidence. rewrite Hr.
    destruct (Parser.url o) as [u|]; [|reflexivity].
    rewrite (Hu u eq_refl). reflexivity. }
  remember (_match_offer_to_evidence (Some o) evidence) as m eqn:Hm in *.
  clear Hm.
  split; [|split; [|split]].
  - intros u item Hurl Hfirst.
    rewrite Em, Hurl, (find_first_with u _ _ Hfirst). reflexivity.
  - intros Hno.
    assert (Hm : m = match filter (fun it => String.eqb (EvidenceItem.retailer it)
                                                      (Parser.retailer o)) evidence with
                     | [item] => Some item
                     | _ => None
                     end).
    { rewrite Em. destruct Hno as [->|(u & -> & Hnone)]; [reflexivity|].
      rewrite (find_no_url u _ Hnone). reflexivity. }
    split.
    + intros item Honly. apply filter_only_with in Honly.
      rewrite Hm, Honly. reflexivity.
    + intros Hnone. rewrite Hm.
      destruct (filter _ evidence) as [|x [|y rest]] eqn:E; try reflexivity.
      exfalso. apply (Hnone x). apply filter_only_with. exact E.
  - intros item p Hm Hprice. rewrite Hm in Fp, Fr. rewrite Hprice in Fp, Fr.
    simpl in Fp, Fr. auto.
  - intros [Hm|(item & Hm & Hprice)]; rewrite Hm in Fp, Fr;
      [|rewrite Hprice in Fp, Fr]; simpl in Fp, Fr; auto.
Qed.



Lemma SFltb_lt_nlt (a b c : spec_float) :
  SFltb a b = true -> SFltb c b = false -> SFeqb c c = true -> SFltb a c = true.
Proof.
  unfold SFltb, SFeqb, SFcompare.
  destruct a as [sa|sa| |sa ma ea], b as [sb|sb| |sb mb eb], c as [sc|sc| |sc mc ec];
    try discriminate;
    repeat match goal with s : bool |- _ => destruct s end;
    try discriminate; try reflexivity;
    change (Pos.compare_cont Eq) with Pos.compare.
  all: destruct (Z.compare_spec ea eb), (Z.compare_spec ec eb), (Z.compare_spec ea ec);
       try lia;
       destruct (Pos.compare_spec ma mb), (Pos.compare_spec mc mb),
                (Pos.compare_spec ma mc);
       simpl; intros; try discriminate; try reflexivity; try lia.
Qed.

Lemma SFltb_asym (a b : spec_float) : SFltb a b = true -> SFltb b a = false.
Proof.
  unfold SFltb, SFcompare.
  destruct a as [sa|sa| |sa ma ea], b as [sb|sb| |sb mb eb];
    try discriminate;
    repeat match goal with s : bool |- _ => destruct s end;
    try discriminate; try reflexivity;
    change (Pos.compare_cont Eq) with Pos.compare;
    destruct (Z.compare_spec ea eb), (Z.compare_spec eb ea); try lia;
    destruct (Pos.compare_spec ma mb), (Pos.compare_spec mb ma);
    simpl; intros; try discriminate; try reflexivity; try lia.
Qed.

(** [a < b] and not [c < b] give [a < c], when [c] is a number. *)
Lemma ltb_lt_nlt (a b c : float) :
  (a <? b)%float = true -> (c <? b)%float = false -> is_nan c = false ->
  (a <? c)%float = true.
Proof.
  unfold is_nan. rewrite !ltb_spec, FloatAxioms.eqb_spec, negb_false_iff.
  apply SFltb_lt_nlt.
Qed.

Lemma ltb_asym (a b : float) : (a <? b)%float = true -> (b <? a)%float = false.
Proof. rewrite !ltb_spec. apply SFltb_asym. Qed.

(** [min] returns the first element with the least key. *)
Lemma min_from_first_least {A : Type} (key : A -> float) (items : list A) :
  forall (pre : list A) (best : A) (post : list A),
    (forall x, In x (pre ++ best :: post ++ items)%list -> is_nan (key x) = false) ->
    (forall x, In x pre -> (key best <? key x)%float = true) ->
    (forall x, In x post -> (key x <? key best)%float = false) ->
    exists l1 l2,
      (pre ++ best :: post ++ items)%list = (l1 ++ min_from key best items :: l2)%list /\
      (forall x, In x l1 -> (key (min_from key best items) <? key x)%float = true) /\
      (forall x, In x l2 -> (key x <? key (min_from key best items))%float = false).
Proof.
  induction items as [|item rest IH]; intros pre best post Hnan Hpre Hpost.
  - exists pre, post. rewrite app_nil_r. auto.
  - simpl min_from. destruct (key item <? key best)%float eqn:E.
    + destruct (IH (pre ++ best :: post)%list item []) as (l1 & l2 & Heq & H1 & H2).
      * intros x Hx. apply Hnan.
        rewrite <- app_assoc in Hx. simpl in Hx. exact Hx.
      * intros x Hx. apply in_app_or in Hx. destruct Hx as [Hx|[<-|Hx]].
        -- apply (ltb_lt_nlt _ (key best)); [exact E| |].
           ++ apply ltb_asym. apply Hpre. exact Hx.
           ++ apply Hnan. apply in_or_app. left; exact Hx.
        -- exact E.
        -- apply (ltb_lt_nlt _ (key best)); [exact E|apply Hpost; exact Hx|].
           apply Hnan. apply in_or_app. right. right. apply in_or_app. left; exact Hx.
      * intros x [].
      * exists l1, l2. split; [|auto].
        rewrite <- Heq. rewrite <- app_assoc. reflexivity.
    + destruct (IH pre best (post ++ [item])%list) as (l1 & l2 & Heq & H1 & H2).
      * intros x Hx. apply Hnan. rewrite <- app_assoc in Hx. exact Hx.
      * exact Hpre.
      * intros x Hx. apply in_app_or in Hx. destruct Hx as [Hx|[<-|[]]].
        -- apply Hpost. exact Hx.
        -- exact E.
      * exists l1, l2. split; [|auto].
        rewrite <- Heq. rewrite <- app_assoc. reflexivity.
Qed.

Lemma filter_has_price_qualifying (evidence : list EvidenceItem.t) (rules : TaskRules.t) :
  filter has_price (filter (fun item => _qualifies item rules) evidence) =
  filter (fun item => _qualifies item rules) evidence.
Proof.
  induction evidence as [|x l IH]; simpl; [reflexivity|].
  destruct (_qualifies x rules) eqn:Hq; [|exact IH].
  simpl. rewrite (qualifies_has_price _ _ Hq), IH. reflexivity.
Qed.

Lemma price_key_ordinary (item : EvidenceItem.t) :
  ordinary_price item = true ->
  EvidenceItem.price_usd item = Some (price_key item) /\
  is_nan (price_key item) = false.
Proof.
  unfold ordinary_price, price_key.
  destruct (EvidenceItem.price_usd item) as [p|]; [|discriminate].
  intros H. apply andb_true_iff in H. destruct H as [Ht Hn].
  rewrite Ht. split; [reflexivity|]. apply negb_true_iff. exact Hn.
Qed.

(** X1. What C2 states holds whenever the prices of the qualifying items
    are ordinary (not zero, not NaN): the best price and retailer are those
    of the first qualifying item, in evidence order, that no qualifying
    item undercuts; and they are unknown when no item qualifies. *)
Theorem best_offer_first_cheapest (cs : CaseStudy.t) :
  let rules := TaskSpec.rules (CaseStudy.task cs) in
  let qualifying := filter (fun item => _qualifies item rules) (CaseStudy.evidence cs) in
  (forall x, In x qualifying -> ordinary_price x = true) ->
  exists res,
    evaluate_case_study cs = Ok res /\
    match qualifying with
    | [] =>
        best_first_party_price_usd res = None /\
        best_first_party_retailer res = None
    | _ :: _ =>
        exists l1 b l2,
          qualifying = (l1 ++ b :: l2)%list /\
          (forall x, In x l1 -> cheaper b x = true) /\
          (forall x, In x l2 -> cheaper x b = false) /\
          best_first_party_price_usd res = EvidenceItem.price_usd b /\
          best_first_party_retailer res = Some (EvidenceItem.retailer b)
    end.
Proof.
  intros rules qualifying Hord.
  destruct (evaluate_fields cs) as (parsed & res & _ & He & F).
  exists res. split; [exact He|]. cbv zeta in F.
  destruct F as (Fp & Fr & _). fold rules in Fp, Fr.
  unfold best_of in Fp, Fr. rewrite filter_has_price_qualifying in Fp, Fr.
  fold qualifying in Fp, Fr.
  destruct qualifying as [|first rest] eqn:EQ; [auto|].
  destruct (min_from_first_least price_key rest [] first [])
    as (l1 & l2 & Heq & H1 & H2).
  - intros x Hx. simpl in Hx. apply price_key_ordinary, Hord, Hx.
  - intros x [].
  - intros x [].
  - simpl in Heq. exists l1, (min_from price_key first rest), l2.
    assert (Hin : forall x, In x (l1 ++ min_from price_key first rest :: l2)%list ->
                            EvidenceItem.price_usd x = Some (price_key x)).
    { intros x Hx. apply price_key_ordinary, Hord. rewrite Heq. exact Hx. }
    assert (Hb : EvidenceItem.price_usd (min_from price_key first rest) =
                 Some (price_key (min_from price_key first rest))).
    { apply Hin. apply in_or_app. right; left; reflexivity. }
    split; [exact Heq|]. split; [|split; [|split]].
    + intros x Hx. unfold cheaper. rewrite Hb, (Hin x).
      * apply H1. exact Hx.
      * apply in_or_app. left; exact Hx.
    + intros x Hx. unfold cheaper. rewrite Hb, (Hin x).
      * apply H2. exact Hx.
      * apply in_or_app. right; right; exact Hx.
    + exact Fp.
    + exact Fr.
Qed.

(** X1 at the sample case with offers at 102.00 and 97.50. *)
Lemma best_offer_first_cheapest_example :
  exists res,
    evaluate_case_study Examples.overpaid_case = Ok res /\
    best_first_party_price_usd res = Some 97.5%float /\
    best_first_party_retailer res = Some "Best Buy".
Proof.
  destruct (best_offer_first_cheapest Examples.overpaid_case) as (res & He & H).
  - intros x Hx. vm_compute in Hx.
    destruct Hx as [<-|[<-|[]]]; vm_compute; reflexivity.
  - exists res. split; [exact He|].
    assert (Hr : evaluate_case_study Examples.overpaid_case = Ok res) by exact He.
    vm_compute in Hr. inversion Hr. split; reflexivity.
Defined.

(** C2 fails on a free offer: both items qualify, the first costs 0.00 and
    the second 5.00, and the evaluation reports 5.00 at the second retailer
    as the best price. *)
Lemma best_price_skips_free_offer :
  map (fun item => _qualifies item Examples.strict_rules)
      (CaseStudy.evidence Examples.free_offer_case) = [true; true] /\
  map EvidenceItem.price_usd (CaseStudy.evidence Examples.free_offer_case) =
    [Some 0%float; Some 5%float] /\
  exists r, evaluate_case_study Examples.free_offer_case = Ok r /\
            best_first_party_price_usd r = Some 5%float /\
            best_first_party_retailer r = Some "Best Buy".
Proof.
  split; [vm_compute; reflexivity|]. split; [vm_compute; reflexivity|].
  eexists. split; [vm_compute; reflexivity|]. split; reflexivity.
Qed.

(** X2. The within-budget field is unknown unless the task has a budget and
    the chosen price is known; then it says whether the chosen price is at
    most the budget, the budget itself included. *)
Theorem within_budget_spec (cs : CaseStudy.t) :
  exists res,
    evaluate_case_study cs = Ok res /\
    (TaskSpec.budget_usd (CaseStudy.task cs) = None \/
     agent_chosen_price_usd res = None ->
     Evaluator.within_budget res = None) /\
    (forall budget p,
        TaskSpec.budget_usd (CaseStudy.task cs) = Some budget ->
        agent_chosen_price_usd res = Some p ->
        Evaluator.within_budget res = Some (p <=? budget)%float) /\
    (200 <=? 200)%float = true.
Proof.
  destruct (evaluate_fields cs) as (parsed & res & _ & He & F).
  exists res. split; [exact He|]. cbv zeta in F.
  destruct F as (_ & _ & _ & _ & _ & _ & Fw & _).
  split; [|split; [|reflexivity]].
  - intros [H|H]; rewrite Fw, H; [reflexivity|].
    destruct (TaskSpec.budget_usd (CaseStudy.task cs)); reflexivity.
  - intros budget p Hb Hp. rewrite Fw, Hb, Hp. reflexivity.
Qed.

(** The sample item of the specification: priced 100.00, first-party, not
    refurbished, variant match true.  It qualifies under the strict rules;
    with variant match false, or with a third-party seller, it does not. *)
Example strict_rules_examples :
  _qualifies (Examples.amazon 100) Examples.strict_rules = true /\
  _qualifies (EvidenceItem.mk "Amazon" "https://amazon.example/x" (Some 100%float)
                (Some "In stock") (Some "Amazon.com") "2024-01-01T00:00:00Z"
                (Some false) None None None) Examples.strict_rules = false /\
  _qualifies (Examples.listing "Amazon" "https://amazon.example/x" 100 "Acme Resale")
             Examples.strict_rules = false.
Proof. vm_compute. repeat split; reflexivity. Qed.

(** Qualifying items priced 99.99 (Amazon) and 97.50 (Best Buy): the best
    price is 97.50 at Best Buy. *)
Example best_of_two :
  option_map (fun b => (EvidenceItem.price_usd b, EvidenceItem.retailer b))
    (best_of [Examples.amazon 99.99; Examples.best_buy 97.5] Examples.strict_rules) =
  Some (Some 97.5%float, "Best Buy").
Proof. vm_compute. reflexivity. Qed.

End EvaluatorFacts.

(** ** Schema validation *)

Section SchemaFacts.
Context {D : Datetime}.
Import PyStr PyFloat Schema Docs.
Open Scope string_scope.

Ltac step H :=
  match type of H with
  | bind ?m _ = Ok _ =>
      let E := fresh "E" in
      destruct m eqn:E; cbn [bind] in H; [|discriminate H]
  end.

Ltac step_as H E :=
  match type of H with
  | bind ?m _ = Ok _ => destruct m eqn:E; cbn [bind] in H; [|discriminate H]
  end.

Ltac replay :=
  repeat match goal with
         | E : ?m = Ok _ |- context [?m] => rewrite E; cbn [bind]
         end.

Lemma get_set_key_other (data : json) (k k' : string) (v : json) :
  k <> k' -> get (set_key data k v) k' = get data k'.
Proof.
  intros Hne. destruct data; try reflexivity. simpl.
  destruct (String.eqb_spec k k'); [contradiction|reflexivity].
Qed.

Lemma get_set_key_same (entries : list (string * json)) (k : string) (v : json) :
  get (set_key (JDict entries) k v) k = Ok v.
Proof. simpl. rewrite String.eqb_refl. reflexivity. Qed.

Lemma get_ok_dict (data : json) (k : string) (v : json) :
  get data k = Ok v -> exists entries, data = JDict entries.
Proof. destruct data; try discriminate. eauto. Qed.

Lemma get_field (data : json) (k : string) (v : json) :
  get data k = Ok v -> field data k = v.
Proof. destruct data; try discriminate. simpl. congruence. Qed.

Lemma opt_float_set_key (entries : list (string * json)) (k : string) (v : json) :
  _opt_float (set_key (JDict entries) k v) k = _opt_float (JDict [(k, v)]) k.
Proof.
  unfold _opt_float. rewrite get_set_key_same. simpl.
  rewrite String.eqb_refl. reflexivity.
Qed.

Lemma mapM_list_set {A B : Type} (f : A -> result B) (l : list A) :
  forall (ys : list B) (i : nat) (x x' : A) (y' : B),
    mapM f l = Ok ys -> nth_error l i = Some x -> f x' = Ok y' ->
    mapM f (list_set i x' l) = Ok (list_set i y' ys).
Proof.
  induction l as [|a l IH]; intros ys i x x' y' H Hn Hf.
  - destruct i; discriminate.
  - simpl in H. destruct (f a) as [b|] eqn:Ea; cbn [bind] in H; [|discriminate].
    destruct (mapM f l) as [bs|] eqn:El; cbn [bind] in H; [|discriminate].
    inversion H; subst ys. destruct i as [|i]; simpl.
    + rewrite Hf. cbn [bind]. rewrite El. reflexivity.
    + rewrite Ea. cbn [bind]. rewrite (IH bs i x x' y' eq_refl Hn Hf). reflexivity.
Qed.

Lemma mapM_nth {A B : Type} (f : A -> result B) (l : list A) :
  forall (ys : list B) (i : nat) (y : B),
    mapM f l = Ok ys -> nth_error ys i = Some y ->
    exists x, nth_error l i = Some x /\ f x = Ok y.
Proof.
  induction l as [|a l IH]; intros ys i y H Hn.
  - inversion H; subst ys. destruct i; discriminate.
  - simpl in H. destruct (f a) as [b|] eqn:Ea; cbn [bind] in H; [|discriminate].
    destruct (mapM f l) as [bs|] eqn:El; cbn [bind] in H; [|discriminate].
    inversion H; subst ys. destruct i as [|i]; simpl in *.
    + inversion Hn; subst y. eauto.
    + exact (IH bs i y eq_refl Hn).
Qed.

Lemma mapM_Forall2 {A B : Type} (f : A -> result B) (l : list A) :
  forall ys, mapM f l = Ok ys -> Forall2 (fun x y => f x = Ok y) l ys.
Proof.
  induction l as [|a l IH]; intros ys H.
  - inversion H. constructor.
  - simpl in H. destruct (f a) as [b|] eqn:Ea; cbn [bind] in H; [|discriminate].
    destruct (mapM f l) as [bs|] eqn:El; cbn [bind] in H; [|discriminate].
    inversion H; subst ys. constructor; auto.
Qed.

Lemma task_with_budget (t : json) (task : TaskSpec.t) (v : json) (x : option float) :
  TaskSpec.from_dict t = Ok task ->
  _opt_float (JDict [("budget_usd", v)]) "budget_usd" = Ok x ->
  TaskSpec.from_dict (set_key t "budget_usd" v) = Ok (set_budget_usd task x) /\
  _opt_float t "budget_usd" = Ok (TaskSpec.budget_usd task).
Proof.
  intros H Hx. unfold TaskSpec.from_dict in *.
  repeat step H. inversion H; subst task. clear H.
  split; [|reflexivity].
  assert (Ht : exists entries, t = JDict entries).
  { unfold _require_str in E. destruct (get t "product_name") eqn:G; [|discriminate].
    exact (get_ok_dict _ _ _ G). }
  destruct Ht as [entries ->].
  rewrite opt_float_set_key, Hx.
  unfold _require_str, _opt_str, _require_str_list, _require_dict, _opt_list in *.
  rewrite !get_set_key_other by discriminate.
  replay. reflexivity.
Qed.

Lemma item_with_price (item : json) (ev : EvidenceItem.t) (v : json)
    (x : option float) :
  EvidenceItem.from_dict item = Ok ev ->
  _opt_float (JDict [("price_usd", v)]) "price_usd" = Ok x ->
  EvidenceItem.from_dict (set_key item "price_usd" v) = Ok (set_price_usd ev x) /\
  _opt_float item "price_usd" = Ok (EvidenceItem.price_usd ev).
Proof.
  intros H Hx. unfold EvidenceItem.from_dict in *.
  repeat step H. inversion H; subst ev. clear H.
  split; [|reflexivity].
  assert (Ht : exists entries, item = JDict entries).
  { unfold _require_str in E. destruct (get item "timestamp") eqn:G; [|discriminate].
    exact (get_ok_dict _ _ _ G). }
  destruct Ht as [entries ->].
  rewrite opt_float_set_key, Hx.
  unfold _require_str, _opt_str, _opt_bool in *.
  rewrite !get_set_key_other by discriminate.
  replay. reflexivity.
Qed.

Lemma case_parts (doc : json) (cs : CaseStudy.t) :
  CaseStudy.from_dict doc = Ok cs ->
  (exists entries, doc = JDict entries) /\
  (exists t, field doc "task" = JDict t /\
             TaskSpec.from_dict (JDict t) = Ok (CaseStudy.task cs)) /\
  (exists items, field doc "evidence" = JList items /\
                 mapM EvidenceItem.from_dict items = Ok (CaseStudy.evidence cs)).
Proof.
  intros H. unfold CaseStudy.from_dict in H.
  repeat step H. inversion H; subst cs. clear H. cbn [CaseStudy.task CaseStudy.evidence].
  split; [|split].
  - unfold _require_str in E. destruct (get doc "version") eqn:G; [|discriminate].
    exact (get_ok_dict _ _ _ G).
  - match goal with
    | Et : bind (_require_dict doc "task") _ = Ok _ |- _ => step_as Et Ed; rename Et into Ht
    end.
    unfold _require_dict in Ed.
    destruct (get doc "task") as [value|] eqn:G; cbn [bind] in Ed; [|discriminate].
    destruct value as [| | | | | |ents]; try discriminate. inversion Ed; subst.
    eexists. split; [exact (get_field _ _ _ G)|exact Ht].
  - match goal with
    | Et : bind (_require_list doc "evidence") _ = Ok _ |- _ =>
        step_as Et Ed; rename Et into Ht
    end.
    unfold _require_list in Ed.
    destruct (get doc "evidence") as [value|] eqn:G; cbn [bind] in Ed; [|discriminate].
    destruct value as [| | | | |its|]; try discriminate. inversion Ed; subst.
    eexists. split; [exact (get_field _ _ _ G)|exact Ht].
Qed.

Lemma case_with_task (doc : json) (cs : CaseStudy.t) (t : list (string * json))
    (task : TaskSpec.t) :
  CaseStudy.from_dict doc = Ok cs ->
  TaskSpec.from_dict (JDict t) = Ok task ->
  CaseStudy.from_dict (set_key doc "task" (JDict t)) = Ok (set_task cs task).
Proof.
  intros H Ht. destruct (case_parts _ _ H) as ([entries ->] & _ & _).
  unfold CaseStudy.from_dict in *.
  repeat step H. inversion H; subst cs. clear H.
  unfold _require_dict at 2. rewrite get_set_key_same. cbn [bind]. rewrite Ht.
  unfold _require_str, _opt_str, _require_dict, _require_list in *.
  rewrite !get_set_key_other by discriminate.
  replay. reflexivity.
Qed.

Lemma case_with_evidence (doc : json) (cs : CaseStudy.t) (items : list json)
    (evidence : list EvidenceItem.t) :
  CaseStudy.from_dict doc = Ok cs ->
  mapM EvidenceItem.from_dict items = Ok evidence ->
  CaseStudy.from_dict (set_key doc "evidence" (JList items)) =
    Ok (set_evidence cs evidence).
Proof.
  intros H Ht. destruct (case_parts _ _ H) as ([entries ->] & _ & _).
  unfold CaseStudy.from_dict in *.
  repeat step H. inversion H; subst cs. clear H.
  unfold _require_list. rewrite get_set_key_same. cbn [bind]. rewrite Ht.
  unfold _require_str, _opt_str, _require_dict in *.
  rewrite !get_set_key_other by discriminate.
  replay. reflexivity.
Qed.

(** Replacing the budget of a valid document by a value the number
    validator accepts gives a valid document with that budget. *)
Lemma budget_replaced (doc : json) (cs : CaseStudy.t) (v : json) (x : option float) :
  CaseStudy.from_dict doc = Ok cs ->
  _opt_float (JDict [("budget_usd", v)]) "budget_usd" = Ok x ->
  CaseStudy.from_dict (with_budget doc v) = Ok (with_budget_usd cs x).
Proof.
  intros H Hx. destruct (case_parts _ _ H) as (_ & (t & Hf & Ht) & _).
  unfold with_budget, with_budget_usd. rewrite Hf.
  destruct (task_with_budget _ _ v x Ht Hx) as [Ht' _].
  exact (case_with_task doc cs _ _ H Ht').
Qed.

(** Replacing the price of an evidence item of a valid document by a
    value the number validator accepts gives a valid document with that
    price. *)
Lemma price_replaced (doc : json) (cs : CaseStudy.t) (i : nat)
    (ev : EvidenceItem.t) (v : json) (x : option float) :
  CaseStudy.from_dict doc = Ok cs ->
  nth_error (CaseStudy.evidence cs) i = Some ev ->
  _opt_float (JDict [("price_usd", v)]) "price_usd" = Ok x ->
  CaseStudy.from_dict (with_price doc i v) = Ok (with_price_usd cs i x).
Proof.
  intros H Hn Hx. destruct (case_parts _ _ H) as (_ & _ & (items & Hf & Hm)).
  destruct (mapM_nth _ _ _ _ _ Hm Hn) as (item & Hi & He).
  unfold with_price, with_price_usd. rewrite Hf, Hi, Hn.
  destruct (item_with_price _ _ v x He Hx) as [He' _].
  apply (case_with_evidence doc cs); [exact H|].
  exact (mapM_list_set _ _ _ _ _ _ _ Hm Hi He').
Qed.

Lemma Forall2_nth_left {A B : Type} (R : A -> B -> Prop) (l : list A) (l' : list B) :
  Forall2 R l l' ->
  forall i x, nth_error l i = Some x ->
              exists y, nth_error l' i = Some y /\ R x y.
Proof.
  induction 1 as [|a b l l' Hab _ IH]; intros i x Hn.
  - destruct i; discriminate.
  - destruct i as [|i]; simpl in Hn.
    + inversion Hn; subst a. exists b. auto.
    + exact (IH i x Hn).
Qed.

Lemma stored_numbers (doc : json) (cs : CaseStudy.t) :
  CaseStudy.from_dict doc = Ok cs ->
  _opt_float (field doc "task") "budget_usd" =
    Ok (TaskSpec.budget_usd (CaseStudy.task cs)) /\
  exists items,
    field doc "evidence" = JList items /\
    Forall2 (fun item ev =>
               _opt_float item "price_usd" = Ok (EvidenceItem.price_usd ev))
            items (CaseStudy.evidence cs).
Proof.
  intros H. destruct (case_parts _ _ H) as (_ & (t & Hf & Ht) & (items & Hi & Hm)).
  split.
  - rewrite Hf. exact (proj2 (task_with_budget _ _ JNull None Ht eq_refl)).
  - exists items. split; [exact Hi|].
    apply mapM_Forall2 in Hm. revert Hm. apply Forall2_impl.
    intros item ev Hx.
    exact (proj2 (item_with_price _ _ JNull None Hx eq_refl)).
Qed.

(** C8, as the code has it.  After a successful construction the budget and
    every price are what the number validator returns for the raw field
    (absent, or the number converted to a float), whatever the sign: the
    validator checks the type only, and any float, negative ones included,
    put in place of the budget or of a price of a valid document is
    accepted and stored unchanged. *)
Theorem number_fields_any_sign (doc : json) (cs : CaseStudy.t) (x : float) :
  CaseStudy.from_dict doc = Ok cs ->
  _opt_float (field doc "task") "budget_usd" =
    Ok (TaskSpec.budget_usd (CaseStudy.task cs)) /\
  (exists items,
      field doc "evidence" = JList items /\
      Forall2 (fun item ev =>
                 _opt_float item "price_usd" = Ok (EvidenceItem.price_usd ev))
              items (CaseStudy.evidence cs)) /\
  CaseStudy.from_dict (with_budget doc (JFloat x)) =
    Ok (with_budget_usd cs (Some x)) /\
  (forall i ev,
      nth_error (CaseStudy.evidence cs) i = Some ev ->
      CaseStudy.from_dict (with_price doc i (JFloat x)) =
        Ok (with_price_usd cs i (Some x))).
Proof.
  intros H. destruct (stored_numbers doc cs H) as [Hb Hp].
  split; [exact Hb|]. split; [exact Hp|]. split.
  - apply (budget_replaced doc cs); [exact H|reflexivity].
  - intros i ev Hn. apply (price_replaced doc cs i ev); [exact H|exact Hn|reflexivity].
Qed.

(** C10. Putting a boolean in place of the budget, or of the price of an
    evidence item, of a valid document gives a valid document: construction
    succeeds and stores 1.0 for true and 0.0 for false; and a constructed
    case study whose raw budget or price is a boolean holds that value. *)
Theorem boolean_number_accepted (doc : json) (cs : CaseStudy.t) (b : bool) :
  CaseStudy.from_dict doc = Ok cs ->
  CaseStudy.from_dict (with_budget doc (JBool b)) =
    Ok (with_budget_usd cs (Some (float_of_bool b))) /\
  (forall i ev,
      nth_error (CaseStudy.evidence cs) i = Some ev ->
      CaseStudy.from_dict (with_price doc i (JBool b)) =
        Ok (with_price_usd cs i (Some (float_of_bool b)))) /\
  (field (field doc "task") "budget_usd" = JBool b ->
   TaskSpec.budget_usd (CaseStudy.task cs) = Some (float_of_bool b)) /\
  (forall items i item,
      field doc "evidence" = JList items ->
      nth_error items i = Some item ->
      field item "price_usd" = JBool b ->
      exists ev, nth_error (CaseStudy.evidence cs) i = Some ev /\
                 EvidenceItem.price_usd ev = Some (float_of_bool b)) /\
  float_of_bool true = 1.0%float /\ float_of_bool false = 0.0%float.
Proof.
  intros H. destruct (stored_numbers doc cs H) as [Hb (items & Hi & Hp)].
  split; [|split; [|split; [|split]]].
  - apply (budget_replaced doc cs); [exact H|reflexivity].
  - intros i ev Hn. apply (price_replaced doc cs i ev); [exact H|exact Hn|reflexivity].
  - intros Hf. unfold _opt_float in Hb.
    destruct (field doc "task") as [| | | | | |t]; try discriminate.
    simpl in Hf, Hb. rewrite Hf in Hb. simpl in Hb. congruence.
  - intros items' i item Hi' Hn Hf. rewrite Hi in Hi'. inversion Hi'; subst items'.
    destruct (Forall2_nth_left _ _ _ Hp i item Hn) as (ev & He & Hx).
    exists ev. split; [exact He|].
    unfold _opt_float in Hx.
    destruct item as [| | | | | |t]; try discriminate.
    simpl in Hf, Hx. rewrite Hf in Hx. simpl in Hx. congruence.
  - split; reflexivity.
Qed.

(** C9, as the code has it.  An empty evidence list does not stop the
    construction: a valid document whose evidence is replaced by the empty
    list gives a case study without evidence.  The list that must be
    non-empty is [allowed_retailers], and the optional
    [canonical_listings] defaults to the empty list. *)
Theorem empty_evidence_accepted (doc : json) (cs : CaseStudy.t) :
  CaseStudy.from_dict doc = Ok cs ->
  CaseStudy.from_dict (set_key doc "evidence" (JList [])) = Ok (set_evidence cs []) /\
  CaseStudy.from_dict
    (set_key doc "task" (set_key (field doc "task") "allowed_retailers" (JList []))) =
    Raise (SchemaError "Expected non-empty list for 'allowed_retailers'.") /\
  (field (field doc "task") "canonical_listings" = JNull ->
   TaskSpec.canonical_listings (CaseStudy.task cs) = []).
Proof.
  intros H. split; [|split].
  - apply (case_with_evidence doc cs); [exact H|reflexivity].
  - destruct (case_parts _ _ H) as ([entries ->] & (t & Hf & Ht) & _).
    rewrite Hf. clear Hf.
    set (t' := set_key (JDict t) "allowed_retailers" (JList [])).
    assert (Hd : _require_dict (set_key (JDict entries) "task" t') "task" = Ok t').
    { unfold _require_dict. rewrite get_set_key_same. reflexivity. }
    assert (Hl : _require_str_list t' "allowed_retailers" =
                 Raise (SchemaError "Expected non-empty list for 'allowed_retailers'.")).
    { unfold _require_str_list, t'. rewrite get_set_key_same. reflexivity. }
    assert (Ht' : TaskSpec.from_dict t' =
                  Raise (SchemaError "Expected non-empty list for 'allowed_retailers'.")).
    { unfold TaskSpec.from_dict in *. repeat step Ht. clear Ht. rewrite Hl.
      unfold _require_str, _opt_str, _opt_float, t' in *.
      rewrite !get_set_key_other by discriminate.
      replay. reflexivity. }
    unfold CaseStudy.from_dict in *. repeat step H. clear H.
    rewrite Hd. cbn [bind]. rewrite Ht'.
    unfold _require_str, _opt_str, _require_dict in *.
    rewrite !get_set_key_other by discriminate.
    replay. reflexivity.
  - destruct (case_parts _ _ H) as (_ & (t & Hf & Ht) & _).
    rewrite Hf. intros Hc.
    unfold TaskSpec.from_dict in Ht. repeat step Ht.
    inversion Ht; subst. cbn [TaskSpec.canonical_listings].
    match goal with
    | E : bind (_opt_list _ _) _ = Ok _ |- _ =>
        unfold _opt_list in E; simpl in E, Hc; rewrite Hc in E;
        simpl in E; inversion E; reflexivity
    end.
Qed.

End SchemaFacts.

(** ** Sample documents *)

Section SampleDocuments.
Import PyStr PyFloat Schema Docs Examples.
Open Scope string_scope.

(** C8, as stated, fails: a document with a negative budget and a negative
    price is constructed, and the negative numbers are stored. *)
Lemma negative_numbers_accepted :
  exists cs,
    @CaseStudy.from_dict IsoFormat.core negative_doc = Ok cs /\
    TaskSpec.budget_usd (CaseStudy.task cs) = Some (-1.5)%float /\
    map EvidenceItem.price_usd (CaseStudy.evidence cs) = [Some (-5)%float] /\
    (-1.5 <? 0)%float = true /\ (-5 <? 0)%float = true.
Proof. eexists. split; [vm_compute; reflexivity|]. repeat split. Qed.

(** C9, as stated, fails: a document whose evidence list is empty is
    constructed, with no evidence. *)
Lemma empty_evidence_constructed :
  exists cs,
    @CaseStudy.from_dict IsoFormat.core no_evidence_doc = Ok cs /\
    CaseStudy.evidence cs = [].
Proof. eexists. split; [vm_compute; reflexivity|]. reflexivity. Qed.

(** C8 (as the code has it) at the valid sample document, with the budget
    replaced by -1.5. *)
Lemma number_fields_any_sign_witness :
  exists cs,
    @CaseStudy.from_dict IsoFormat.core valid_doc = Ok cs /\
    @CaseStudy.from_dict IsoFormat.core (with_budget valid_doc (JFloat (-1.5))) =
      Ok (with_budget_usd cs (Some (-1.5)%float)).
Proof.
  eexists. split; [vm_compute; reflexivity|].
  refine (proj1 (proj2 (proj2
    (@number_fields_any_sign IsoFormat.core valid_doc _ (-1.5)%float _)))).
  vm_compute; reflexivity.
Defined.

(** C10 at the valid sample document, with the budget replaced by [true]. *)
Lemma boolean_number_accepted_witness :
  exists cs,
    @CaseStudy.from_dict IsoFormat.core valid_doc = Ok cs /\
    @CaseStudy.from_dict IsoFormat.core (with_budget valid_doc (JBool true)) =
      Ok (with_budget_usd cs (Some 1.0%float)).
Proof.
  eexists. split; [vm_compute; reflexivity|].
  refine (proj1 (@boolean_number_accepted IsoFormat.core valid_doc _ true _)).
  vm_compute; reflexivity.
Defined.

(** C9 (as the code has it) at the valid sample document, with the evidence
    replaced by the empty list. *)
Lemma empty_evidence_accepted_witness :
  exists cs,
    @CaseStudy.from_dict IsoFormat.core valid_doc = Ok cs /\
    @CaseStudy.from_dict IsoFormat.core (set_key valid_doc "evidence" (JList [])) =
      Ok (set_evidence cs []).
Proof.
  eexists. split; [vm_compute; reflexivity|].
  refine (proj1 (@empty_evidence_accepted IsoFormat.core valid_doc _ _)).
  vm_compute; reflexivity.
Defined.

(** A document whose budget and price are booleans is constructed. *)
Example boolean_doc_constructed :
  exists cs,
    @CaseStudy.from_dict IsoFormat.core boolean_doc = Ok cs /\
    TaskSpec.budget_usd (CaseStudy.task cs) = Some 1.0%float /\
    map EvidenceItem.price_usd (CaseStudy.evidence cs) = [Some 0.0%float].
Proof. eexists. split; [vm_compute; reflexivity|]. split; reflexivity. Qed.

End SampleDocuments.

(** ** More on the evaluator *)

Section EvaluatorMore.
Import PyStr PyFloat Schema Evaluator EvalSpec ParserSpec.
Open Scope string_scope.

(** X4. The best price and retailer of a result are never made up: when the
    best price is known, some evidence item that qualifies under the task
    rules has exactly that price and that retailer; and the best retailer
    is known exactly when the best price is. *)
Theorem best_offer_is_qualifying_evidence (cs : CaseStudy.t) :
  exists res,
    evaluate_case_study cs = Ok res /\
    (forall bp,
        best_first_party_price_usd res = Some bp ->
        exists item,
          In item (CaseStudy.evidence cs) /\
          _qualifies item (TaskSpec.rules (CaseStudy.task cs)) = true /\
          EvidenceItem.price_usd item = Some bp /\
          best_first_party_retailer res = Some (EvidenceItem.retailer item)) /\
    (best_first_party_retailer res = None <-> best_first_party_price_usd res = None).
Proof.
  destruct (evaluate_fields cs) as (parsed & res & _ & He & F).
  exists res. split; [exact He|]. cbv zeta in F.
  destruct F as (Fp & Fr & _).
  destruct (best_of (CaseStudy.evidence cs) (TaskSpec.rules (CaseStudy.task cs)))
    as [b|] eqn:Eb.
  - destruct (best_of_In _ _ _ Eb) as (Hin & Hq & p & Hp).
    split.
    + intros bp Hbp. exists b. rewrite Fp in Hbp.
      repeat split; try assumption.
    + rewrite Fp, Fr, Hp. simpl. split; discriminate.
  - split.
    + intros bp Hbp. rewrite Fp in Hbp. discriminate.
    + rewrite Fp, Fr. simpl. split; reflexivity.
Qed.

Lemma matched_item_in (offer : option Parser.ParsedOffer)
    (evidence : list EvidenceItem.t) (item : EvidenceItem.t) :
  _match_offer_to_evidence offer evidence = Some item ->
  In item evidence /\
  exists o,
    offer = Some o /\
    (Parser.url o = Some (EvidenceItem.url item) \/
     EvidenceItem.retailer item = Parser.retailer o).
Proof.
  unfold _match_offer_to_evidence. destruct offer as [o|]; [|discriminate].
  intros H.
  destruct (match Parser.url o with
            | Some u =>
                if truthy u
                then find (fun it => String.eqb (EvidenceItem.url it) u) evidence
                else None
            | None => None
            end) as [x|] eqn:Eu.
  - inversion H; subst x.
    destruct (Parser.url o) as [u|] eqn:Eurl; [|discriminate].
    destruct (truthy u); [|discriminate].
    apply find_some in Eu. destruct Eu as [Hin Heq].
    apply String.eqb_eq in Heq. split; [exact Hin|].
    exists o. split; [reflexivity|]. left. congruence.
  - destruct (truthy (Parser.retailer o)); [|discriminate].
    destruct (filter _ evidence) as [|x [|y rest]] eqn:Ef; try discriminate.
    inversion H; subst x.
    assert (Hin : In item (filter (fun it => String.eqb (EvidenceItem.retailer it)
                                                        (Parser.retailer o)) evidence)).
    { rewrite Ef. left; reflexivity. }
    apply filter_In in Hin. destruct Hin as [Hin Heq].
    apply String.eqb_eq in Heq. split; [exact Hin|].
    exists o. split; [reflexivity|]. right. exact Heq.
Qed.

(** X5. An offer is only ever matched to an item of the evidence list, and
    the item has the offer's url or the offer's retailer (so an absent
    offer and an empty evidence list match nothing). *)
Theorem matched_item_from_evidence (offer : option Parser.ParsedOffer)
    (evidence : list EvidenceItem.t) (item : EvidenceItem.t) :
  _match_offer_to_evidence offer evidence = Some item ->
  exists o,
    offer = Some o /\
    In item evidence /\
    (Parser.url o = Some (EvidenceItem.url item) \/
     EvidenceItem.retailer item = Parser.retailer o).
Proof.
  intros H. destruct (matched_item_in _ _ _ H) as (Hin & o & Ho & Hm).
  exists o. auto.
Qed.

(** X5 at an offer for Best Buy without url, against two listings. *)
Lemma matched_item_from_evidence_witness :
  exists o,
    Some (Parser.mkParsedOffer "Best Buy" None None None None None None None) = Some o /\
    In (Examples.best_buy 97.5) [Examples.amazon 99.99; Examples.best_buy 97.5] /\
    (Parser.url o = Some (EvidenceItem.url (Examples.best_buy 97.5)) \/
     EvidenceItem.retailer (Examples.best_buy 97.5) = Parser.retailer o).
Proof.
  apply (matched_item_from_evidence
           (Some (Parser.mkParsedOffer "Best Buy" None None None None None None None))
           [Examples.amazon 99.99; Examples.best_buy 97.5]
           (Examples.best_buy 97.5)).
  vm_compute. reflexivity.
Defined.

(** X6. When the agent's choice is known to qualify, nothing about the
    comparison is left unknown: the chosen price and retailer are those of
    the matched evidence item, a best offer exists, and the found-best and
    money-left fields are both known. *)
Theorem qualified_choice_fully_known (cs : CaseStudy.t) :
  exists parsed res,
    Parser.parse_agent_output
      (Some (AgentOutput.raw_text (CaseStudy.agent_output cs))) = Ok parsed /\
    evaluate_case_study cs = Ok res /\
    (agent_choice_qualified res = Some true ->
     (exists item p,
         _match_offer_to_evidence (Parser.chosen parsed) (CaseStudy.evidence cs) =
           Some item /\
         In item (CaseStudy.evidence cs) /\
         EvidenceItem.price_usd item = Some p /\
         agent_chosen_price_usd res = Some p /\
         agent_chosen_retailer res = Some (EvidenceItem.retailer item)) /\
     best_first_party_price_usd res <> None /\
     found_best_first_party_price res <> None /\
     money_left_on_table_usd res <> None).
Proof.
  destruct (evaluate_fields cs) as (parsed & res & Hp & He & F).
  exists parsed, res. split; [exact Hp|]. split; [exact He|]. cbv zeta in F.
  destruct F as (Fbp & _ & Fp & Fr & Fq & Ff & _ & Fm).
  intros Hq. rewrite Hq in Ff, Fm. rewrite Fq in Hq.
  destruct (_match_offer_to_evidence (Parser.chosen parsed) (CaseStudy.evidence cs))
    as [item|] eqn:Em; [|discriminate].
  simpl in Hq. inversion Hq as [Hqi].
  assert (Hin : In item (CaseStudy.evidence cs)).
  { destruct (matched_item_in _ _ _ Em) as [Hin _]. exact Hin. }
  destruct (EvidenceItem.price_usd item) as [p|] eqn:Epi;
    [|unfold _qualifies in Hqi; rewrite Epi in Hqi; discriminate].
  simpl in Fp, Fr.
  destruct (best_of (CaseStudy.evidence cs) (TaskSpec.rules (CaseStudy.task cs)))
    as [b|] eqn:Eb.
  - destruct (best_of_In _ _ _ Eb) as (_ & _ & pb & Hpb).
    rewrite Fp in Ff, Fm. rewrite Hpb in Fm.
    split; [exists item, p; auto|].
    split; [rewrite Fbp, Hpb; discriminate|].
    split; [rewrite Ff|rewrite Fm]; discriminate.
  - exfalso. rewrite (proj1 (best_of_None _ _) Eb item Hin) in Hqi. discriminate.
Qed.

End EvaluatorMore.

(** ** More on strings *)

Section StringMore.
Import PyStr RegexSem.
Open Scope string_scope.

Lemma lstrip_starts (p : ascii -> bool) (s : string) :
  match lstrip_by p s with
  | "" => True
  | String c _ => p c = false
  end.
Proof.
  induction s as [|c s IH]; simpl; [exact I|].
  destruct (p c) eqn:E; [exact IH|exact E].
Qed.

Lemma rstrip_starts (p : ascii -> bool) (s : string) :
  match s with "" => True | String c _ => p c = false end ->
  match rstrip_by p s with "" => True | String c _ => p c = false end.
Proof.
  destruct s as [|c s]; simpl; [auto|].
  intros E. rewrite E. simpl. exact E.
Qed.

Lemma lstrip_fixed (p : ascii -> bool) (s : string) :
  match s with "" => True | String c _ => p c = false end ->
  lstrip_by p s = s.
Proof. destruct s as [|c s]; simpl; [auto|]. intros E. rewrite E. reflexivity. Qed.

Lemma rstrip_idem (p : ascii -> bool) (s : string) :
  rstrip_by p (rstrip_by p s) = rstrip_by p s.
Proof.
  induction s as [|c s IH]; simpl; [reflexivity|].
  destruct (p c && is_empty (rstrip_by p s)) eqn:E; [reflexivity|].
  simpl. rewrite IH, E. reflexivity.
Qed.

(** Stripping twice is stripping once. *)
Lemma strip_idem (s : string) : strip (strip s) = strip s.
Proof.
  unfold strip.
  rewrite (lstrip_fixed isspace (rstrip_by isspace (lstrip_by isspace s))).
  - apply rstrip_idem.
  - apply rstrip_starts. apply lstrip_starts.
Qed.

Lemma lower_app (a b : string) : lower (a ++ b) = lower a ++ lower b.
Proof. induction a as [|c a IH]; simpl; [reflexivity|]. rewrite IH. reflexivity. Qed.

End StringMore.

(** ** More on schema validation *)

Section SchemaMore.
Context {D : Datetime}.
Import PyStr PyFloat Schema Docs SchemaSpec.
Open Scope string_scope.

Ltac step H :=
  match type of H with
  | bind ?m _ = Ok _ =>
      let E := fresh "E" in
      destruct m eqn:E; cbn [bind] in H; [|discriminate H]
  end.

Ltac replay :=
  repeat match goal with
         | E : ?m = Ok _ |- context [?m] => rewrite E; cbn [bind]
         end.

Lemma require_str_trimmed (data : json) (key s : string) :
  _require_str data key = Ok s -> s <> "" /\ trimmed s.
Proof.
  unfold _require_str, trimmed. destruct (get data key) as [v|]; [|discriminate].
  cbn [bind]. destruct v as [| | | |t| |]; try discriminate.
  destruct (truthy (strip t)) eqn:E; [|discriminate].
  intros H; inversion H; subst s. split.
  - apply truthy_true. exact E.
  - apply strip_idem.
Qed.

Lemma opt_str_trimmed (data : json) (key : string) (o : option string) :
  _opt_str data key = Ok o -> forall s, o = Some s -> trimmed s.
Proof.
  unfold _opt_str, trimmed. destruct (get data key) as [v|]; [|discriminate].
  cbn [bind]. destruct v as [| | | |t| |]; try discriminate;
    intros H; inversion H; subst o;
    intros s Hs; inversion Hs; subst s. apply strip_idem.
Qed.

Lemma mapM_Forall {A B : Type} (f : A -> result B) (P : B -> Prop) (l : list A) :
  (forall x y, f x = Ok y -> P y) ->
  forall ys, mapM f l = Ok ys -> Forall P ys.
Proof.
  intros Hf. induction l as [|a l IH]; intros ys H.
  - inversion H. constructor.
  - simpl in H. destruct (f a) as [b|] eqn:Ea; cbn [bind] in H; [|discriminate].
    destruct (mapM f l) as [bs|] eqn:El; cbn [bind] in H; [|discriminate].
    inversion H; subst ys. constructor; eauto.
Qed.

Lemma require_str_list_trimmed (data : json) (key : string) (l : list string) :
  _require_str_list data key = Ok l ->
  l <> [] /\ Forall (fun s => s <> "" /\ trimmed s) l.
Proof.
  unfold _require_str_list. destruct (get data key) as [v|]; [|discriminate].
  cbn [bind]. destruct v as [| | | | |items|]; try discriminate.
  destruct items as [|x items]; [discriminate|].
  intros H. split.
  - simpl in H. destruct x as [| | | |t| |]; try discriminate.
    destruct (truthy (strip t)); [|discriminate]. cbn [bind] in H.
    destruct (mapM _ items); [|discriminate]. inversion H. discriminate.
  - revert H. apply mapM_Forall. intros v s.
    destruct v as [| | | |t| |]; try discriminate.
    destruct (truthy (strip t)) eqn:E; [|discriminate].
    intros H; inversion H; subst s. split.
    + apply truthy_true. exact E.
    + apply strip_idem.
Qed.

Lemma Forall_flat_map {A B : Type} (P : B -> Prop) (f : A -> list B) (l : list A) :
  Forall (fun x => Forall P (f x)) l -> Forall P (flat_map f l).
Proof.
  induction 1 as [|x l Hx _ IH]; simpl; [constructor|].
  apply Forall_app. auto.
Qed.

(** What a successful construction guarantees, constructor by
    constructor. *)
Lemma listing_fields (data : json) (l : ListingRef.t) :
  ListingRef.from_dict data = Ok l ->
  Forall (fun s => s <> "" /\ trimmed s) (listing_strings l) /\
  Forall (fun o => forall s, o = Some s -> trimmed s) (listing_optionals l).
Proof.
  unfold ListingRef.from_dict. intros H. repeat step H. inversion H; subst l.
  unfold listing_strings, listing_optionals. simpl.
  repeat match goal with
         | E : _require_str _ _ = Ok _ |- _ => apply require_str_trimmed in E
         | E : _opt_str _ _ = Ok _ |- _ =>
             let T := fresh "T" in
             pose proof (opt_str_trimmed _ _ _ E) as T; clear E
         end.
  split; repeat constructor; tauto || assumption.
Qed.

Lemma evidence_fields (data : json) (e : EvidenceItem.t) :
  EvidenceItem.from_dict data = Ok e ->
  Forall (fun s => s <> "" /\ trimmed s) (evidence_strings e) /\
  Forall (fun o => forall s, o = Some s -> trimmed s) (evidence_optionals e) /\
  _parse_iso8601 (EvidenceItem.timestamp e) = Ok tt.
Proof.
  unfold EvidenceItem.from_dict. intros H. repeat step H. inversion H; subst e.
  unfold evidence_strings, evidence_optionals. simpl.
  match goal with
  | E : _parse_iso8601 _ = Ok ?u |- _ => destruct u
  end.
  repeat match goal with
         | E : _require_str _ _ = Ok _ |- _ => apply require_str_trimmed in E
         | E : _opt_str _ _ = Ok _ |- _ =>
             let T := fresh "T" in
             pose proof (opt_str_trimmed _ _ _ E) as T; clear E
         end.
  split; [|split]; repeat constructor; tauto || assumption.
Qed.

Lemma case_fields (doc : json) (cs : CaseStudy.t) :
  CaseStudy.from_dict doc = Ok cs ->
  Forall (fun s => s <> "" /\ trimmed s) (required_strings cs) /\
  Forall (fun o => forall s, o = Some s -> trimmed s) (optional_strings cs) /\
  Forall (fun ts => _parse_iso8601 ts = Ok tt) (timestamps cs) /\
  TaskSpec.allowed_retailers (CaseStudy.task cs) <> [].
Proof.
  unfold CaseStudy.from_dict. intros H. repeat step H. inversion H; subst cs.
  clear H.
  repeat match goal with
         | E : bind (_require_dict _ _) _ = Ok _ |- _ => step E
         | E : bind (_require_list _ _) _ = Ok _ |- _ => step E
         end.
  match goal with
  | E : AgentSpec.from_dict _ = Ok _ |- _ =>
      unfold AgentSpec.from_dict in E; repeat step E; inversion E; subst; clear E
  end.
  match goal with
  | E : AgentOutput.from_dict _ = Ok _ |- _ =>
      unfold AgentOutput.from_dict in E; repeat step E; inversion E; subst; clear E
  end.
  match goal with
  | E : TaskSpec.from_dict _ = Ok _ |- _ =>
      unfold TaskSpec.from_dict in E; repeat step E; inversion E; subst; clear E
  end.
  repeat match goal with
         | E : bind (_opt_list _ _) _ = Ok _ |- _ => step E
         | E : _parse_iso8601 _ = Ok ?u |- _ => is_var u; destruct u
         end.
  match goal with
  | E : mapM EvidenceItem.from_dict _ = Ok ?evs |- _ =>
      assert (Hev : Forall (fun e =>
                Forall (fun s => s <> "" /\ trimmed s) (evidence_strings e) /\
                Forall (fun o => forall s, o = Some s -> trimmed s)
                       (evidence_optionals e) /\
                _parse_iso8601 (EvidenceItem.timestamp e) = Ok tt) evs)
        by (revert E; apply mapM_Forall; intros x y; apply evidence_fields)
  end.
  match goal with
  | E : mapM ListingRef.from_dict _ = Ok ?ls |- _ =>
      assert (Hli : Forall (fun l =>
                Forall (fun s => s <> "" /\ trimmed s) (listing_strings l) /\
                Forall (fun o => forall s, o = Some s -> trimmed s)
                       (listing_optionals l)) ls)
        by (revert E; apply mapM_Forall; intros x y; apply listing_fields)
  end.
  match goal with
  | E : _require_str_list _ _ = Ok _ |- _ =>
      apply require_str_list_trimmed in E; destruct E as [Hne Hall]
  end.
  repeat match goal with
         | E : _require_str _ _ = Ok _ |- _ => apply require_str_trimmed in E
         | E : _opt_str _ _ = Ok _ |- _ =>
             let T := fresh "T" in
             pose proof (opt_str_trimmed _ _ _ E) as T; clear E
         end.
  unfold required_strings, optional_strings, timestamps. simpl.
  split; [|split; [|split]].
  - repeat (constructor; [tauto|]).
    apply Forall_app. split; [exact Hall|].
    apply Forall_app. split; apply Forall_flat_map.
    + revert Hli. apply Forall_impl. tauto.
    + revert Hev. apply Forall_impl. tauto.
  - repeat (constructor; [assumption|]).
    apply Forall_app. split; apply Forall_flat_map.
    + revert Hli. apply Forall_impl. tauto.
    + revert Hev. apply Forall_impl. tauto.
  - repeat (constructor; [assumption|]).
    apply Forall_map. revert Hev. apply Forall_impl. tauto.
  - exact Hne.
Qed.

(** X7. After a successful construction every required string of the case
    study (version, id, title, timestamps, agent name, product name,
    currency, raw text, every allowed retailer, the retailer and url of
    every listing and evidence item) is non-empty and has no surrounding
    white space; every optional string that is present has no surrounding
    white space; and the list of allowed retailers is not empty. *)
Theorem constructed_strings_trimmed (doc : json) (cs : CaseStudy.t) :
  CaseStudy.from_dict doc = Ok cs ->
  Forall (fun s => s <> "" /\ strip s = s) (required_strings cs) /\
  Forall (fun o => forall s, o = Some s -> strip s = s) (optional_strings cs) /\
  TaskSpec.allowed_retailers (CaseStudy.task cs) <> [].
Proof.
  intros H. destruct (case_fields doc cs H) as (Hr & Ho & _ & Hne).
  split; [exact Hr|]. split; [exact Ho|exact Hne].
Qed.

(** X8. After a successful construction every timestamp kept in the case
    study (creation, capture, and one per evidence item) is one that the
    timestamp check accepts: construction never stores a timestamp it
    could not parse. *)
Theorem constructed_timestamps_valid (doc : json) (cs : CaseStudy.t) :
  CaseStudy.from_dict doc = Ok cs ->
  Forall (fun ts => _parse_iso8601 ts = Ok tt) (timestamps cs).
Proof.
  intros H. destruct (case_fields doc cs H) as (_ & _ & Ht & _). exact Ht.
Qed.

Lemma get_set_key_unread (data : json) (k k' : string) (v : json) (keys : list string) :
  ~ In k keys -> In k' keys -> get (set_key data k v) k' = get data k'.
Proof.
  intros Hn Hin. apply get_set_key_other. intros ->. contradiction.
Qed.

Ltac unread Hn :=
  unfold _require_str, _opt_str, _opt_float, _opt_bool, _require_bool,
    _require_dict, _require_list, _opt_list, _require_str_list;
  repeat rewrite (get_set_key_unread _ _ _ _ _ Hn) by (simpl; tauto);
  reflexivity.

(** X9. Keys that a constructor does not read are ignored: adding any
    other key to a document, to its agent, task, rules or agent-output
    object, or to an evidence or listing entry, changes neither the
    outcome of the construction nor its result. *)
Theorem unknown_keys_ignored (k : string) (v : json) :
  (~ In k case_keys ->
   forall doc, CaseStudy.from_dict (set_key doc k v) = CaseStudy.from_dict doc) /\
  (~ In k agent_keys ->
   forall data, AgentSpec.from_dict (set_key data k v) = AgentSpec.from_dict data) /\
  (~ In k task_keys ->
   forall data, TaskSpec.from_dict (set_key data k v) = TaskSpec.from_dict data) /\
  (~ In k rules_keys ->
   forall data, TaskRules.from_dict (set_key data k v) = TaskRules.from_dict data) /\
  (~ In k output_keys ->
   forall data, AgentOutput.from_dict (set_key data k v) = AgentOutput.from_dict data) /\
  (~ In k evidence_keys ->
   forall data, EvidenceItem.from_dict (set_key data k v) = EvidenceItem.from_dict data) /\
  (~ In k listing_keys ->
   forall data, ListingRef.from_dict (set_key data k v) = ListingRef.from_dict data).
Proof.
  repeat split; intros Hn data.
  - unfold CaseStudy.from_dict. unread Hn.
  - unfold AgentSpec.from_dict. unread Hn.
  - unfold TaskSpec.from_dict. unread Hn.
  - unfold TaskRules.from_dict. unread Hn.
  - unfold AgentOutput.from_dict. unread Hn.
  - unfold EvidenceItem.from_dict. unread Hn.
  - unfold ListingRef.from_dict. unread Hn.
Qed.

Lemma mapM_list_set_raise {A B : Type} (f : A -> result B) (l : list A) :
  forall (ys : list B) (i : nat) (x x' : A) (e : exn),
    mapM f l = Ok ys -> nth_error l i = Some x -> f x' = Raise e ->
    mapM f (list_set i x' l) = Raise e.
Proof.
  induction l as [|a l IH]; intros ys i x x' e H Hn Hf.
  - destruct i; discriminate.
  - simpl in H. destruct (f a) as [b|] eqn:Ea; cbn [bind] in H; [|discriminate].
    destruct (mapM f l) as [bs|] eqn:El; cbn [bind] in H; [|discriminate].
    destruct i as [|i]; simpl.
    + rewrite Hf. reflexivity.
    + rewrite Ea. cbn [bind]. rewrite (IH bs i x x' e eq_refl Hn Hf). reflexivity.
Qed.

Lemma opt_float_set_key_any (entries : list (string * json)) (k : string) (v : json) :
  _opt_float (set_key (JDict entries) k v) k = _opt_float (JDict [(k, v)]) k.
Proof.
  unfold _opt_float. rewrite get_set_key_same. simpl.
  rewrite String.eqb_refl. reflexivity.
Qed.

Lemma dict_of_ok_str (data : json) (key s : string) :
  _require_str data key = Ok s -> exists entries, data = JDict entries.
Proof.
  unfold _require_str. destruct (get data key) eqn:G; [|discriminate].
  intros _. exact (get_ok_dict _ _ _ G).
Qed.

Lemma task_with_budget_raise (t : json) (task : TaskSpec.t) (v : json) (e : exn) :
  TaskSpec.from_dict t = Ok task ->
  _opt_float (JDict [("budget_usd", v)]) "budget_usd" = Raise e ->
  TaskSpec.from_dict (set_key t "budget_usd" v) = Raise e.
Proof.
  intros H Hx. unfold TaskSpec.from_dict in *.
  repeat step H. clear H.
  destruct (dict_of_ok_str _ _ _ E) as [entries ->].
  rewrite opt_float_set_key_any, Hx.
  unfold _require_str, _opt_str in *.
  rewrite !get_set_key_other by discriminate.
  replay. reflexivity.
Qed.

Lemma item_with_price_raise (item : json) (ev : EvidenceItem.t) (v : json) (e : exn) :
  EvidenceItem.from_dict item = Ok ev ->
  _opt_float (JDict [("price_usd", v)]) "price_usd" = Raise e ->
  EvidenceItem.from_dict (set_key item "price_usd" v) = Raise e.
Proof.
  intros H Hx. unfold EvidenceItem.from_dict in *.
  repeat step H. clear H.
  destruct (dict_of_ok_str _ _ _ E) as [entries ->].
  rewrite opt_float_set_key_any, Hx.
  unfold _require_str, _opt_str in *.
  rewrite !get_set_key_other by discriminate.
  replay. reflexivity.
Qed.

Lemma case_with_task_raise (doc : json) (cs : CaseStudy.t) (t : list (string * json))
    (e : exn) :
  CaseStudy.from_dict doc = Ok cs ->
  TaskSpec.from_dict (JDict t) = Raise e ->
  CaseStudy.from_dict (set_key doc "task" (JDict t)) = Raise e.
Proof.
  intros H Ht. destruct (case_parts _ _ H) as ([entries ->] & _ & _).
  unfold CaseStudy.from_dict in *.
  repeat step H. clear H.
  unfold _require_dict at 2. rewrite get_set_key_same. cbn [bind]. rewrite Ht.
  unfold _require_str, _opt_str, _require_dict in *.
  rewrite !get_set_key_other by discriminate.
  replay. reflexivity.
Qed.

Lemma case_with_evidence_raise (doc : json) (cs : CaseStudy.t) (items : list json)
    (e : exn) :
  CaseStudy.from_dict doc = Ok cs ->
  mapM EvidenceItem.from_dict items = Raise e ->
  CaseStudy.from_dict (set_key doc "evidence" (JList items)) = Raise e.
Proof.
  intros H Ht. destruct (case_parts _ _ H) as ([entries ->] & _ & _).
  unfold CaseStudy.from_dict in *.
  repeat step H. clear H.
  unfold _require_list. rewrite get_set_key_same. cbn [bind]. rewrite Ht.
  unfold _require_str, _opt_str, _require_dict in *.
  rewrite !get_set_key_other by discriminate.
  replay. reflexivity.
Qed.

(** A value the number validator refuses, put in place of the budget of a
    valid document, makes the construction fail with the validator's
    error. *)
Lemma budget_refused (doc : json) (cs : CaseStudy.t) (v : json) (e : exn) :
  CaseStudy.from_dict doc = Ok cs ->
  _opt_float (JDict [("budget_usd", v)]) "budget_usd" = Raise e ->
  CaseStudy.from_dict (with_budget doc v) = Raise e.
Proof.
  intros H Hx. destruct (case_parts _ _ H) as (_ & (t & Hf & Ht) & _).
  unfold with_budget. rewrite Hf.
  exact (case_with_task_raise doc cs _ e H (task_with_budget_raise _ _ v e Ht Hx)).
Qed.

(** The same for the price of an evidence item. *)
Lemma price_refused (doc : json) (cs : CaseStudy.t) (i : nat) (ev : EvidenceItem.t)
    (v : json) (e : exn) :
  CaseStudy.from_dict doc = Ok cs ->
  nth_error (CaseStudy.evidence cs) i = Some ev ->
  _opt_float (JDict [("price_usd", v)]) "price_usd" = Raise e ->
  CaseStudy.from_dict (with_price doc i v) = Raise e.
Proof.
  intros H Hn Hx. destruct (case_parts _ _ H) as (_ & _ & (items & Hf & Hm)).
  destruct (mapM_nth _ _ _ _ _ Hm Hn) as (item & Hi & He).
  unfold with_price. rewrite Hf, Hi.
  apply (case_with_evidence_raise doc cs); [exact H|].
  exact (mapM_list_set_raise _ _ _ _ _ _ _ Hm Hi (item_with_price_raise _ _ v e He Hx)).
Qed.

(** X10. Numbers are never read out of other kinds of values: a string (a
    numeric one included), a list or an object in place of the budget, or
    of the price of an evidence item, of a valid document makes the
    construction fail with the schema error that names the field. *)
Theorem number_fields_not_coerced (doc : json) (cs : CaseStudy.t) (v : json) :
  CaseStudy.from_dict doc = Ok cs ->
  not_a_number v = true ->
  CaseStudy.from_dict (with_budget doc v) =
    Raise (SchemaError "Expected number for 'budget_usd'.") /\
  (forall i ev,
      nth_error (CaseStudy.evidence cs) i = Some ev ->
      CaseStudy.from_dict (with_price doc i v) =
        Raise (SchemaError "Expected number for 'price_usd'.")).
Proof.
  intros H Hv. split.
  - apply (budget_refused doc cs); [exact H|].
    destruct v; try discriminate; reflexivity.
  - intros i ev Hn. apply (price_refused doc cs i ev); [exact H|exact Hn|].
    destruct v; try discriminate; reflexivity.
Qed.

(** X11. An integer too large for a float, in place of the budget or of a
    price of a valid document, makes the construction fail with
    [OverflowError], which is not a schema error. *)
Theorem huge_integer_overflows (doc : json) (cs : CaseStudy.t) (n : Z) :
  CaseStudy.from_dict doc = Ok cs ->
  float_of_int n = Raise OverflowError ->
  CaseStudy.from_dict (with_budget doc (JInt n)) = Raise OverflowError /\
  (forall i ev,
      nth_error (CaseStudy.evidence cs) i = Some ev ->
      CaseStudy.from_dict (with_price doc i (JInt n)) = Raise OverflowError).
Proof.
  intros H Hn. split.
  - apply (budget_refused doc cs); [exact H|].
    unfold _opt_float. simpl. rewrite Hn. reflexivity.
  - intros i ev Hi. apply (price_refused doc cs i ev); [exact H|exact Hi|].
    unfold _opt_float. simpl. rewrite Hn. reflexivity.
Qed.

Lemma case_with_item_raise (doc : json) (cs : CaseStudy.t) (i : nat)
    (ev : EvidenceItem.t) (item : json) (e : exn) :
  CaseStudy.from_dict doc = Ok cs ->
  nth_error (CaseStudy.evidence cs) i = Some ev ->
  EvidenceItem.from_dict item = Raise e ->
  CaseStudy.from_dict (with_item doc i item) = Raise e.
Proof.
  intros H Hn Hx. destruct (case_parts _ _ H) as (_ & _ & (items & Hf & Hm)).
  destruct (mapM_nth _ _ _ _ _ Hm Hn) as (old & Hi & He).
  unfold with_item. rewrite Hf, Hi.
  apply (case_with_evidence_raise doc cs); [exact H|].
  exact (mapM_list_set_raise _ _ _ _ _ _ _ Hm Hi Hx).
Qed.

(** X12. An evidence entry that is not an object (a string, a number, a
    list, null) makes the construction of an otherwise valid document fail
    with [AttributeError], not with a schema error. *)
Theorem non_object_item_attribute_error (doc : json) (cs : CaseStudy.t) (i : nat)
    (ev : EvidenceItem.t) (v : json) :
  CaseStudy.from_dict doc = Ok cs ->
  nth_error (CaseStudy.evidence cs) i = Some ev ->
  is_object v = false ->
  CaseStudy.from_dict (with_item doc i v) = Raise AttributeError.
Proof.
  intros H Hn Hv. apply (case_with_item_raise doc cs i ev); [exact H|exact Hn|].
  destruct v; try discriminate; reflexivity.
Qed.

(** X13. A timestamp that is a non-blank string but does not parse makes
    the construction fail with [ValueError], not with a schema error: for
    the creation timestamp and for the timestamp of an evidence item. *)
Theorem invalid_timestamp_value_error (doc : json) (cs : CaseStudy.t) (s : string) :
  CaseStudy.from_dict doc = Ok cs ->
  truthy (strip s) = true ->
  _parse_iso8601 (strip s) = Raise ValueError ->
  CaseStudy.from_dict (set_key doc "created_at" (JStr s)) = Raise ValueError /\
  (forall i ev,
      nth_error (CaseStudy.evidence cs) i = Some ev ->
      CaseStudy.from_dict (with_item_field doc i "timestamp" (JStr s)) =
        Raise ValueError).
Proof.
  intros H Ht Hp. split.
  - destruct (case_parts _ _ H) as ([entries ->] & _ & _).
    unfold CaseStudy.from_dict in *. repeat step H. clear H.
    assert (Hc : _require_str (set_key (JDict entries) "created_at" (JStr s))
                   "created_at" = Ok (strip s)).
    { unfold _require_str. rewrite get_set_key_same. cbn [bind]. rewrite Ht.
      reflexivity. }
    rewrite Hc.
    unfold _require_str in E, E0, E1 |- *.
    rewrite !get_set_key_other by discriminate.
    replay. rewrite Hp. reflexivity.
  - intros i ev Hn.
    destruct (case_parts _ _ H) as (_ & _ & (items & Hf & Hm)).
    destruct (mapM_nth _ _ _ _ _ Hm Hn) as (item & Hi & He).
    unfold with_item_field. rewrite Hf, Hi.
    apply (case_with_item_raise doc cs i ev); [exact H|exact Hn|].
    unfold EvidenceItem.from_dict in He |- *.
    step He. destruct (dict_of_ok_str _ _ _ E) as [entries ->].
    unfold _require_str at 1. rewrite get_set_key_same. cbn [bind].
    rewrite Ht. cbn [bind]. rewrite Hp. reflexivity.
Qed.

Ltac refuse v Hv :=
  unfold _require_str, _require_dict, _require_list, _opt_str, _require_bool in *;
  rewrite get_set_key_same; cbn [bind];
  rewrite ?get_set_key_other by discriminate;
  replay;
  destruct v; simpl in Hv; try discriminate Hv; try rewrite Hv; reflexivity.

(** X14. A required top-level field of an otherwise valid document that
    is missing, null or of the wrong kind is reported by a schema error
    that names the field: the four required strings (a blank string
    counts as missing), the three required objects, and the evidence
    list. *)
Theorem required_field_error_names_key (doc : json) (cs : CaseStudy.t) (v : json) :
  CaseStudy.from_dict doc = Ok cs ->
  (forall k, In k ["version"; "id"; "title"; "created_at"] ->
     is_text v = false ->
     CaseStudy.from_dict (set_key doc k v) =
       Raise (SchemaError ("Expected non-empty string for '" ++ k ++ "'."))) /\
  (forall k, In k ["agent"; "task"; "agent_output"] ->
     is_object v = false ->
     CaseStudy.from_dict (set_key doc k v) =
       Raise (SchemaError ("Expected object for '" ++ k ++ "'."))) /\
  (is_list v = false ->
     CaseStudy.from_dict (set_key doc "evidence" v) =
       Raise (SchemaError "Expected list for 'evidence'.")).
Proof.
  intros H. destruct (case_parts _ _ H) as ([entries ->] & _ & _).
  unfold CaseStudy.from_dict in *. repeat step H. clear H.
  split; [|split].
  - intros k Hk Hv. simpl in Hk.
    destruct Hk as [<-|[<-|[<-|[<-|[]]]]]; refuse v Hv.
  - intros k Hk Hv. simpl in Hk.
    destruct Hk as [<-|[<-|[<-|[]]]]; refuse v Hv.
  - intros Hv. refuse v Hv.
Qed.

Lemma task_rules_part (t : json) (task : TaskSpec.t) :
  TaskSpec.from_dict t = Ok task ->
  exists entries r, t = JDict entries /\ field t "rules" = JDict r /\
    TaskRules.from_dict (JDict r) = Ok (TaskSpec.rules task).
Proof.
  intros H. unfold TaskSpec.from_dict in H. repeat step H.
  destruct (dict_of_ok_str _ _ _ E) as [entries ->].
  inversion H; subst task; clear H. cbn [TaskSpec.rules].
  unfold _require_dict in E4.
  destruct (get (JDict entries) "rules") as [v|] eqn:G; cbn [bind] in E4;
    [|discriminate].
  rewrite (get_field _ _ _ G).
  destruct v; try discriminate. cbn [bind] in E4.
  eexists _, _. split; [reflexivity|]. split; [reflexivity|]. exact E4.
Qed.

Lemma task_with_rules_raise (t : list (string * json)) (task : TaskSpec.t)
    (r : list (string * json)) (e : exn) :
  TaskSpec.from_dict (JDict t) = Ok task ->
  TaskRules.from_dict (JDict r) = Raise e ->
  TaskSpec.from_dict (set_key (JDict t) "rules" (JDict r)) = Raise e.
Proof.
  intros H Hx. unfold TaskSpec.from_dict in *. repeat step H. clear H.
  unfold _require_dict at 1. rewrite get_set_key_same. cbn [bind]. rewrite Hx.
  unfold _require_str, _opt_str, _opt_float, _require_str_list in *.
  rewrite !get_set_key_other by discriminate.
  replay. reflexivity.
Qed.

(** X15. The three rule flags are required booleans and nothing is
    coerced into one: a missing or null flag, a number (0 and 1
    included) or a string in place of a rule flag of a valid document
    makes the construction fail with the schema error naming the flag. *)
Theorem rule_flags_not_coerced (doc : json) (cs : CaseStudy.t) (key : string) (v : json) :
  CaseStudy.from_dict doc = Ok cs ->
  In key rules_keys ->
  is_boolean v = false ->
  CaseStudy.from_dict (with_rule doc key v) =
    Raise (SchemaError ("Expected boolean for '" ++ key ++ "'.")).
Proof.
  intros H Hk Hv. destruct (case_parts _ _ H) as (_ & (t & Hf & Ht) & _).
  destruct (task_rules_part _ _ Ht) as (entries & r & Hd & Hr & Hrules).
  unfold with_rule. rewrite Hf, Hr. cbn [set_key].
  apply (case_with_task_raise doc cs); [exact H|].
  inversion Hd; subst t.
  apply (task_with_rules_raise entries _ _ _ Ht).
  change (JDict ((key, v) :: r)) with (set_key (JDict r) key v).
  unfold TaskRules.from_dict in *. repeat step Hrules. clear Hrules.
  simpl in Hk. destruct Hk as [<-|[<-|[<-|[]]]]; refuse v Hv.
Qed.

End SchemaMore.

(** ** The schema properties at the sample documents *)

Section SchemaSamples.
Import PyStr PyFloat Schema Docs SchemaSpec Examples.
Open Scope string_scope.

Lemma constructed_strings_trimmed_witness :
  exists cs,
    @CaseStudy.from_dict IsoFormat.core valid_doc = Ok cs /\
    Forall (fun s => s <> "" /\ strip s = s) (required_strings cs) /\
    Forall (fun o => forall s, o = Some s -> strip s = s) (optional_strings cs) /\
    TaskSpec.allowed_retailers (CaseStudy.task cs) <> [].
Proof.
  eexists. split; [vm_compute; reflexivity|].
  refine (@constructed_strings_trimmed IsoFormat.core valid_doc _ _).
  vm_compute; reflexivity.
Defined.

Lemma constructed_timestamps_valid_witness :
  exists cs,
    @CaseStudy.from_dict IsoFormat.core valid_doc = Ok cs /\
    Forall (fun ts => @_parse_iso8601 IsoFormat.core ts = Ok tt) (timestamps cs).
Proof.
  eexists. split; [vm_compute; reflexivity|].
  refine (@constructed_timestamps_valid IsoFormat.core valid_doc _ _).
  vm_compute; reflexivity.
Defined.

(** The budget given as the string "200". *)
Lemma number_fields_not_coerced_witness :
  @CaseStudy.from_dict IsoFormat.core (with_budget valid_doc (JStr "200")) =
    Raise (SchemaError "Expected number for 'budget_usd'.").
Proof.
  refine (proj1 (@number_fields_not_coerced IsoFormat.core valid_doc _ (JStr "200") _ _)).
  - vm_compute; reflexivity.
  - reflexivity.
Defined.

(** The budget given as the integer 10^400. *)
Lemma huge_integer_overflows_witness :
  @CaseStudy.from_dict IsoFormat.core (with_budget valid_doc (JInt (10 ^ 400))) =
    Raise OverflowError.
Proof.
  refine (proj1 (@huge_integer_overflows IsoFormat.core valid_doc _ (10 ^ 400)%Z _ _)).
  - vm_compute; reflexivity.
  - vm_compute; reflexivity.
Defined.

(** The first evidence entry given as a string. *)
Lemma non_object_item_attribute_error_witness :
  @CaseStudy.from_dict IsoFormat.core (with_item valid_doc 0 (JStr "Amazon")) =
    Raise AttributeError.
Proof.
  refine (@non_object_item_attribute_error IsoFormat.core valid_doc _ 0 _
            (JStr "Amazon") _ _ _).
  - vm_compute; reflexivity.
  - vm_compute; reflexivity.
  - reflexivity.
Defined.

(** The creation timestamp given as the text "yesterday". *)
Lemma invalid_timestamp_value_error_witness :
  @CaseStudy.from_dict IsoFormat.core
     (set_key valid_doc "created_at" (JStr "yesterday")) = Raise ValueError.
Proof.
  refine (proj1 (@invalid_timestamp_value_error IsoFormat.core valid_doc _
                   "yesterday" _ _ _)).
  - vm_compute; reflexivity.
  - vm_compute; reflexivity.
  - vm_compute; reflexivity.
Defined.

(** The title removed (set to null). *)
Lemma required_field_error_names_key_witness :
  @CaseStudy.from_dict IsoFormat.core (set_key valid_doc "title" JNull) =
    Raise (SchemaError "Expected non-empty string for 'title'.").
Proof.
  refine (proj1 (@required_field_error_names_key IsoFormat.core valid_doc _ JNull _)
            "title" _ _).
  - vm_compute; reflexivity.
  - simpl; tauto.
  - reflexivity.
Defined.

(** The flag [allow_refurbished] given as the integer 0. *)
Lemma rule_flags_not_coerced_witness :
  @CaseStudy.from_dict IsoFormat.core (with_rule valid_doc "allow_refurbished" (JInt 0)) =
    Raise (SchemaError "Expected boolean for 'allow_refurbished'.").
Proof.
  refine (@rule_flags_not_coerced IsoFormat.core valid_doc _ "allow_refurbished"
            (JInt 0) _ _ _).
  - vm_compute; reflexivity.
  - simpl; tauto.
  - reflexivity.
Defined.

End SchemaSamples.

(** ** The offers the parser emits *)

Section ParserMore.
Import PyStr PyFloat Regex RegexSem Parser ScanSpec ParserSpec OfferSpec.
Open Scope string_scope.

Lemma keys_set_In {V : Type} (d : dict V) (k : string) (v : V) (x : string) :
  In x (keys (set d k v)) <-> x = k \/ In x (keys d).
Proof.
  induction d as [|[k' v'] d IH]; simpl.
  - intuition.
  - destruct (String.eqb_spec k' k) as [->|Hne]; simpl.
    + intuition.
    + rewrite IH. intuition.
Qed.

Lemma keys_set_NoDup {V : Type} (d : dict V) (k : string) (v : V) :
  NoDup (keys d) -> NoDup (keys (set d k v)).
Proof.
  induction d as [|[k' v'] d IH]; simpl; intros H.
  - constructor; [intros []|constructor].
  - inversion H as [|? ? Hn Hd]; subst.
    destruct (String.eqb_spec k' k) as [->|Hne]; simpl.
    + constructor; assumption.
    + constructor; [|apply IH; exact Hd].
      intros Hin. apply keys_set_In in Hin. destruct Hin as [->|Hin]; auto.
Qed.

Lemma get_None_keys {V : Type} (d : dict V) (k : string) :
  get d k = None <-> ~ In k (keys d).
Proof.
  induction d as [|[k' v'] d IH]; simpl.
  - intuition.
  - destruct (String.eqb_spec k' k) as [->|Hne].
    + split; [discriminate|]. intros H. exfalso. apply H. left; reflexivity.
    + rewrite IH. intuition.
Qed.

Lemma keys_setdefault_In {V : Type} (d : dict V) (k : string) (v : V) (x : string) :
  In x (keys (setdefault d k v)) <-> x = k \/ In x (keys d).
Proof.
  unfold setdefault. destruct (get d k) as [y|] eqn:E.
  - split; [auto|]. intros [->|H]; [|exact H].
    destruct (in_dec string_dec k (keys d)) as [Hin|Hn]; [exact Hin|].
    apply get_None_keys in Hn. congruence.
  - apply keys_set_In.
Qed.

Lemma keys_setdefault_NoDup {V : Type} (d : dict V) (k : string) (v : V) :
  NoDup (keys d) -> NoDup (keys (setdefault d k v)).
Proof.
  unfold setdefault. destruct (get d k); [auto|apply keys_set_NoDup].
Qed.

(** The retailer that is current after a line. *)
Lemma scan_line_current (st : scan) (line : string) :
  (if str_in "amazon" (lower line) then Some "Amazon"
   else if str_in "best buy" (lower line) || str_in "bestbuy" (lower line)
        then Some "Best Buy"
        else if str_in "apple" (lower line) then Some "Apple"
             else current_retailer st) =
  match _infer_retailer line with
  | Some r => Some r
  | None => current_retailer st
  end.
Proof.
  unfold _infer_retailer.
  destruct (str_in "amazon" (lower line)); [reflexivity|].
  destruct (str_in "best buy" (lower line) || str_in "bestbuy" (lower line));
    [reflexivity|].
  destruct (str_in "apple" (lower line)); reflexivity.
Qed.

Lemma scan_line_keys (st st' : scan) (line : string) :
  scan_wf st -> scan_line st line = Ok st' ->
  scan_wf st' /\
  forall r, In r (keys (offers_by_retailer st')) <->
            In r (keys (offers_by_retailer st)) \/ _infer_retailer line = Some r.
Proof.
  intros [Hnd Hcur]. unfold scan_line. rewrite scan_line_current.
  destruct (_infer_retailer line) as [r0|] eqn:Ei.
  - rewrite (infer_retailer_truthy _ _ Ei).
    destruct (get_setdefault (offers_by_retailer st) r0 []) as (fields & Hget & _).
    unfold getitem. rewrite Hget. cbn [bind].
    destruct (_capture_line_fields fields line) as [f'|]; cbn [bind]; [|discriminate].
    intros H; inversion H; subst st'; clear H. cbn [offers_by_retailer current_retailer].
    split.
    + split.
      * apply keys_set_NoDup, keys_setdefault_NoDup, Hnd.
      * intros r Hr. inversion Hr; subst r. apply keys_set_In. left; reflexivity.
    + intros r. rewrite keys_set_In, keys_setdefault_In. split.
      * intros [->|[->|H]]; auto.
      * intros [H|H]; [auto|]. inversion H; auto.
  - destruct (current_retailer st) as [r0|] eqn:Ec.
    + destruct (truthy r0).
      * destruct (get_setdefault (offers_by_retailer st) r0 []) as (fields & Hget & _).
        unfold getitem. rewrite Hget. cbn [bind].
        destruct (_capture_line_fields fields line) as [f'|]; cbn [bind];
          [|discriminate].
        intros H; inversion H; subst st'; clear H.
        cbn [offers_by_retailer current_retailer].
        split.
        -- split.
           ++ apply keys_set_NoDup, keys_setdefault_NoDup, Hnd.
           ++ intros r Hr. inversion Hr; subst r. apply keys_set_In. left; reflexivity.
        -- intros r. rewrite keys_set_In, keys_setdefault_In. split.
           ++ intros [->|[->|H]]; auto.
           ++ intros [H|H]; [auto|discriminate].
      * intros H; inversion H; subst st'; clear H.
        cbn [offers_by_retailer current_retailer]. split.
        -- split; [exact Hnd|]. intros r Hr. inversion Hr; subst r. auto.
        -- intros r. split; [auto|]. intros [H|H]; [exact H|discriminate].
    + intros H; inversion H; subst st'; clear H.
      cbn [offers_by_retailer current_retailer]. split.
      * split; [exact Hnd|]. discriminate.
      * intros r. split; [auto|]. intros [H|H]; [exact H|discriminate].
Qed.

Lemma scan_lines_keys (lines : list string) :
  forall st st', scan_wf st -> scan_lines st lines = Ok st' ->
    scan_wf st' /\
    forall r, In r (keys (offers_by_retailer st')) <->
              In r (keys (offers_by_retailer st)) \/ named lines r.
Proof.
  induction lines as [|line rest IH]; intros st st' Hwf H; simpl in H.
  - inversion H; subst st'. split; [exact Hwf|].
    intros r. split; [auto|]. intros [Hr|(l & [] & _)]. exact Hr.
  - destruct (scan_line st line) as [st1|] eqn:E1; cbn [bind] in H; [|discriminate].
    destruct (scan_line_keys _ _ _ Hwf E1) as [Hwf1 K1].
    destruct (IH _ _ Hwf1 H) as [Hwf2 K2].
    split; [exact Hwf2|]. intros r. rewrite K2, K1. unfold named. split.
    + intros [[Hr|Hr]|(l & Hl & Hr)].
      * auto.
      * right. exists line. split; [left; reflexivity|exact Hr].
      * right. exists l. split; [right; exact Hl|exact Hr].
    + intros [Hr|(l & [<-|Hl] & Hr)].
      * auto.
      * auto.
      * right. exists l. auto.
Qed.

Lemma scan_init_wf : scan_wf scan_init.
Proof. split; [constructor|discriminate]. Qed.

Lemma build_offers_keys (d : dict fields_dict) :
  forall os,
    mapM (fun '(retailer, fields) => _build_offer retailer fields) d = Ok os ->
    map retailer os = keys d.
Proof.
  induction d as [|[r f] d IH]; intros os H; simpl in H.
  - inversion H. reflexivity.
  - destruct (build_offer_total r f) as (o & Ho & Hr). rewrite Ho in H.
    cbn [bind] in H.
    destruct (mapM _ d) as [os'|] eqn:E; cbn [bind] in H; [|discriminate].
    inversion H; subst os. simpl. rewrite Hr, (IH os' eq_refl). reflexivity.
Qed.

Lemma infer_retailer_known (line r : string) :
  _infer_retailer line = Some r -> In r known_retailers /\ mentions line r = true.
Proof.
  unfold _infer_retailer, mentions, contains_ci.
  destruct (str_in "amazon" (lower line)) eqn:Ea.
  { intros H; inversion H; subst. split; [simpl; auto|]. simpl. rewrite Ea. reflexivity. }
  destruct (str_in "best buy" (lower line) || str_in "bestbuy" (lower line)) eqn:Eb.
  { intros H; inversion H; subst. split; [simpl; auto|].
    cbn [keywords String.eqb existsb]. simpl. rewrite orb_false_r. exact Eb. }
  destruct (str_in "apple" (lower line)) eqn:Ec; [|discriminate].
  intros H; inversion H; subst. split; [simpl; auto|]. simpl. rewrite Ec. reflexivity.
Qed.

(** ** Everything the parser reads is part of the text *)

Lemma part_of_refl (s : string) : part_of s s.
Proof. exists "", "". simpl. rewrite append_empty_r. reflexivity. Qed.

Lemma part_of_trans (a b c : string) : part_of a b -> part_of b c -> part_of a c.
Proof.
  intros (x & y & ->) (u & v & ->). exists (u ++ x), (y ++ v).
  rewrite !append_assoc. reflexivity.
Qed.

Lemma part_of_cons (c : ascii) (l s : string) : part_of l s -> part_of l (String c s).
Proof. intros (a & b & ->). exists (String c a), b. reflexivity. Qed.

Lemma lstrip_part (p : ascii -> bool) (s : string) : part_of (lstrip_by p s) s.
Proof.
  induction s as [|c s IH]; simpl.
  - apply part_of_refl.
  - destruct (p c); [apply part_of_cons, IH|apply part_of_refl].
Qed.

Lemma rstrip_prefix (p : ascii -> bool) (s : string) :
  exists b, s = rstrip_by p s ++ b.
Proof.
  induction s as [|c s IH]; simpl.
  - exists "". reflexivity.
  - destruct IH as [b Hb].
    destruct (p c && is_empty (rstrip_by p s)).
    + exists (String c s). reflexivity.
    + exists b. simpl. rewrite <- Hb. reflexivity.
Qed.

Lemma rstrip_part (p : ascii -> bool) (s : string) : part_of (rstrip_by p s) s.
Proof. destruct (rstrip_prefix p s) as [b Hb]. exists "", b. exact Hb. Qed.

Lemma strip_part (s : string) : part_of (strip s) s.
Proof.
  unfold strip. eapply part_of_trans; [apply rstrip_part|apply lstrip_part].
Qed.

Lemma splitlines_go_part (s : string) :
  forall (after_cr : bool) (cur l : string),
    (after_cr = true -> cur = "") ->
    In l (splitlines_go after_cr cur s) -> part_of l (cur ++ s).
Proof.
  induction s as [|c s IH]; intros after_cr cur l Hcr Hin; simpl in Hin.
  - destruct (is_empty cur); [contradiction|].
    destruct Hin as [<-|[]]. rewrite append_empty_r. apply part_of_refl.
  - destruct (after_cr && (ord c =? 10)%N) eqn:E1.
    + apply andb_true_iff in E1. destruct E1 as [E1 _].
      rewrite (Hcr E1) in *. simpl.
      apply part_of_cons. apply (IH false "" l); [discriminate|exact Hin].
    + destruct (is_linebreak c).
      * destruct Hin as [<-|Hin].
        -- exists "", (String c s). reflexivity.
        -- destruct (IH _ "" l (fun _ => eq_refl) Hin) as (a & b & Hab).
           simpl in Hab. exists (cur ++ String c a), b.
           rewrite append_assoc. simpl. rewrite Hab. reflexivity.
      * replace (cur ++ String c s) with ((cur ++ String c "") ++ s)
          by (rewrite append_assoc; reflexivity).
        apply (IH false _ l); [discriminate|exact Hin].
Qed.

Lemma splitlines_part (s l : string) : In l (splitlines s) -> part_of l s.
Proof.
  intros H. apply (splitlines_go_part s false "" l); [discriminate|exact H].
Qed.

Lemma nonempty_lines_part (text line : string) :
  In line (nonempty_lines text) -> part_of line text.
Proof.
  unfold nonempty_lines. intros H. apply in_map_iff in H.
  destruct H as (l & <- & Hl). apply filter_In in Hl. destruct Hl as [Hl _].
  eapply part_of_trans; [apply strip_part|apply splitlines_part, Hl].
Qed.

Lemma contains_ci_part (l s k : string) :
  part_of l s -> contains_ci l k = true -> contains_ci s k = true.
Proof.
  unfold contains_ci. intros (a & b & ->) H.
  apply str_in_spec in H. destruct H as (x & y & Hxy).
  apply str_in_spec. exists (lower a ++ x), (y ++ lower b).
  rewrite !lower_app, Hxy, !append_assoc. reflexivity.
Qed.

Lemma mentions_part (l s r : string) :
  part_of l s -> mentions l r = true -> mentions s r = true.
Proof.
  unfold mentions. intros Hp H. apply existsb_exists in H.
  destruct H as (k & Hk & Hc). apply existsb_exists. exists k.
  split; [exact Hk|]. exact (contains_ci_part _ _ _ Hp Hc).
Qed.

Lemma search_part (r : regex) (s : string) (m : re_match) :
  search r s = Some m -> part_of (group0 m) s.
Proof.
  induction s as [|c s IH]; simpl; intros H.
  - destruct (run r "" None _) as [y|] eqn:E; [|discriminate].
    inversion H; subst y. apply run_sound in E.
    destruct E as (w & rest & g' & Hs & _ & Hk). inversion Hk; subst m.
    exists "", rest. exact Hs.
  - destruct (run r (String c s) None _) as [y|] eqn:E.
    + inversion H; subst y. apply run_sound in E.
      destruct E as (w & rest & g' & Hs & _ & Hk). inversion Hk; subst m.
      exists "", rest. exact Hs.
    + apply part_of_cons. apply IH. exact H.
Qed.

Lemma StrI_lower (p w : string) (g g' : option string) :
  lang (StrI p) w g g' -> lower w = p.
Proof.
  revert w g. induction p as [|c p IH]; intros w g H; simpl in H.
  - destruct H as [-> _]. reflexivity.
  - destruct H as (w1 & w2 & g1 & -> & (x & -> & Hx & _) & L).
    simpl. apply Ascii.eqb_eq in Hx. rewrite Hx, (IH _ _ L). reflexivity.
Qed.

(** A match of a pattern that opens with a case-insensitive literal has
    that literal in the text. *)
Lemma search_StrI_head (p : string) (rs : regex) (s : string) (m : re_match) :
  search (Seq (StrI p) rs) s = Some m -> contains_ci s p = true.
Proof.
  intros H. pose proof (search_part _ _ _ H) as Hp.
  apply search_sound in H. simpl in H.
  destruct H as (w1 & w2 & g1 & Hw & L & _).
  apply (contains_ci_part (group0 m)); [exact Hp|].
  unfold contains_ci. apply str_in_spec. exists "", (lower w2).
  rewrite Hw, lower_app, (StrI_lower _ _ _ _ L). reflexivity.
Qed.

Lemma chosen_by_lines_keyword (lines rest : list string) :
  forall idx o,
    chosen_by_lines_from lines idx rest = Ok (Some o) ->
    exists line, In line rest /\ contains_ci line "chosen retailer" = true.
Proof.
  induction rest as [|line rest IH]; intros idx o; cbn [chosen_by_lines_from];
    [discriminate|].
  destruct (mem (rstrip_colon (lower (strip line))) chosen_label) eqn:E.
  - intros _. exists line. split; [left; reflexivity|].
    assert (Hn : rstrip_colon (lower (strip line)) = "chosen retailer + price + url").
    { unfold mem, chosen_label in E. simpl in E.
      rewrite orb_false_r, orb_diag in E. apply String.eqb_eq in E. exact E. }
    apply (contains_ci_part (strip line)); [apply strip_part|].
    unfold contains_ci. destruct (rstrip_prefix (Ascii.eqb ":") (lower (strip line)))
      as [b Hb]. unfold rstrip_colon in Hn. rewrite Hn in Hb.
    apply str_in_spec. exists "", (" + price + url" ++ b). rewrite Hb. reflexivity.
  - intros H. destruct (IH _ _ H) as (l & Hl & Hc). exists l. split; [right; exact Hl|exact Hc].
Qed.

Lemma budget_by_lines_keyword (lines rest : list string) :
  forall idx b,
    budget_by_lines_from lines idx rest = Ok (Some b) ->
    exists line, In line rest /\ contains_ci line "within budget" = true.
Proof.
  induction rest as [|line rest IH]; intros idx b; cbn [budget_by_lines_from];
    [discriminate|].
  destruct (startswith (lower (strip line)) "within budget") eqn:E.
  - intros _. exists line. split; [left; reflexivity|].
    apply (contains_ci_part (strip line)); [apply strip_part|].
    unfold contains_ci. apply startswith_spec in E. destruct E as [t Ht].
    apply str_in_spec. exists "", t. exact Ht.
  - intros H. destruct (IH _ _ H) as (l & Hl & Hc). exists l. split; [right; exact Hl|exact Hc].
Qed.

Lemma parse_chosen_offer_keyword (text : string) (o : ParsedOffer) :
  _parse_chosen_offer text (nonempty_lines text) = Ok (Some o) ->
  contains_ci text "chosen retailer" = true.
Proof.
  unfold _parse_chosen_offer.
  destruct (search _RE_CHOSEN text) as [m|] eqn:E.
  - intros _. exact (search_StrI_head _ _ _ _ E).
  - intros H. destruct (chosen_by_lines_keyword _ _ _ _ H) as (l & Hl & Hc).
    exact (contains_ci_part _ _ _ (nonempty_lines_part _ _ Hl) Hc).
Qed.

Lemma parse_within_budget_keyword (text : string) (b : bool) :
  _parse_within_budget text (nonempty_lines text) = Ok (Some b) ->
  contains_ci text "within budget" = true.
Proof.
  unfold _parse_within_budget.
  destruct (search _RE_WITHIN_BUDGET text) as [m|] eqn:E.
  - intros _. exact (search_StrI_head _ _ _ _ E).
  - intros H. destruct (budget_by_lines_keyword _ _ _ _ H) as (l & Hl & Hc).
    exact (contains_ci_part _ _ _ (nonempty_lines_part _ _ Hl) Hc).
Qed.

(** The parts of the result of [parse_agent_output]. *)
Lemma parse_agent_output_parts (raw_text : option string) :
  let text := text_of raw_text in
  exists st out,
    scan_lines scan_init (nonempty_lines text) = Ok st /\
    parse_agent_output raw_text = Ok out /\
    map retailer (offers out) = keys (offers_by_retailer st) /\
    _parse_chosen_offer text (nonempty_lines text) = Ok (chosen out) /\
    _parse_within_budget text (nonempty_lines text) = Ok (Parser.within_budget out).
Proof.
  destruct (parse_agent_output_stages raw_text)
    as (st & os & c & b & Hst & Hos & Hc & Hb & H).
  cbv zeta in *. eexists st, _. split; [exact Hst|]. split; [exact H|].
  cbn [offers chosen Parser.within_budget]. split; [|split; assumption].
  exact (build_offers_keys _ _ Hos).
Qed.

(** X16. For every input the parser emits one offer per retailer named in
    the text and no other: the retailers of the offers are pairwise
    distinct, a retailer has an offer exactly when some non-blank line
    names it (a line names the first of Amazon, Best Buy and Apple that it
    mentions), hence at most three offers come out. *)
Theorem offers_one_per_named_retailer (raw_text : option string) :
  exists out,
    parse_agent_output raw_text = Ok out /\
    NoDup (map retailer (offers out)) /\
    (forall r, In r (map retailer (offers out)) <->
               named (nonempty_lines (text_of raw_text)) r) /\
    incl (map retailer (offers out)) known_retailers /\
    (List.length (offers out) <= 3)%nat.
Proof.
  destruct (parse_agent_output_parts raw_text) as (st & out & Hst & H & Hk & _ & _).
  cbv zeta in *.
  destruct (scan_lines_keys _ _ _ scan_init_wf Hst) as [[Hnd _] K].
  exists out. split; [exact H|]. rewrite Hk.
  assert (Hincl : incl (keys (offers_by_retailer st)) known_retailers).
  { intros r Hr. apply K in Hr. destruct Hr as [[]|(l & _ & Hl)].
    exact (proj1 (infer_retailer_known _ _ Hl)). }
  split; [exact Hnd|]. split; [|split; [exact Hincl|]].
  - intros r. rewrite K. simpl. tauto.
  - rewrite <- (length_map retailer), Hk.
    exact (NoDup_incl_length Hnd Hincl).
Qed.

End ParserMore.

(** ** The parser and the evaluator together *)

Section Composition.
Import PyStr PyFloat Schema Parser Evaluator EvalSpec ParserSpec OfferSpec.
Open Scope string_scope.

Lemma sub_self_zero (x : float) :
  is_finite x = true -> exists s, Prim2SF (x - x) = S754_zero s.
Proof.
  unfold is_finite, is_nan, is_infinity.
  rewrite sub_spec, !FloatAxioms.eqb_spec, abs_spec.
  destruct (Prim2SF x) as [s|s| |s m e]; simpl.
  - intros _. destruct s; eexists; reflexivity.
  - destruct s; discriminate.
  - discriminate.
  - intros _. unfold SF64sub, SFsub. cbv zeta. rewrite Z.sub_diag.
    eexists; reflexivity.
Qed.

Lemma price_equal_itself (x : float) :
  is_finite x = true ->
  (abs (x - x) <? 0.01)%float = true /\ (0 <? x - x)%float = false.
Proof.
  intros H. destruct (sub_self_zero x H) as [s Hs].
  rewrite !ltb_spec, abs_spec, Hs. destruct s; split; reflexivity.
Qed.

(** X19. Picking the best offer is recognised: when the chosen offer is
    matched to the very evidence item that is the best qualifying one, and
    its price is finite, the evaluation reports that price and retailer as
    the agent's, the choice as qualified, the best price as found, and no
    money left on the table. *)
Theorem best_pick_recognised (cs : CaseStudy.t) (parsed : ParsedAgentOutput)
    (b : EvidenceItem.t) (x : float) :
  parse_agent_output (Some (AgentOutput.raw_text (CaseStudy.agent_output cs)))
    = Ok parsed ->
  best_of (CaseStudy.evidence cs) (TaskSpec.rules (CaseStudy.task cs)) = Some b ->
  _match_offer_to_evidence (chosen parsed) (CaseStudy.evidence cs) = Some b ->
  EvidenceItem.price_usd b = Some x ->
  is_finite x = true ->
  exists res,
    evaluate_case_study cs = Ok res /\
    agent_chosen_price_usd res = Some x /\
    agent_chosen_retailer res = Some (EvidenceItem.retailer b) /\
    agent_choice_qualified res = Some true /\
    found_best_first_party_price res = Some true /\
    money_left_on_table_usd res = Some 0%float.
Proof.
  intros Hparse Hbest Hmatch Hprice Hfin.
  destruct (evaluate_fields cs)
    as (parsed' & res & Hp & He & _ & Hbr & Hpr & Hre & Hq & Hf & _ & Hm).
  cbv zeta in *. rewrite Hparse in Hp. inversion Hp; subst parsed'; clear Hp.
  rewrite Hbest, Hmatch in *. rewrite Hprice in *.
  cbn [is_some option_map] in *.
  destruct (best_of_In _ _ _ Hbest) as (_ & Hqual & _).
  rewrite Hqual in Hq.
  destruct (price_equal_itself x Hfin) as [Heq Hlt].
  exists res. split; [exact He|].
  split; [exact Hpr|]. split; [exact Hre|]. split; [exact Hq|].
  rewrite Hf, Hm, Hpr, Hq. cbn [is_false].
  unfold _prices_equal, retailers_agree, shortfall, floor_at_zero.
  rewrite Heq, Hlt, Hre, Hbr. cbn [known opt_truthy].
  split.
  - destruct (truthy (EvidenceItem.retailer b)); cbn [andb];
      [rewrite String.eqb_refl|]; reflexivity.
  - reflexivity.
Qed.

Lemma best_pick_recognised_witness :
  exists res,
    evaluate_case_study MoreExamples.best_pick_case = Ok res /\
    agent_chosen_price_usd res = Some 97.5%float /\
    agent_chosen_retailer res = Some "Best Buy" /\
    agent_choice_qualified res = Some true /\
    found_best_first_party_price res = Some true /\
    money_left_on_table_usd res = Some 0%float.
Proof.
  refine (best_pick_recognised MoreExamples.best_pick_case _
            (Examples.best_buy 97.5) 97.5%float _ _ _ _ _);
    vm_compute; reflexivity.
Defined.

End Composition.

(** ** Captured fields and the emitted offers *)

Section CapturedOffers.
Import PyStr PyFloat Regex RegexSem Parser ScanSpec ParserSpec OfferSpec CaptureSpec.
Open Scope string_scope.

Lemma typed_set (f : fields_dict) (k : string) (v : option string) :
  typed f ->
  (k = "price" -> forall s, v = Some s -> exists x, py_float s = Ok x) ->
  (k = "variant_match" -> forall s, v = Some s -> s = "true" \/ s = "false") ->
  typed (set f k v).
Proof.
  intros [Tp Tv] Hp Hv. split; intros s Hs.
  - destruct (String.eqb_spec k "price") as [->|Hne].
    + rewrite fields_get_set_same in Hs. exact (Hp eq_refl s Hs).
    + rewrite fields_get_set_other in Hs by exact Hne. exact (Tp s Hs).
  - destruct (String.eqb_spec k "variant_match") as [->|Hne].
    + rewrite fields_get_set_same in Hs. exact (Hv eq_refl s Hs).
    + rewrite fields_get_set_other in Hs by exact Hne. exact (Tv s Hs).
Qed.

Lemma typed_set_text (f : fields_dict) (k : string) (v : option string) :
  typed f -> k <> "price" -> k <> "variant_match" -> typed (set f k v).
Proof. intros T H1 H2. apply typed_set; [exact T| |]; intros ->; congruence. Qed.

Lemma capture_typed (fields f' : fields_dict) (line : string) :
  _capture_line_fields fields line = Ok f' -> typed fields -> typed f'.
Proof.
  unfold _capture_line_fields. intros H T.
  set (f1 := match search _RE_PRICE line with
             | Some price_match =>
                 if unset fields "price"
                 then set fields "price" (group1 price_match)
                 else fields
             | None => fields
             end) in H.
  assert (T1 : typed f1).
  { subst f1. destruct (search _RE_PRICE line) as [m|] eqn:Em; [|exact T].
    destruct (unset fields "price"); [|exact T].
    destruct (price_match_float _ _ Em) as (g & x & Hg & _ & Hx).
    apply typed_set; [exact T| |intros E; discriminate E].
    intros _ s Hs. rewrite Hg in Hs. inversion Hs; subst. eauto. }
  clearbody f1.
  set (f2 := match search _RE_URL line with
             | Some url_match =>
                 if unset f1 "url" then set f1 "url" (Some (group0 url_match))
                 else f1
             | None => f1
             end) in H.
  assert (T2 : typed f2).
  { subst f2. destruct (search _RE_URL line) as [m|]; [|exact T1].
    destruct (unset f1 "url"); [|exact T1].
    apply typed_set_text; [exact T1| |]; discriminate. }
  clearbody f2.
  destruct (after_colon_total line) as [v Hv]. rewrite Hv in H. cbn [bind] in H.
  set (f3 := if str_in "availability" (lower line) && unset f2 "availability"
             then set f2 "availability" (Some v) else f2).
  assert (E3 : (if str_in "availability" (lower line) && unset f2 "availability"
                then Ok (set f2 "availability" (Some v)) else Ok f2) = Ok f3)
    by (subst f3; destruct (_ && _); reflexivity).
  assert (T3 : typed f3).
  { subst f3. destruct (_ && _); [|exact T2].
    apply typed_set_text; [exact T2| |]; discriminate. }
  rewrite E3 in H. cbn [bind] in H. clearbody f3. clear E3.
  set (f4 := if str_in "seller" (lower line) && unset f3 "seller"
             then set f3 "seller" (Some v) else f3).
  assert (E4 : (if str_in "seller" (lower line) && unset f3 "seller"
                then Ok (set f3 "seller" (Some v)) else Ok f3) = Ok f4)
    by (subst f4; destruct (_ && _); reflexivity).
  assert (T4 : typed f4).
  { subst f4. destruct (_ && _); [|exact T3].
    apply typed_set_text; [exact T3| |]; discriminate. }
  rewrite E4 in H. cbn [bind] in H. clearbody f4. clear E4.
  destruct (str_in "variant match" (lower line) && unset f4 "variant_match").
  - destruct (mem (lower v) ["yes"; "true"]).
    + inversion H; subst f'.
      apply typed_set; [exact T4|intros E; discriminate E|].
      intros _ s Hs. inversion Hs. auto.
    + destruct (mem (lower v) ["no"; "false"]); inversion H; subst f';
        [|exact T4].
      apply typed_set; [exact T4|intros E; discriminate E|].
      intros _ s Hs. inversion Hs. auto.
  - inversion H; subst f'. exact T4.
Qed.

Lemma scan_line_typed (st st' : scan) (line : string) :
  scan_line st line = Ok st' -> scan_typed st -> scan_typed st'.
Proof.
  unfold scan_line. rewrite scan_line_current.
  set (cur := match _infer_retailer line with
              | Some r => Some r
              | None => current_retailer st
              end). clearbody cur.
  intros H T.
  destruct cur as [r0|]; [|inversion H; subst st'; exact T].
  destruct (truthy r0); [|inversion H; subst st'; exact T].
  destruct (get_setdefault (offers_by_retailer st) r0 []) as (fields & Hget & Hold).
  unfold getitem in H. rewrite Hget in H. cbn [bind] in H.
  destruct (_capture_line_fields fields line) as [f'|] eqn:Ec; cbn [bind] in H;
    [|discriminate].
  inversion H; subst st'; clear H. intros r f Hr. cbn [offers_by_retailer] in Hr.
  destruct (String.eqb_spec r0 r) as [->|Hne].
  - rewrite get_set_same in Hr. inversion Hr; subst f.
    apply (capture_typed _ _ _ Ec).
    destruct Hold as [Hold|[_ ->]]; [exact (T _ _ Hold)|].
    split; intros v Hv; discriminate Hv.
  - rewrite get_set_other in Hr by exact Hne.
    rewrite get_setdefault_other in Hr by exact Hne.
    exact (T _ _ Hr).
Qed.

Lemma scan_lines_typed (lines : list string) :
  forall st st', scan_lines st lines = Ok st' -> scan_typed st -> scan_typed st'.
Proof.
  induction lines as [|line rest IH]; intros st st' H T; simpl in H.
  - inversion H; subst; exact T.
  - destruct (scan_line st line) as [st1|] eqn:E; cbn [bind] in H; [|discriminate].
    exact (IH _ _ H (scan_line_typed _ _ _ E T)).
Qed.

Lemma scan_init_typed : scan_typed scan_init.
Proof. intros r f H. discriminate. Qed.

Lemma build_offer_carries (r : string) (fields : fields_dict) (o : ParsedOffer)
    (k v : string) :
  _build_offer r fields = Ok o ->
  typed fields -> good fields ->
  fields_get fields k = Some v ->
  retailer o = r /\ carries o k v.
Proof.
  intros Hb [Tp Tv] G Hk.
  destruct (build_offer_total r fields) as (o' & Ho' & Hr).
  rewrite Hb in Ho'. inversion Ho'; subst o'. split; [exact Hr|].
  unfold _build_offer in Hb. unfold carries.
  split; [|split; [|split; [|split]]]; intros ->.
  - destruct (Tp v Hk) as [x Hx]. exists x. split; [exact Hx|].
    assert (Ht : truthy v = true) by (apply (G "price" v Hk); simpl; auto).
    unfold unset in Hb. rewrite Hk, Ht in Hb. cbn [negb] in Hb.
    unfold getitem in Hb. unfold fields_get in Hk.
    destruct (get fields "price") as [[s|]|]; try discriminate.
    inversion Hk; subst s. cbn [bind float_of] in Hb. rewrite Hx in Hb.
    cbn [bind] in Hb. inversion Hb. reflexivity.
  - destruct (if negb (unset fields "price") then _ else _) as [p|];
      cbn [bind] in Hb; [|discriminate].
    inversion Hb. cbn [url]. exact Hk.
  - destruct (if negb (unset fields "price") then _ else _) as [p|];
      cbn [bind] in Hb; [|discriminate].
    inversion Hb. cbn [availability]. exact Hk.
  - destruct (if negb (unset fields "price") then _ else _) as [p|];
      cbn [bind] in Hb; [|discriminate].
    inversion Hb. cbn [seller]. exact Hk.
  - destruct (if negb (unset fields "price") then _ else _) as [p|];
      cbn [bind] in Hb; [|discriminate].
    inversion Hb. cbn [variant_match]. rewrite Hk.
    destruct (Tv v Hk) as [->| ->]; [left|right]; split; reflexivity.
Qed.

Lemma firstn_le_split {A : Type} (l : list A) :
  forall n m : nat, (n <= m)%nat ->
    firstn m l = (firstn n l ++ firstn (m - n)%nat (skipn n l))%list.
Proof.
  induction l as [|x l IH]; intros n m H.
  - rewrite !firstn_nil, skipn_nil, firstn_nil. reflexivity.
  - destruct n as [|n]; [rewrite Nat.sub_0_r; reflexivity|].
    destruct m as [|m]; [lia|]. simpl. rewrite (IH n m) by lia. reflexivity.
Qed.

Lemma NoDup_map_unique {A B : Type} (f : A -> B) (l : list A) (x y : A) :
  NoDup (map f l) -> In x l -> In y l -> f x = f y -> x = y.
Proof.
  induction l as [|a l IH]; simpl; intros Hn Hx Hy E; [contradiction|].
  inversion Hn as [|? ? Hna Hnl]; subst.
  destruct Hx as [->|Hx], Hy as [->|Hy].
  - reflexivity.
  - exfalso. apply Hna. rewrite E. apply in_map. exact Hy.
  - exfalso. apply Hna. rewrite <- E. apply in_map. exact Hx.
  - exact (IH Hnl Hx Hy E).
Qed.

(** C7, as the code has it.  Take the state of the scan after any number
    of the non-blank lines of the text.  A non-empty value it holds for a
    field of a retailer is still there after every further line, and the
    one offer the parser emits for that retailer carries it: as its url,
    availability or seller, as the number its price text spells, as the
    boolean its variant-match value spells.  Price, url and variant-match
    captures are never empty, so for them every recorded value is final;
    an empty availability or seller capture (a label with nothing after
    the colon) is not covered. *)
Theorem first_nonempty_capture_wins (raw_text : option string) (n : nat) :
  exists st1 out,
    scan_lines scan_init (firstn n (nonempty_lines (text_of raw_text))) = Ok st1 /\
    parse_agent_output raw_text = Ok out /\
    forall r k v,
      field_of st1 r k = Some v ->
      truthy v = true \/ In k nonempty_keys ->
      truthy v = true /\
      (forall m, (n <= m)%nat ->
         exists st2,
           scan_lines scan_init (firstn m (nonempty_lines (text_of raw_text)))
             = Ok st2 /\
           field_of st2 r k = Some v) /\
      exists o,
        In o (offers out) /\ retailer o = r /\
        (forall o', In o' (offers out) -> retailer o' = r -> o' = o) /\
        carries o k v.
Proof.
  destruct (parse_agent_output_stages raw_text)
    as (st & os & c & b & Hst & Hos & _ & _ & H).
  cbv zeta in *. set (lines := nonempty_lines (text_of raw_text)) in *.
  destruct (scan_lines_spec (firstn n lines) scan_init) as (st1 & H1 & _ & G1).
  pose proof (G1 scan_init_good) as Hg1.
  exists st1. eexists. split; [exact H1|]. split; [exact H|].
  cbn [offers]. intros r k v Hf Hv. split; [|split].
  - destruct Hv as [Hv|Hv]; [exact Hv|]. unfold field_of in Hf.
    destruct (get (offers_by_retailer st1) r) as [f|] eqn:Ef; [|discriminate].
    exact (Hg1 r f Ef k v Hf Hv).
  - intros m Hm.
    destruct (scan_lines_spec (firstn (m - n)%nat (skipn n lines)) st1)
      as (st2 & H2 & K2 & _).
    exists st2. split.
    + rewrite (firstn_le_split lines n m Hm), scan_lines_app, H1. exact H2.
    + exact (field_of_kept _ _ _ _ _ K2 Hg1 Hf Hv).
  - destruct (scan_lines_spec (skipn n lines) st1) as (st2 & H2 & K2 & G2).
    assert (E : st2 = st).
    { pose proof (scan_lines_app (firstn n lines) (skipn n lines) scan_init) as Ha.
      rewrite firstn_skipn, H1 in Ha. cbn [bind] in Ha.
      rewrite Hst, H2 in Ha. inversion Ha. reflexivity. }
    subst st2.
    pose proof (field_of_kept _ _ _ _ _ K2 Hg1 Hf Hv) as Hfin.
    unfold field_of in Hfin.
    destruct (get (offers_by_retailer st) r) as [fields|] eqn:Ef; [|discriminate].
    destruct (mapM_In _ _ _ (r, fields) Hos (get_In _ _ _ Ef)) as (o & Hin & Hb).
    pose proof (scan_lines_typed _ _ _ Hst scan_init_typed r fields Ef) as Ht.
    pose proof (G2 Hg1 r fields Ef) as Hgood.
    destruct (build_offer_carries _ _ _ _ _ Hb Ht Hgood Hfin) as [Hr Hc].
    exists o. split; [exact Hin|]. split; [exact Hr|]. split; [|exact Hc].
    intros o' Hin' Hr'.
    destruct (scan_lines_keys _ _ _ scan_init_wf Hst) as [[Hnd _] _].
    rewrite <- (build_offers_keys _ _ Hos) in Hnd.
    apply (NoDup_map_unique retailer os); [exact Hnd|exact Hin'|exact Hin|].
    congruence.
Qed.

End CapturedOffers.

Section KeywordsNeeded.
Import PyStr PyFloat Regex RegexSem Parser ScanSpec ParserSpec OfferSpec CaptureSpec.
Open Scope string_scope.

Lemma lower_split (p : string) :
  forall u t, lower u = p ++ t ->
    exists w v, u = w ++ v /\ lower w = p /\ lower v = t.
Proof.
  induction p as [|c p IH]; intros u t H.
  - exists "", u. auto.
  - destruct u as [|x u]; simpl in H; [discriminate|].
    inversion H as [[Hx Hu]]. destruct (IH _ _ Hu) as (w & v & -> & Hw & Hv).
    exists (String x w), v. simpl. rewrite Hw. auto.
Qed.

(** A text whose lower case is the literal is matched by the
    case-insensitive literal, whatever follows. *)
Lemma run_StrI_complete {A : Type} (p : string) :
  forall (w rest : string) (g : option string)
         (k : string -> string -> option string -> option A),
    lower w = p -> run (StrI p) (w ++ rest) g k = k w rest g.
Proof.
  induction p as [|c p IH]; intros w rest g k H.
  - destruct w; [reflexivity|discriminate].
  - destruct w as [|x w]; simpl in H; [discriminate|].
    inversion H as [[Hx Hw]]. cbn [StrI run append]. unfold LitI at 1. cbn [run].
    rewrite Ascii.eqb_refl. rewrite Hw. rewrite (IH w rest g _ Hw). reflexivity.
Qed.

Lemma search_found (r : regex) (a s : string) :
  run r s None (fun w _ g => Some (mk_match w g)) <> None ->
  search r (a ++ s) <> None.
Proof.
  intros H. induction a as [|c a IH]; simpl.
  - destruct s; simpl;
      destruct (run r _ None (fun w _ g => Some (mk_match w g))); congruence.
  - destruct (run r (String c (a ++ s)) None _); [discriminate|exact IH].
Qed.

Lemma contains_matches (text kw : string) :
  contains_ci text kw = true -> matches_ci text kw = true.
Proof.
  unfold contains_ci, matches_ci. intros H. apply str_in_spec in H.
  destruct H as (a & b & H).
  destruct (lower_split a _ _ H) as (a' & u & -> & _ & Hu).
  destruct (lower_split kw _ _ Hu) as (w & v & -> & Hw & _).
  assert (Hs : search (StrI kw) (a' ++ w ++ v) <> None).
  { apply search_found. rewrite (run_StrI_complete kw w v None _ Hw). discriminate. }
  destruct (search (StrI kw) (a' ++ w ++ v)); [reflexivity|congruence].
Qed.

(** X17. The parser reports nothing the text does not announce: every
    offer is for a retailer whose keyword occurs in the lower-cased text, a
    chosen offer is reported only if some part of the text matches
    "chosen retailer", and a within-budget answer only if some part
    matches "within budget", letter case ignored as the parser's patterns
    ignore it. *)
Theorem parser_reports_need_keywords (raw_text : option string) :
  exists out,
    parse_agent_output raw_text = Ok out /\
    (forall o, In o (offers out) -> mentions (text_of raw_text) (retailer o) = true) /\
    (chosen out <> None -> matches_ci (text_of raw_text) "chosen retailer" = true) /\
    (Parser.within_budget out <> None ->
     matches_ci (text_of raw_text) "within budget" = true).
Proof.
  destruct (parse_agent_output_parts raw_text) as (st & out & Hst & H & Hk & Hc & Hb).
  cbv zeta in *.
  destruct (scan_lines_keys _ _ _ scan_init_wf Hst) as [_ K].
  exists out. split; [exact H|]. split; [|split].
  - intros o Ho. apply (in_map retailer) in Ho. rewrite Hk in Ho.
    apply K in Ho. destruct Ho as [[]|(l & Hl & Hi)].
    apply (mentions_part l); [exact (nonempty_lines_part _ _ Hl)|].
    exact (proj2 (infer_retailer_known _ _ Hi)).
  - destruct (chosen out) as [o|]; [|congruence]. intros _.
    apply contains_matches. exact (parse_chosen_offer_keyword _ _ Hc).
  - destruct (Parser.within_budget out) as [b|]; [|congruence]. intros _.
    apply contains_matches. exact (parse_within_budget_keyword _ _ Hb).
Qed.

Lemma chosen_needs_match (raw_text : option string) (out : ParsedAgentOutput) :
  parse_agent_output raw_text = Ok out ->
  matches_ci (text_of raw_text) "chosen retailer" = false ->
  chosen out = None.
Proof.
  intros H Hn.
  destruct (parse_agent_output_parts raw_text) as (st & out' & _ & H' & _ & Hc & _).
  cbv zeta in *. rewrite H in H'. inversion H'; subst out'.
  destruct (chosen out) as [o|]; [|reflexivity].
  rewrite (contains_matches _ _ (parse_chosen_offer_keyword _ _ Hc)) in Hn.
  discriminate.
Qed.

End KeywordsNeeded.

Section Silence.
Import PyStr PyFloat Schema Parser Evaluator EvalSpec ParserSpec OfferSpec CaptureSpec.
Open Scope string_scope.

(** X18. When no part of the agent's text matches "chosen retailer"
    (letter case ignored as the parser's patterns ignore it), the
    evaluation reports nothing about the agent: the chosen price and
    retailer, the qualification of the choice, the found-best flag, the
    within-budget flag and the money left on the table are all unknown. *)
Theorem silent_agent_all_unknown (cs : CaseStudy.t) :
  matches_ci (AgentOutput.raw_text (CaseStudy.agent_output cs)) "chosen retailer"
    = false ->
  exists res,
    evaluate_case_study cs = Ok res /\
    agent_chosen_price_usd res = None /\
    agent_chosen_retailer res = None /\
    agent_choice_qualified res = None /\
    found_best_first_party_price res = None /\
    Evaluator.within_budget res = None /\
    money_left_on_table_usd res = None.
Proof.
  intros Hn.
  destruct (evaluate_fields cs)
    as (parsed & res & Hp & He & _ & _ & Hpr & Hre & Hq & Hf & Hw & Hm).
  cbv zeta in *.
  assert (Hc : chosen parsed = None).
  { apply (chosen_needs_match _ _ Hp). unfold text_of.
    destruct (truthy _); [exact Hn|reflexivity]. }
  rewrite Hc in *. cbn [_match_offer_to_evidence option_map] in *.
  exists res. split; [exact He|].
  rewrite Hf, Hw, Hm, Hpr.
  repeat split; try assumption;
    destruct (best_of _ _); try reflexivity;
    destruct (TaskSpec.budget_usd _); reflexivity.
Qed.

Lemma silent_agent_all_unknown_witness :
  exists res,
    evaluate_case_study Examples.free_offer_case = Ok res /\
    agent_chosen_price_usd res = None /\
    agent_chosen_retailer res = None /\
    agent_choice_qualified res = None /\
    found_best_first_party_price res = None /\
    Evaluator.within_budget res = None /\
    money_left_on_table_usd res = None.
Proof.
  apply (silent_agent_all_unknown Examples.free_offer_case).
  vm_compute; reflexivity.
Defined.

End Silence.

Section ChoiceVerdict.
Import PyStr PyFloat Schema Evaluator EvalSpec ParserSpec.
Open Scope string_scope.


End ChoiceVerdict.

(** ** The loader *)

Section LoaderFacts.
Context {D : Datetime} {J : JsonDecoder}.
Import PyStr Schema Docs SchemaSpec Loader LoaderSpec.
Open Scope string_scope.

Lemma name_ltb_irrefl (p : string) : String.ltb p p = false.
Proof.
  unfold String.ltb.
  pose proof (proj2 (OrderedTypeEx.String_as_OT.cmp_eq p p) eq_refl) as H.
  unfold OrderedTypeEx.String_as_OT.cmp in H. rewrite H. reflexivity.
Qed.

Lemma name_ltb_asym (p q : string) : String.ltb p q = true -> String.ltb q p = false.
Proof.
  unfold String.ltb. rewrite (String.compare_antisym q p).
  destruct (String.compare p q); simpl; congruence.
Qed.

Lemma name_ltb_trans (p q r : string) :
  String.ltb p q = true -> String.ltb q r = true -> String.ltb p r = true.
Proof.
  unfold String.ltb.
  destruct (String.compare p q) eqn:E1; try discriminate.
  destruct (String.compare q r) eqn:E2; try discriminate. intros _ _.
  apply OrderedTypeEx.String_as_OT.cmp_lt in E1, E2.
  pose proof (proj2 (OrderedTypeEx.String_as_OT.cmp_lt p r)
                (OrderedTypeEx.String_as_OT.lt_trans _ _ _ E1 E2)) as H.
  unfold OrderedTypeEx.String_as_OT.cmp in H. rewrite H. reflexivity.
Qed.

Lemma name_ltb_total (p q : string) :
  String.ltb p q = false -> String.ltb q p = false -> p = q.
Proof.
  unfold String.ltb. rewrite (String.compare_antisym q p).
  destruct (String.compare p q) eqn:E; simpl; try discriminate.
  intros _ _. apply String.compare_eq_iff. exact E.
Qed.

Lemma insert_comm (x y : string) (l : list string) :
  insert x (insert y l) = insert y (insert x l).
Proof.
  induction l as [|z l IH]; simpl.
  - destruct (String.ltb x y) eqn:Exy.
    + rewrite (name_ltb_asym _ _ Exy). reflexivity.
    + destruct (String.ltb y x) eqn:Eyx; [reflexivity|].
      rewrite (name_ltb_total _ _ Exy Eyx). reflexivity.
  - destruct (String.ltb y z) eqn:Eyz, (String.ltb x z) eqn:Exz; simpl.
    + destruct (String.ltb x y) eqn:Exy.
      * rewrite (name_ltb_asym _ _ Exy), Eyz. reflexivity.
      * rewrite Exz. destruct (String.ltb y x) eqn:Eyx; [reflexivity|].
        rewrite Eyz, (name_ltb_total _ _ Exy Eyx). reflexivity.
    + destruct (String.ltb x y) eqn:Exy.
      * rewrite (name_ltb_trans _ _ _ Exy Eyz) in Exz. discriminate.
      * rewrite Exz, Eyz. reflexivity.
    + destruct (String.ltb y x) eqn:Eyx.
      * rewrite (name_ltb_trans _ _ _ Eyx Exz) in Eyz. discriminate.
      * rewrite Exz, Eyz. reflexivity.
    + rewrite Exz, Eyz, IH. reflexivity.
Qed.

Lemma sorted_filter_permutation (f : string -> bool) (l l' : list string) :
  Permutation l l' -> sorted (filter f l) = sorted (filter f l').
Proof.
  induction 1 as [|x l l' _ IH|x y l|l1 l2 l3 _ IH1 _ IH2]; simpl.
  - reflexivity.
  - destruct (f x); simpl; rewrite IH; reflexivity.
  - destruct (f x), (f y); simpl; try reflexivity. apply insert_comm.
  - rewrite IH1. exact IH2.
Qed.

Lemma insert_In (x p : string) (l : list string) :
  In p (insert x l) <-> p = x \/ In p l.
Proof.
  induction l as [|q l IH]; simpl.
  - intuition.
  - destruct (String.ltb x q); simpl; [intuition|]. rewrite IH. intuition.
Qed.

Lemma sorted_In (p : string) (l : list string) : In p (sorted l) <-> In p l.
Proof.
  induction l as [|x l IH]; simpl; [tauto|].
  rewrite insert_In, IH. intuition.
Qed.

Lemma insert_Sorted (x : string) (l : list string) :
  Sorted name_le l -> Sorted name_le (insert x l).
Proof.
  induction l as [|q l IH]; simpl; intros H.
  - constructor; constructor.
  - destruct (String.ltb x q) eqn:E.
    + constructor; [exact H|]. constructor. unfold name_le.
      exact (name_ltb_asym _ _ E).
    + inversion H as [|? ? Hs Hh]; subst. constructor; [exact (IH Hs)|].
      destruct l as [|r l]; simpl.
      * constructor. exact E.
      * destruct (String.ltb x r); constructor; [exact E|].
        inversion Hh; assumption.
Qed.

Lemma sorted_Sorted (l : list string) : Sorted name_le (sorted l).
Proof.
  induction l as [|x l IH]; simpl; [constructor|apply insert_Sorted, IH].
Qed.

(** X20. The files the loader visits are exactly the entries matched in
    an existing directory that are files, in the order of their names,
    whatever the order in which the system lists the directory. *)
Theorem files_sorted_whatever_the_listing (d : Directory) :
  (forall p, In p (iter_case_study_files d) <->
             dir_exists d = true /\ In p (glob_json d) /\ is_file d p = true) /\
  Sorted name_le (iter_case_study_files d) /\
  (forall names, Permutation names (glob_json d) ->
     iter_case_study_files (relist d names) = iter_case_study_files d /\
     load_case_studies (relist d names) = load_case_studies d).
Proof.
  unfold iter_case_study_files. split; [|split].
  - intros p. destruct (dir_exists d); simpl.
    + rewrite sorted_In, filter_In. intuition.
    + intuition discriminate.
  - destruct (dir_exists d); simpl; [apply sorted_Sorted|constructor].
  - intros names Hp.
    assert (Hi : iter_case_study_files (relist d names) = iter_case_study_files d).
    { unfold iter_case_study_files. cbn [relist dir_exists glob_json is_file].
      destruct (dir_exists d); simpl; [|reflexivity].
      exact (sorted_filter_permutation _ _ _ Hp). }
    split; [exact Hi|].
    unfold load_case_studies. rewrite Hi.
    generalize (iter_case_study_files d) as paths.
    generalize (@nil CaseStudy.t) as acc.
    intros acc paths. revert acc.
    induction paths as [|path rest IH]; intros acc; [reflexivity|].
    cbn [load_loop relist read_text path_str].
    destruct (read_text d path) as [text|]; [|reflexivity].
    destruct (json_loads text) as [data|exc]; [|reflexivity].
    destruct (CaseStudy.from_dict data) as [cs|e]; [apply IH|reflexivity].
Qed.

Lemma load_loop_step (d : Directory) (acc : list CaseStudy.t) (path : string)
    (rest : list string) :
  load_loop d acc (path :: rest) =
  match load_file d path with
  | Loaded cs => load_loop d (acc ++ [cs]) rest
  | Failed e => Failed e
  end.
Proof.
  unfold load_file. cbn [load_loop].
  destruct (read_text d path) as [text|]; [|reflexivity].
  destruct (json_loads text) as [data|exc]; [|reflexivity].
  destruct (CaseStudy.from_dict data) as [cs|[]]; reflexivity.
Qed.

Lemma load_loop_loaded (d : Directory) (paths : list string) :
  forall acc css,
    load_loop d acc paths = Loaded css <->
    exists new, css = (acc ++ new)%list /\
                Forall2 (fun p cs => load_file d p = Loaded cs) paths new.
Proof.
  induction paths as [|path rest IH]; intros acc css.
  - simpl. split.
    + intros H; inversion H; subst. exists []. rewrite app_nil_r.
      split; [reflexivity|constructor].
    + intros (new & -> & H). inversion H; subst. rewrite app_nil_r. reflexivity.
  - rewrite load_loop_step. destruct (load_file d path) as [cs|e] eqn:E.
    + rewrite IH. split.
      * intros (new & -> & H). exists (cs :: new). rewrite <- app_assoc.
        split; [reflexivity|]. constructor; assumption.
      * intros (new & -> & H). inversion H as [|? y ? new' Hy Hr]; subst.
        rewrite E in Hy. inversion Hy; subst y.
        exists new'. rewrite <- app_assoc. split; [reflexivity|exact Hr].
    + split; [discriminate|]. intros (new & _ & H).
      inversion H; subst. congruence.
Qed.

Lemma load_loop_failed (d : Directory) (paths : list string) :
  forall acc e,
    load_loop d acc paths = Failed e <->
    exists pre path post,
      paths = (pre ++ path :: post)%list /\
      Forall (loads_well d) pre /\ load_file d path = Failed e.
Proof.
  induction paths as [|path rest IH]; intros acc e.
  - simpl. split; [discriminate|].
    intros (pre & p & post & H & _). destruct pre; discriminate.
  - rewrite load_loop_step. destruct (load_file d path) as [cs|e'] eqn:E.
    + rewrite IH. split.
      * intros (pre & p & post & -> & Hpre & Hp).
        exists (path :: pre), p, post. split; [reflexivity|].
        split; [|exact Hp]. constructor; [exists cs; exact E|exact Hpre].
      * intros (pre & p & post & Heq & Hpre & Hp).
        destruct pre as [|q pre]; simpl in Heq; inversion Heq; subst.
        -- congruence.
        -- inversion Hpre; subst. exists pre, p, post. auto.
    + split.
      * intros H; inversion H; subst e'. exists [], path, rest.
        split; [reflexivity|]. split; [constructor|exact E].
      * intros (pre & p & post & Heq & Hpre & Hp).
        destruct pre as [|q pre]; simpl in Heq; inversion Heq; subst.
        -- congruence.
        -- inversion Hpre as [|? ? [cs Hcs] ?]; subst. congruence.
Qed.

(** X21. [load_case_studies] returns a list exactly when every visited
    file is read, decoded and constructed, and the list then holds the
    case studies of the files in the order of the visit; it fails exactly
    with the failure of the first file, in that order, that does not
    load, and later files play no part. *)
Theorem load_case_studies_spec (d : Directory) :
  (forall css,
     load_case_studies d = Loaded css <->
     Forall2 (fun p cs => load_file d p = Loaded cs) (iter_case_study_files d) css) /\
  (forall e,
     load_case_studies d = Failed e <->
     exists pre path post,
       iter_case_study_files d = (pre ++ path :: post)%list /\
       Forall (loads_well d) pre /\ load_file d path = Failed e).
Proof.
  unfold load_case_studies. split.
  - intros css. rewrite load_loop_loaded. simpl. split.
    + intros (new & -> & H). exact H.
    + intros H. exists css. auto.
  - intros e. apply load_loop_failed.
Qed.

Lemma non_object_document (data : json) :
  is_object data = false -> CaseStudy.from_dict data = Raise AttributeError.
Proof. destruct data; try discriminate; reflexivity. Qed.

(** X22. The loader wraps schema errors only.  For the first file that
    does not load: a schema error of the constructor comes out as a
    [CaseStudyLoadError] that names the file, but a decoded value that is
    not an object (a list, a string, a number, null) makes
    [load_case_studies] fail with the constructor's [AttributeError]
    itself, and every other exception of the constructor escapes as it
    is. *)
Theorem loader_wraps_schema_errors_only (d : Directory) (pre post : list string)
    (path text : string) (data : json) :
  iter_case_study_files d = (pre ++ path :: post)%list ->
  Forall (loads_well d) pre ->
  read_text d path = Some text ->
  json_loads text = Decoded data ->
  (is_object data = false ->
   load_case_studies d = Failed (Escaped AttributeError)) /\
  (forall msg, CaseStudy.from_dict data = Raise (SchemaError msg) ->
     load_case_studies d =
       Failed (CaseStudyLoadError
                 ("Schema error in " ++ path_str d path ++ ": " ++ msg))) /\
  (forall e, CaseStudy.from_dict data = Raise e ->
     (forall msg, e <> SchemaError msg) ->
     load_case_studies d = Failed (Escaped e)).
Proof.
  intros Hp Hpre Hr Hj.
  assert (Hfail : forall e, load_file d path = Failed e ->
                            load_case_studies d = Failed e).
  { intros e He. apply load_loop_failed. exists pre, path, post. auto. }
  assert (Hesc : forall e, CaseStudy.from_dict data = Raise e ->
                           (forall msg, e <> SchemaError msg) ->
                           load_case_studies d = Failed (Escaped e)).
  { intros e He Hne. apply Hfail. unfold load_file. rewrite Hr, Hj, He.
    destruct e; try reflexivity. exfalso. exact (Hne _ eq_refl). }
  split; [|split].
  - intros Hd. apply Hesc; [exact (non_object_document _ Hd)|discriminate].
  - intros msg He. apply Hfail. unfold load_file. rewrite Hr, Hj, He. reflexivity.
  - exact Hesc.
Qed.

End LoaderFacts.

Section LoaderSamples.
Import PyStr Schema Docs SchemaSpec Loader LoaderSpec.
Open Scope string_scope.

(** A directory whose only file holds the JSON text "[]". *)
Lemma loader_wraps_schema_errors_only_witness :
  @load_case_studies IsoFormat.core sample_decoder (uniform_dir ["a.json"] "[]") =
    Failed (Escaped AttributeError).
Proof.
  refine (proj1 (@loader_wraps_schema_errors_only IsoFormat.core sample_decoder
                   (uniform_dir ["a.json"] "[]") [] [] "a.json" "[]" (JList [])
                   _ _ _ _) _).
  - reflexivity.
  - constructor.
  - reflexivity.
  - reflexivity.
  - reflexivity.
Defined.

(** Two valid files, listed in the reverse order of their names. *)
Example load_two_files :
  exists cs,
    @CaseStudy.from_dict IsoFormat.core Examples.valid_doc = Ok cs /\
    @load_case_studies IsoFormat.core sample_decoder
       (uniform_dir ["b.json"; "a.json"] "{}") = Loaded [cs; cs] /\
    iter_case_study_files (uniform_dir ["b.json"; "a.json"] "{}") =
      ["a.json"; "b.json"].
Proof.
  eexists. split; [vm_compute; reflexivity|].
  split; vm_compute; reflexivity.
Qed.

End LoaderSamples.
